(** * Medical AI agent: result merging, tool failure boundaries, mock
      retrieval and document parsing

    A shallow embedding of [agents.py], [ingestion.py] and [retriever.py].
    Python values that can come out of [json.loads] are an inductive type,
    a [dict] is an insertion-ordered association list compared with Python's
    key equality, and code that mutates the [results] dictionary inside
    [try]/[except] runs in a small state-and-exception monad in which a
    mutation made before an exception survives the handler.  A Python [str]
    is a [string], one character for one code point (below 256).  Calls into
    libraries outside the repository ([json.loads], the PDF and OCR
    libraries, the agent framework) are given by their outcome: a value, or
    the exception raised. *)

From Stdlib Require Import ZArith List String Ascii Bool Lia.
From Stdlib.Strings Require Import Byte.
From Stdlib Require Import SpecFloat DecimalString DecimalNat.
Import ListNotations.

Set Implicit Arguments.
Local Set Warnings "-register-all".
Local Open Scope string_scope.

(** ** Python values *)

Module Py.

(** Hashable values reachable from decoded JSON: [None], [bool], [int],
    [float] (IEEE binary64, as [spec_float]) and [str]. *)
Inductive key : Type :=
| KNone
| KBool (b : bool)
| KInt (z : Z)
| KFloat (f : spec_float)
| KStr (s : string).

(** What [json.loads] returns: the scalars, [list] and [dict]. *)
Inductive value : Type :=
| VNone
| VBool (b : bool)
| VInt (z : Z)
| VFloat (f : spec_float)
| VStr (s : string)
| VList (l : list value)
| VDict (d : list (key * value)).

(** A [dict] keeps its entries in insertion order. *)
Definition dict : Type := list (key * value).

Definition value_of_key (k : key) : value :=
  match k with
  | KNone => VNone
  | KBool b => VBool b
  | KInt z => VInt z
  | KFloat f => VFloat f
  | KStr s => VStr s
  end.

(** [hash(v)] succeeds on scalars and raises [TypeError] on [list] and
    [dict]. *)
Definition hashable (v : value) : option key :=
  match v with
  | VNone => Some KNone
  | VBool b => Some (KBool b)
  | VInt z => Some (KInt z)
  | VFloat f => Some (KFloat f)
  | VStr s => Some (KStr s)
  | VList _ => None
  | VDict _ => None
  end.

(** Python compares numeric keys by exact value: [True == 1 == 1.0].  A key
    is sent to a canonical representative: a finite number is [m * 2^e] with
    [m] odd (or [0 * 2^0]). *)
Inductive keyclass : Type :=
| CNone
| CNum (m e : Z)
| CInf (neg : bool)
| CNan
| CStr (s : string).

Fixpoint odd_part (p : positive) (e : Z) : positive * Z :=
  match p with
  | xO q => odd_part q (e + 1)
  | _ => (p, e)
  end.

Definition num_class (m e : Z) : keyclass :=
  match m with
  | Z0 => CNum 0 0
  | Zpos p => let (q, e') := odd_part p e in CNum (Zpos q) e'
  | Zneg p => let (q, e') := odd_part p e in CNum (Zneg q) e'
  end.

(** The [NaN] that [json.loads] produces is one module-level object, so as a
    dictionary key it is found again by identity. *)
Definition key_class (k : key) : keyclass :=
  match k with
  | KNone => CNone
  | KBool b => num_class (if b then 1 else 0) 0
  | KInt z => num_class z 0
  | KFloat (S754_zero _) => CNum 0 0
  | KFloat (S754_infinity s) => CInf s
  | KFloat S754_nan => CNan
  | KFloat (S754_finite s m e) => num_class (if s then Zneg m else Zpos m) e
  | KStr s => CStr s
  end.

Definition keyclass_eqb (a b : keyclass) : bool :=
  match a, b with
  | CNone, CNone => true
  | CNum m e, CNum m' e' => Z.eqb m m' && Z.eqb e e'
  | CInf s, CInf s' => Bool.eqb s s'
  | CNan, CNan => true
  | CStr s, CStr s' => String.eqb s s'
  | _, _ => false
  end.

Definition key_eqb (k k' : key) : bool :=
  keyclass_eqb (key_class k) (key_class k').

(** [d.get(k)] *)
Fixpoint dict_get (k : key) (d : dict) : option value :=
  match d with
  | [] => None
  | (k', v) :: d' => if key_eqb k k' then Some v else dict_get k d'
  end.

(** [d.get(k, default)] *)
Definition dict_get_default (k : key) (default : value) (d : dict) : value :=
  match dict_get k d with
  | Some v => v
  | None => default
  end.

(** [k in d] *)
Definition dict_mem (k : key) (d : dict) : bool :=
  match dict_get k d with
  | Some _ => true
  | None => false
  end.

(** [d[k] = v]: an existing entry keeps its position and its key object and
    takes the new value, a new key is appended. *)
Fixpoint dict_set (k : key) (v : value) (d : dict) : dict :=
  match d with
  | [] => [(k, v)]
  | (k', v') :: d' =>
      if key_eqb k k' then (k', v) :: d' else (k', v') :: dict_set k v d'
  end.

Definition dict_keys (d : dict) : list key := map fst d.

(** ** Strings *)

(** [s[:n]] *)
Fixpoint str_take (n : nat) (s : string) : string :=
  match n, s with
  | S n', String c s' => String c (str_take n' s')
  | _, _ => EmptyString
  end.

(** [list(s)]: the one-character strings of [s]. *)
Definition str_chars (s : string) : list value :=
  map (fun c => VStr (String c EmptyString)) (list_ascii_of_string s).

Arguments str_take : simpl never.

Definition str_of_nat (n : nat) : string :=
  NilEmpty.string_of_uint (Nat.to_uint n).

Fixpoint str_join (sep : string) (parts : list string) : string :=
  match parts with
  | [] => EmptyString
  | [p] => p
  | p :: rest => p ++ sep ++ str_join sep rest
  end.

(** ** Exceptions *)

Inductive exn_class : Type :=
| ImportError
| ModuleNotFoundError
| TypeError
| ValueError
| JSONDecodeError
| AttributeError
| LibraryError (name : string).

Record exn : Type := mkExn { exn_cls : exn_class; exn_msg : string }.

(** [except ImportError] also catches its subclass [ModuleNotFoundError];
    [except Exception] catches every class modelled here. *)
Definition is_ImportError (e : exn) : bool :=
  match exn_cls e with
  | ImportError | ModuleNotFoundError => true
  | _ => false
  end.

Inductive result (A : Type) : Type :=
| Ok (a : A)
| Raise (e : exn).
Arguments Ok {A} a.
Arguments Raise {A} e.

Definition is_ok {A} (r : result A) : bool :=
  match r with Ok _ => true | Raise _ => false end.

Definition and_then {A B} (r : result A) (f : A -> result B) : result B :=
  match r with
  | Ok a => f a
  | Raise e => Raise e
  end.

End Py.
Import Py.

(** ** Code that mutates a dictionary and may raise *)

Module Mut.

(** A computation over the dictionary it mutates.  The dictionary is
    returned in both outcomes: what was stored before a [raise] stays. *)
Definition M (A : Type) : Type := dict -> result A * dict.

Definition ret {A} (a : A) : M A := fun d => (Ok a, d).

Definition bind {A B} (c : M A) (f : A -> M B) : M B :=
  fun d =>
    match c d with
    | (Ok a, d') => f a d'
    | (Raise e, d') => (Raise e, d')
    end.

Definition raise {A} (e : exn) : M A := fun d => (Raise e, d).

Definition lift {A} (r : result A) : M A := fun d => (r, d).

(** [try: body  except Exception: handler] *)
Definition try_except {A} (body : M A) (handler : exn -> M A) : M A :=
  fun d =>
    match body d with
    | (Ok a, d') => (Ok a, d')
    | (Raise e, d') => handler e d'
    end.

(** [try: body  except Cls: handler]: an exception the clause does not
    name goes on to the caller. *)
Definition try_except_when {A} (catches : exn -> bool) (body : M A)
  (handler : exn -> M A) : M A :=
  fun d =>
    match body d with
    | (Ok a, d') => (Ok a, d')
    | (Raise e, d') => if catches e then handler e d' else (Raise e, d')
    end.

(** [results[k] = v] *)
Definition setitem (k : key) (v : value) : M unit :=
  fun d => (Ok tt, dict_set k v d).

Definition run {A} (c : M A) (d : dict) : result A * dict := c d.

End Mut.
Import Mut.

Declare Scope mut_scope.
Delimit Scope mut_scope with mut.
Notation "x <- c ;; k" := (bind c (fun x => k))
  (at level 61, c at next level, right associativity) : mut_scope.
Notation "c ;;; k" := (bind c (fun _ => k))
  (at level 61, right associativity) : mut_scope.
Notation "x <~ r ;; k" := (and_then r (fun x => k))
  (at level 61, r at next level, right associativity) : mut_scope.
Notation "r ;;* k" := (and_then r (fun _ => k))
  (at level 61, right associativity) : mut_scope.

Local Open Scope mut_scope.

(** ** [dict.update] *)

Module DictUpdate.

(** [PySequence_Fast(item)]: a [list] is taken as it is, a [str] gives its
    characters, a [dict] gives its keys; the other values are not iterable. *)
Definition as_sequence (item : value) : option (list value) :=
  match item with
  | VList l => Some l
  | VStr s => Some (str_chars s)
  | VDict o => Some (map value_of_key (dict_keys o))
  | _ => None
  end.

(** What one element of an update sequence does: store a pair, or raise. *)
Definition pair_of_item (i : nat) (item : value) : result (key * value) :=
  match as_sequence item with
  | None =>
      Raise (mkExn TypeError
        ("cannot convert dictionary update sequence element #"
           ++ str_of_nat i ++ " to a sequence"))
  | Some [k; v] =>
      match hashable k with
      | Some k' => Ok (k', v)
      | None => Raise (mkExn TypeError "unhashable type")
      end
  | Some fast =>
      Raise (mkExn ValueError
        ("dictionary update sequence element #" ++ str_of_nat i
           ++ " has length " ++ str_of_nat (List.length fast)
           ++ "; 2 is required"))
  end.

(** [PyDict_MergeFromSeq2]: the pairs are stored one by one, and the ones
    stored before a bad element stay in the dictionary. *)
Fixpoint merge_from_seq2 (i : nat) (items : list value) : M unit :=
  match items with
  | [] => ret tt
  | item :: rest =>
      kv <- lift (pair_of_item i item) ;;
      setitem (fst kv) (snd kv) ;;;
      merge_from_seq2 (S i) rest
  end.

(** [PyDict_Merge] from another [dict]: never raises. *)
Fixpoint merge_mapping (o : dict) : M unit :=
  match o with
  | [] => ret tt
  | (k, v) :: o' => setitem k v ;;; merge_mapping o'
  end.

(** [results.update(arg)] for an argument decoded from JSON: a mapping is
    merged key by key, any other iterable is read as a sequence of pairs, and
    a value that is not iterable raises [TypeError]. *)
Definition dict_update (arg : value) : M unit :=
  match arg with
  | VDict o => merge_mapping o
  | VList l => merge_from_seq2 0 l
  | VStr s => merge_from_seq2 0 (str_chars s)
  | VNone => raise (mkExn TypeError "'NoneType' object is not iterable")
  | VBool _ => raise (mkExn TypeError "'bool' object is not iterable")
  | VInt _ => raise (mkExn TypeError "'int' object is not iterable")
  | VFloat _ => raise (mkExn TypeError "'float' object is not iterable")
  end.

(** The first element of an update sequence, as the merge meets it; an
    empty sequence is accepted. *)
Definition merge_head (items : list value) : result unit :=
  match items with
  | [] => Ok tt
  | item :: _ => pair_of_item 0 item ;;* Ok tt
  end.

(** The keys an update tries to store, in order: all keys of a mapping, and
    for a sequence the keys of its leading well-formed pairs. *)
Fixpoint seq2_keys (i : nat) (items : list value) : list key :=
  match items with
  | [] => []
  | item :: rest =>
      match pair_of_item i item with
      | Ok kv => fst kv :: seq2_keys (S i) rest
      | Raise _ => []
      end
  end.

Definition update_keys (arg : value) : list key :=
  match arg with
  | VDict o => dict_keys o
  | VList l => seq2_keys 0 l
  | VStr s => seq2_keys 0 (str_chars s)
  | _ => []
  end.

(** The decoded values on which [dict_update] raises before it stores
    anything: the scalars that are not iterable, a [str] that is not empty
    (its first element is one character, not a pair), and a [list] whose
    first element is not a pair with a hashable first item. *)
Definition rejected_at_once (arg : value) : bool :=
  match arg with
  | VNone | VBool _ | VInt _ | VFloat _ => true
  | VStr s => negb (is_ok (merge_head (str_chars s)))
  | VList l => negb (is_ok (merge_head l))
  | VDict _ => false
  end.

(** A Python [dict] holds a key once. *)
Fixpoint dict_wf (d : dict) : bool :=
  match d with
  | [] => true
  | (k, _) :: d' => negb (existsb (key_eqb k) (dict_keys d')) && dict_wf d'
  end.

End DictUpdate.
Import DictUpdate.

(** ** Step 7 of [run_medical_analysis]: parse and merge results *)

Module Merge.

Section Merger.

(** [json.loads], from the Python standard library: the decoded value, or the
    exception it raises on text that is not JSON. *)
Variable json_loads : string -> result value.

(** [[
    try:
        results.update(json.loads(d_task.output.raw_output))
    except Exception:
        results["summary"] = str(d_task.output.raw_output)[:2000]
    ]] *)
Definition merge_diagnosis (raw_output : string) : M unit :=
  try_except
    (parsed <- lift (json_loads raw_output) ;; dict_update parsed)
    (fun _ => setitem (KStr "summary") (VStr (str_take 2000 raw_output))).

(** [[
    try:
        results.update(json.loads(task.output.raw_output))
    except Exception:
        pass
    ]] *)
Definition merge_stage (raw_output : string) : M unit :=
  try_except
    (parsed <- lift (json_loads raw_output) ;; dict_update parsed)
    (fun _ => ret tt).

(** Whether merging this raw output stores key [k]: it decodes, and [k] is
    among the keys the update stores. *)
Definition stage_writes (raw_output : string) (k : key) : bool :=
  match json_loads raw_output with
  | Ok parsed => existsb (key_eqb k) (update_keys parsed)
  | Raise _ => false
  end.

(** The raw outputs of the four tasks after [crew.kickoff()]. *)
Record stage_outputs : Type := mkOutputs {
  diagnosis_raw : string;
  prognosis_raw : string;
  lifestyle_raw : string;
  medication_raw : string
}.

(** Lines 357-377: from [results = {}] to [return results]. *)
Definition merge_body (o : stage_outputs) (raw_text : string) (metadata : dict)
  : M unit :=
  merge_diagnosis (diagnosis_raw o) ;;;
  merge_stage (prognosis_raw o) ;;;
  merge_stage (lifestyle_raw o) ;;;
  merge_stage (medication_raw o) ;;;
  setitem (KStr "raw_text") (VStr (str_take 3000 raw_text)) ;;;
  setitem (KStr "pages") (dict_get_default (KStr "pages") (VStr "N/A") metadata).

(** The dictionary as each stage leaves it. *)
Definition after_diagnosis (o : stage_outputs) : dict :=
  snd (merge_diagnosis (diagnosis_raw o) []).
Definition after_prognosis (o : stage_outputs) : dict :=
  snd (merge_stage (prognosis_raw o) (after_diagnosis o)).
Definition after_lifestyle (o : stage_outputs) : dict :=
  snd (merge_stage (lifestyle_raw o) (after_prognosis o)).
Definition after_medication (o : stage_outputs) : dict :=
  snd (merge_stage (medication_raw o) (after_lifestyle o)).

Definition merge_results (o : stage_outputs) (raw_text : string)
  (metadata : dict) : result dict :=
  match run (merge_body o raw_text metadata) [] with
  | (Ok _, results) => Ok results
  | (Raise e, _) => Raise e
  end.

End Merger.

End Merge.
Import Merge.

(** ** String methods used by the retriever and the parser *)

Module Text.

(** The line feed of Python's ["\n"]. *)
Definition nl : string := String "010"%char EmptyString.

Definition between (lo hi n : nat) : bool := Nat.leb lo n && Nat.leb n hi.

(** [c.isspace()] on the code points below 256. *)
Definition is_space (c : ascii) : bool :=
  let n := nat_of_ascii c in
  between 9 13 n || between 28 32 n || Nat.eqb n 133 || Nat.eqb n 160.

(** [c.lower()] on the code points below 256: [A-Z] and the accented capitals
    move up by 32. *)
Definition lower_char (c : ascii) : ascii :=
  let n := nat_of_ascii c in
  if between 65 90 n || (between 192 222 n && negb (Nat.eqb n 215))
  then ascii_of_nat (n + 32)
  else c.

(** [s.lower()] *)
Fixpoint str_lower (s : string) : string :=
  match s with
  | EmptyString => EmptyString
  | String c s' => String (lower_char c) (str_lower s')
  end.

(** [sub in s] *)
Fixpoint str_contains (sub s : string) : bool :=
  if prefix sub s then true
  else match s with
       | EmptyString => false
       | String _ s' => str_contains sub s'
       end.

(** [s.endswith(suffix)] *)
Fixpoint str_endswith (s suffix : string) : bool :=
  if String.eqb s suffix then true
  else match s with
       | EmptyString => false
       | String _ s' => str_endswith s' suffix
       end.

Definition str_is_empty (s : string) : bool :=
  match s with EmptyString => true | String _ _ => false end.

Fixpoint split_from (s word : string) : list string :=
  match s with
  | EmptyString => if str_is_empty word then [] else [word]
  | String c s' =>
      if is_space c
      then if str_is_empty word then split_from s' EmptyString
           else word :: split_from s' EmptyString
      else split_from s' (word ++ String c EmptyString)
  end.

(** [s.split()]: the maximal runs of characters that are not whitespace. *)
Definition str_split (s : string) : list string := split_from s EmptyString.

Fixpoint str_lstrip (s : string) : string :=
  match s with
  | EmptyString => EmptyString
  | String c s' => if is_space c then str_lstrip s' else s
  end.

Fixpoint str_rstrip (s : string) : string :=
  match s with
  | EmptyString => EmptyString
  | String c s' =>
      let r := str_rstrip s' in
      if is_space c && str_is_empty r then EmptyString else String c r
  end.

(** [s.strip()] *)
Definition str_strip (s : string) : string := str_rstrip (str_lstrip s).

End Text.
Import Text.

(** ** [retriever.py]: the mock retriever *)

Module Retriever.

(** [MockDocument]: the [metadata] attribute is the constant
    [{"source": "mock"}] and is never read. *)
Record document : Type := mkDocument { page_content : string }.

(** A retriever as the tools use it: an object with a
    [similarity_search(query, k)] method, which may raise. *)
Record retriever : Type := mkRetriever {
  similarity_search : string -> nat -> result (list document)
}.

Definition MOCK_DOCS : list string :=
  [ "Type 2 Diabetes Mellitus: A chronic metabolic disorder characterized by insulin resistance. "
    ++ "First-line treatment includes Metformin 500-2000mg/day. HbA1c target: <7%. "
    ++ "Associated with cardiovascular risk, nephropathy, retinopathy, and neuropathy.";
    "Hypertension Stage 1: Blood pressure 130-139/80-89 mmHg. Lifestyle interventions include "
    ++ "DASH diet, weight loss, reduced sodium intake (<2.3g/day), exercise 150min/week. "
    ++ "First-line medications: ACE inhibitors, ARBs, thiazide diuretics, CCBs.";
    "Metformin (DB00331): Biguanide antidiabetic. Mechanism: Activates AMPK, reduces hepatic "
    ++ "gluconeogenesis, improves insulin sensitivity. Dosage: 500-1000mg twice daily with meals. "
    ++ "Contraindicated in eGFR <30, active liver disease. Monitor renal function annually.";
    "Cardiovascular Risk Assessment: Framingham Risk Score considers age, sex, total cholesterol, "
    ++ "HDL, systolic BP, smoking status, diabetes status. 10-year risk >10% warrants statin therapy. "
    ++ "Mediterranean diet reduces CV events by 30%. Statin initiation: LDL >190mg/dL or 10yr risk >7.5%";
    "Hetionet Disease-Drug Relations: Type 2 Diabetes (DOID:9352) treated by Metformin (DB00331), "
    ++ "Glipizide (DB01067), Insulin (DB00071). Disease associates with Gene: INS, PPARG, TCF7L2. "
    ++ "Anatomy: Pancreas, Liver, Adipose tissue." ].

(** [any(word in doc.lower() for word in query_lower.split()[:5])] *)
Definition doc_matches (words : list string) (doc : string) : bool :=
  existsb (fun word => str_contains word (str_lower doc)) words.

(** [MockRetriever.get_relevant_documents] *)
Definition get_relevant_documents (query : string) : list document :=
  let query_lower := str_lower query in
  let words := firstn 5 (str_split query_lower) in
  let relevant := map mkDocument (filter (doc_matches words) MOCK_DOCS) in
  match relevant with
  | [] => [mkDocument (nth 0 MOCK_DOCS EmptyString)]
  | _ => firstn 5 relevant
  end.

(** [MockRetriever.similarity_search] *)
Definition mock_similarity_search (query : string) (k : nat) : list document :=
  firstn k (get_relevant_documents query).

Definition MockRetriever : retriever :=
  mkRetriever (fun query k => Ok (mock_similarity_search query k)).

(** [get_retriever]: the Pinecone retriever when its set-up succeeds, the
    mock when the set-up raises ([ImportError] or any other exception). *)
Definition get_retriever (live : result retriever) : retriever :=
  match live with
  | Ok r => r
  | Raise _ => MockRetriever
  end.

End Retriever.
Import Retriever.

(** ** [agents.py]: the four tools *)

Module Tools.

(** [graph_engine.query(question)] returns a mapping, or raises. *)
Record graph_engine : Type := mkGraphEngine {
  query : string -> result value
}.

Record Tool : Type := mkTool {
  name : string;
  func : string -> string;
  description : string
}.

Section BuildTools.

(** [retriever] and [graph_engine] are [None] when the corresponding switch
    of the pipeline is off. *)
Variable retriever_opt : option retriever.
Variable graph_engine_opt : option graph_engine.

(** [json.dumps(result, indent=2)] *)
Variable json_dumps : value -> result string.

(** The body of [pubmed_search]'s [try] block up to the formatted
    [record['IdList']]: importing [Bio.Entrez], [esearch] and [read]. *)
Variable entrez_id_list : string -> result string.

(** A method call on [None] raises [AttributeError]. *)
Definition call_similarity_search (query : string) (k : nat)
  : result (list document) :=
  match retriever_opt with
  | Some r => similarity_search r query k
  | None =>
      Raise (mkExn AttributeError
        "'NoneType' object has no attribute 'similarity_search'")
  end.

Definition call_query (question : string) : result value :=
  match graph_engine_opt with
  | Some g => query g question
  | None =>
      Raise (mkExn AttributeError "'NoneType' object has no attribute 'query'")
  end.

Definition vector_search (q : string) : string :=
  match call_similarity_search q 5 with
  | Ok results => str_join (nl ++ "---" ++ nl) (map page_content results)
  | Raise e => "Vector search error: " ++ exn_msg e
  end.

Definition graph_query (q : string) : string :=
  match call_query q with
  | Ok result =>
      match json_dumps result with
      | Ok text => text
      | Raise e => "Graph query error: " ++ exn_msg e
      end
  | Raise e => "Graph query error: " ++ exn_msg e
  end.

Definition pubmed_search (q : string) : string :=
  match entrez_id_list q with
  | Ok ids => "PubMed IDs found: " ++ ids
  | Raise e => "PubMed search unavailable (install biopython): " ++ exn_msg e
  end.

Definition drugbank_lookup (drug_name : string) : string :=
  match call_similarity_search
          ("drug:" ++ drug_name ++ " mechanism dosage side effects") 3 with
  | Ok results => str_join nl (map page_content results)
  | Raise e => "Drug lookup error: " ++ exn_msg e
  end.

Definition build_tools : list Tool :=
  [ mkTool "medical_vector_search" vector_search
      "Search medical knowledge base for conditions, treatments, guidelines.";
    mkTool "medical_graph_query" graph_query
      "Query Neo4j knowledge graph for disease-drug-gene-symptom relationships.";
    mkTool "pubmed_research_search" pubmed_search
      "Search PubMed for the latest peer-reviewed research.";
    mkTool "drugbank_medication_lookup" drugbank_lookup
      "Look up medication details, interactions, dosing from DrugBank." ].

End BuildTools.


End Tools.
Import Tools.

(** ** [ingestion.py]: [parse_document] *)

Module Ingestion.

(** The uploaded file: [.name], [.type] and the bytes of [.read()]. *)
Record uploaded_file : Type := mkUpload {
  file_name : string;
  file_type : string;
  file_bytes : list byte
}.

(** A page of an opened PDF: [page.extract_text()], and the body of the
    [try] block of [_ocr_pdf_page] for that page (its imports, the rendering
    and [pytesseract.image_to_string]). *)
Record pdf_page : Type := mkPage {
  extract_text : result (option string);
  ocr_attempt : result string
}.

(** The third-party libraries [parse_document] calls, each as the outcome of
    the call: a value, or the exception raised. *)
Record libraries : Type := mkLibraries {
  import_pdfplumber : result unit;
  pdfplumber_open : list byte -> result (list pdf_page);
  import_pypdf : result unit;
  pypdf_reader : list byte -> result (list (result (option string)));
  import_pytesseract : result unit;
  image_to_string : list byte -> result string;
  decode_utf8_ignore : list byte -> result string;
  sha256_hexdigest : list byte -> string
}.

(** [text or <empty string>]: [None] and the empty text both give the empty
    text. *)
Definition or_empty (text : option string) : string :=
  match text with
  | Some t => t
  | None => EmptyString
  end.

(** [_ocr_pdf_page]: every exception becomes a marker text. *)
Definition _ocr_pdf_page (page : pdf_page) (page_num : nat) : string :=
  match ocr_attempt page with
  | Ok text => text
  | Raise e =>
      "[OCR failed for page " ++ str_of_nat page_num ++ ": " ++ exn_msg e ++ "]"
  end.

(** The loop over [enumerate(pdf.pages, 1)]. *)
Fixpoint read_pages (page_num : nat) (pages : list pdf_page)
  : result (list string) :=
  match pages with
  | [] => Ok []
  | page :: rest =>
      extracted <~ extract_text page ;;
      let page_text := or_empty extracted in
      let page_text :=
        if Nat.ltb (String.length (str_strip page_text)) 50
        then _ocr_pdf_page page page_num
        else page_text in
      parts <~ read_pages (S page_num) rest ;;
      Ok (("[PAGE " ++ str_of_nat page_num ++ "]" ++ nl ++ page_text) :: parts)
  end.

(** The texts of the pages of a [PdfReader], an absent text counting as
    empty. *)
Fixpoint read_pypdf_pages (pages : list (result (option string)))
  : result (list string) :=
  match pages with
  | [] => Ok []
  | page :: rest =>
      extracted <~ page ;;
      parts <~ read_pypdf_pages rest ;;
      Ok (or_empty extracted :: parts)
  end.

Definition IMAGE_EXTENSIONS : list string :=
  [".png"; ".jpg"; ".jpeg"; ".tiff"; ".tif"; ".bmp"].

Section Parse.

Variable libs : libraries.

(** The [try] block of the PDF branch. *)
Definition pdfplumber_body (content : list byte) : M string :=
  lift (import_pdfplumber libs) ;;;
  pages <- lift (pdfplumber_open libs content) ;;
  setitem (KStr "pages") (VInt (Z.of_nat (List.length pages))) ;;;
  text_parts <- lift (read_pages 1 pages) ;;
  ret (str_join (nl ++ nl) text_parts).

(** The [try] block inside the [except ImportError] handler. *)
Definition pypdf_body (content : list byte) : M string :=
  lift (import_pypdf libs) ;;;
  pages <- lift (pypdf_reader libs content) ;;
  setitem (KStr "pages") (VInt (Z.of_nat (List.length pages))) ;;;
  parts <- lift (read_pypdf_pages pages) ;;
  ret (str_join nl parts).

(** The PDF branch: both handlers name [ImportError] only. *)
Definition parse_pdf (content : list byte) : M string :=
  try_except_when is_ImportError
    (pdfplumber_body content)
    (fun _ =>
       try_except_when is_ImportError
         (pypdf_body content)
         (fun _ => ret "[PDF parsing failed - install pdfplumber]")).

(** The image branch: [except ImportError], then [except Exception]. *)
Definition parse_image (content : list byte) : M string :=
  try_except
    (lift (import_pytesseract libs) ;;;
     raw_text <- lift (image_to_string libs content) ;;
     setitem (KStr "ocr_engine") (VStr "tesseract") ;;;
     ret raw_text)
    (fun e =>
       if is_ImportError e
       then ret "[Image OCR failed - install pytesseract]"
       else ret ("[OCR Error: " ++ exn_msg e ++ "]")).

(** Any other file name: the bytes are decoded as text. *)
Definition parse_other (content : list byte) : M string :=
  try_except
    (lift (decode_utf8_ignore libs content))
    (fun _ => ret "[Unsupported file format]").

Definition initial_metadata (f : uploaded_file) : dict :=
  [ (KStr "filename", VStr (file_name f));
    (KStr "file_type", VStr (file_type f));
    (KStr "file_size_kb", VInt (Z.of_nat (List.length (file_bytes f)) / 1024));
    (KStr "pages", VInt 1);
    (KStr "hash", VStr (str_take 16 (sha256_hexdigest libs (file_bytes f)))) ].

Definition parse_document (f : uploaded_file) : result (string * dict) :=
  let fname := str_lower (file_name f) in
  let body :=
    if str_endswith fname ".pdf" then parse_pdf (file_bytes f)
    else if existsb (str_endswith fname) IMAGE_EXTENSIONS
         then parse_image (file_bytes f)
         else parse_other (file_bytes f) in
  match run body (initial_metadata f) with
  | (Ok raw_text, metadata) => Ok (raw_text, metadata)
  | (Raise e, _) => Raise e
  end.

End Parse.

(** What [parse_document] keeps true of the metadata: the five keys of the
    initial mapping are there and [pages] is an integer. *)
Definition metadata_ok (d : dict) : Prop :=
  Forall (fun k => dict_mem (KStr k) d = true)
    ["filename"; "file_type"; "file_size_kb"; "pages"; "hash"] /\
  exists n, dict_get (KStr "pages") d = Some (VInt n).

End Ingestion.
Import Ingestion.

(** ** [agents.py]: [run_medical_analysis] *)

Module Pipeline.

(** What the pipeline runs on besides this repository: the imports at the
    top of [run_medical_analysis] and of [build_tools], the Pinecone set-up in
    [get_retriever], the graph engine (whose constructor catches every
    exception), and steps 4 to 6, from [build_agents] to [crew.kickoff()],
    which end in the four [task.output.raw_output] strings or in an
    exception. *)
Record framework : Type := mkFramework {
  import_crewai : result unit;
  import_langchain_tools : result unit;
  live_retriever : result retriever;
  graph_engine_instance : graph_engine;
  json_dumps : value -> result string;
  entrez_id_list : string -> result string;
  crew_kickoff : list Tool -> string -> dict -> result stage_outputs
}.

Section Run.

Variable json_loads : string -> result value.
Variable libs : libraries.
Variable fw : framework.

(** [index_document(raw_text, metadata)] in step 2 catches every exception,
    returns a count that is dropped, and only reads [metadata]: it leaves no
    trace in the result and is not modelled. *)
Definition run_medical_analysis (f : uploaded_file)
  (use_graphrag use_pinecone : bool) (patient_profile : option dict)
  : result dict :=
  import_crewai fw ;;*
  let patient_profile :=
    match patient_profile with
    | None => []
    | Some profile => profile
    end in
  parsed <~ parse_document libs f ;;
  let raw_text := fst parsed in
  let metadata := snd parsed in
  let retriever :=
    if use_pinecone then Some (get_retriever (live_retriever fw)) else None in
  let graph_engine :=
    if use_graphrag then Some (graph_engine_instance fw) else None in
  import_langchain_tools fw ;;*
  let tools :=
    build_tools retriever graph_engine (json_dumps fw) (entrez_id_list fw) in
  outputs <~ crew_kickoff fw tools raw_text patient_profile ;;
  merge_results json_loads outputs raw_text metadata.

End Run.

End Pipeline.
Import Pipeline.

(** ** The output schemas of [build_tasks] *)

Module Schema.

Inductive stage : Type := Diagnosis | Prognosis | Lifestyle | Medication.

(** The top-level keys of the JSON object each task description asks for. *)
Definition top_level_keys (st : stage) : list string :=
  match st with
  | Diagnosis => ["summary"; "conditions"; "risk_score"; "confidence"]
  | Prognosis => ["risks"]
  | Lifestyle =>
      ["diet"; "exercises"; "sleep_recommendation"; "stress_management"]
  | Medication => ["medications"; "interactions_warning"; "stop_medications"]
  end.

Definition stage_eqb (a b : stage) : bool :=
  match a, b with
  | Diagnosis, Diagnosis | Prognosis, Prognosis
  | Lifestyle, Lifestyle | Medication, Medication => true
  | _, _ => false
  end.

Definition key_in_schema (st : stage) (k : key) : bool :=
  existsb (fun name => key_eqb k (KStr name)) (top_level_keys st).

(** A decoded output with the shape of its schema: a JSON object whose
    top-level keys are keys of the schema. *)
Definition matches_schema (st : stage) (parsed : value) : bool :=
  match parsed with
  | VDict o => dict_wf o && forallb (key_in_schema st) (dict_keys o)
  | _ => false
  end.

Definition raw_of (st : stage) (o : stage_outputs) : string :=
  match st with
  | Diagnosis => diagnosis_raw o
  | Prognosis => prognosis_raw o
  | Lifestyle => lifestyle_raw o
  | Medication => medication_raw o
  end.

(** The stages merged after [st]. *)
Definition later_stages (st : stage) : list stage :=
  match st with
  | Diagnosis => [Prognosis; Lifestyle; Medication]
  | Prognosis => [Lifestyle; Medication]
  | Lifestyle => [Medication]
  | Medication => []
  end.

Section Stages.

Variable json_loads : string -> result value.

(** The dictionary right after stage [st] is merged. *)
Definition after_stage (st : stage) (o : stage_outputs) : dict :=
  match st with
  | Diagnosis => after_diagnosis json_loads o
  | Prognosis => after_prognosis json_loads o
  | Lifestyle => after_lifestyle json_loads o
  | Medication => after_medication json_loads o
  end.

(** Whether a stage merged after [st] stores key [k]. *)
Definition later_writes (st : stage) (o : stage_outputs) (k : key) : bool :=
  existsb (fun st' => stage_writes json_loads (raw_of st' o) k)
    (later_stages st).

(** Every stage merged after [st] gives an output that matches its own
    schema, or a text that does not decode. *)
Definition later_conform (st : stage) (o : stage_outputs) : bool :=
  forallb
    (fun st' =>
       match json_loads (raw_of st' o) with
       | Ok parsed => matches_schema st' parsed
       | Raise _ => true
       end)
    (later_stages st).

(** Whether a stage other than [st] stores key [k]. *)
Definition other_writes (st : stage) (o : stage_outputs) (k : key) : bool :=
  existsb (fun st' => stage_writes json_loads (raw_of st' o) k)
    (filter (fun st' => negb (stage_eqb st st'))
       [Diagnosis; Prognosis; Lifestyle; Medication]).

End Stages.

End Schema.
Import Schema.

(** ** Sample inputs *)

Module Samples.

(** The double quote of a JSON text. *)
Definition dq : string := String "034"%char EmptyString.

Definition quoted (s : string) : string := dq ++ s ++ dq.

(** The text of a JSON object from its members, each a name and the text of
    its value. *)
Definition object_text (members : list (string * string)) : string :=
  "{" ++ str_join ", " (map (fun m => quoted (fst m) ++ ": " ++ snd m) members)
      ++ "}".

Definition diagnosis_text : string :=
  object_text [("summary", quoted "Stable."); ("conditions", "[]");
               ("risk_score", quoted "2.0/10"); ("confidence", quoted "90.0%")].
Definition prognosis_text : string := object_text [("risks", "[]")].
Definition lifestyle_text : string :=
  object_text [("diet", "{}"); ("exercises", "[]");
               ("sleep_recommendation", quoted "7-8 hours");
               ("stress_management", quoted "Breathing")].
Definition medication_text : string :=
  object_text [("medications", "[]"); ("interactions_warning", "[]");
               ("stop_medications", "[]")].
Definition summary_text : string := object_text [("summary", quoted "Overwritten.")].

(** Texts that are not JSON. *)
Definition garbled_text : string := "Patient likely has condition X".

(** [json.loads] on the JSON texts the examples use. *)
Definition JSON_SAMPLES : list (string * value) :=
  [ ("{}", VDict []);
    ("[]", VList []);
    ("7", VInt 7);
    ("[1, 2, 3]", VList [VInt 1; VInt 2; VInt 3]);
    ("[[1, 2]]", VList [VList [VInt 1; VInt 2]]);
    (diagnosis_text,
     VDict [(KStr "summary", VStr "Stable."); (KStr "conditions", VList []);
            (KStr "risk_score", VStr "2.0/10"); (KStr "confidence", VStr "90.0%")]);
    (prognosis_text, VDict [(KStr "risks", VList [])]);
    (lifestyle_text,
     VDict [(KStr "diet", VDict []); (KStr "exercises", VList []);
            (KStr "sleep_recommendation", VStr "7-8 hours");
            (KStr "stress_management", VStr "Breathing")]);
    (medication_text,
     VDict [(KStr "medications", VList []); (KStr "interactions_warning", VList []);
            (KStr "stop_medications", VList [])]);
    (summary_text, VDict [(KStr "summary", VStr "Overwritten.")]) ].

(** A decoder for the examples: [json.loads] on the texts of [JSON_SAMPLES];
    the other texts the examples give it ([garbled_text]) are not JSON, and
    on those [json.loads] raises [JSONDecodeError]. *)
Definition decode_error : exn :=
  mkExn JSONDecodeError "Expecting value: line 1 column 1 (char 0)".

Definition sample_json_loads (text : string) : result value :=
  match find (fun entry => String.eqb text (fst entry)) JSON_SAMPLES with
  | Some entry => Ok (snd entry)
  | None => Raise decode_error
  end.

(** Three outputs match their schemas and the diagnosis, or the prognosis,
    is garbled. *)
Definition garbled_diagnosis : stage_outputs :=
  mkOutputs garbled_text prognosis_text lifestyle_text medication_text.
Definition garbled_prognosis : stage_outputs :=
  mkOutputs diagnosis_text garbled_text lifestyle_text medication_text.

Definition all_valid : stage_outputs :=
  mkOutputs diagnosis_text prognosis_text lifestyle_text medication_text.

(** The diagnosis is garbled and the prognosis output is an object with a
    [summary] member. *)
Definition summary_collision : stage_outputs :=
  mkOutputs garbled_text summary_text "{}" "{}".

(** The diagnosis output is an object with a [risks] member and the
    prognosis is garbled. *)
Definition risks_from_diagnosis : stage_outputs :=
  mkOutputs prognosis_text garbled_text "{}" "{}".

(** The diagnosis output matches its schema and the medication output is an
    object with a [summary] member. *)
Definition late_summary : stage_outputs :=
  mkOutputs diagnosis_text prognosis_text lifestyle_text summary_text.

Definition report_text : string := "HbA1c: 7.8%".

(** A plain-text upload and an empty file named as a PDF. *)
Definition text_upload : uploaded_file :=
  mkUpload "report.txt" "text/plain" (list_byte_of_string report_text).
Definition broken_pdf_upload : uploaded_file :=
  mkUpload "scan.pdf" "application/pdf" [].

(** SHA-256 of the two sample contents. *)
Definition sample_sha256 (content : list byte) : string :=
  if String.eqb (string_of_list_byte content) report_text
  then "e3b038d4d6812c81877eb3d83b9891edbe98a04183c902c6befd8f1b4b14dcb0"
  else "e3b0c44298fc1c149afbf4c8996fb92427ae41e4649b934ca495991b7852b855".

Definition missing (module : string) : exn :=
  mkExn ModuleNotFoundError ("No module named '" ++ module ++ "'").

(** No optional parser is installed. *)
Definition bare_libraries : libraries :=
  mkLibraries
    (Raise (missing "pdfplumber"))
    (fun _ => Raise (missing "pdfplumber"))
    (Raise (missing "pypdf"))
    (fun _ => Raise (missing "pypdf"))
    (Raise (missing "pytesseract"))
    (fun _ => Raise (missing "pytesseract"))
    (fun content => Ok (string_of_list_byte content))
    sample_sha256.

(** [pdfplumber] is installed and rejects the content it is given. *)
Definition pdfplumber_rejects : libraries :=
  mkLibraries
    (Ok tt)
    (fun _ => Raise (mkExn (LibraryError "PDFSyntaxError")
                       "No /Root object! - Is this really a PDF?"))
    (Raise (missing "pypdf"))
    (fun _ => Raise (missing "pypdf"))
    (Raise (missing "pytesseract"))
    (fun _ => Raise (missing "pytesseract"))
    (fun content => Ok (string_of_list_byte content))
    sample_sha256.

(** [Bio] is not installed. *)
Definition entrez_missing : string -> result string :=
  fun _ => Raise (missing "Bio").

Definition demo_graph_engine : graph_engine :=
  mkGraphEngine (fun question =>
    Ok (VDict [(KStr "answer", VStr ("[Demo Mode] Graph query for: " ++ question))])).

Definition no_pinecone : result retriever :=
  Raise (missing "langchain_pinecone").

(** A run in which the crew produces the four outputs [o]. *)
Definition crew_returns (o : stage_outputs) : framework :=
  mkFramework (Ok tt) (Ok tt) no_pinecone demo_graph_engine
    (fun _ => Ok "{}") entrez_missing
    (fun _ _ _ => Ok o).

(** A run in which the model call inside [crew.kickoff()] raises. *)
Definition crew_fails : framework :=
  mkFramework (Ok tt) (Ok tt) no_pinecone demo_graph_engine
    (fun _ => Ok "{}") entrez_missing
    (fun _ _ _ => Raise (mkExn (LibraryError "AuthenticationError")
                           "Incorrect API key provided")).

End Samples.
Import Samples.

(** ** Update sequences and stage outputs, for the properties of the merge *)

Module MergeShapes.

(** The element of an update sequence that stores [k: v]: the two-item
    [list] [[k, v]]. *)
Definition pair_item (kv : key * value) : value :=
  VList [value_of_key (fst kv); snd kv].

(** The outputs [o] with the raw output of stage [st] replaced. *)
Definition with_raw (st : stage) (raw : string) (o : stage_outputs)
  : stage_outputs :=
  match st with
  | Diagnosis =>
      mkOutputs raw (prognosis_raw o) (lifestyle_raw o) (medication_raw o)
  | Prognosis =>
      mkOutputs (diagnosis_raw o) raw (lifestyle_raw o) (medication_raw o)
  | Lifestyle =>
      mkOutputs (diagnosis_raw o) (prognosis_raw o) raw (medication_raw o)
  | Medication =>
      mkOutputs (diagnosis_raw o) (prognosis_raw o) (lifestyle_raw o) raw
  end.

End MergeShapes.
Import MergeShapes.

(** ** [ingestion.py]: [chunk_text] *)

Module Chunking.

(** [s[n:]] *)
Fixpoint str_drop (n : nat) (s : string) : string :=
  match n, s with
  | S n', String _ s' => str_drop n' s'
  | _, _ => s
  end.

(** How a slice reads an [int] bound on a sequence of length [len]: a
    negative bound counts from the end, and both are clipped. *)
Definition slice_index (len i : Z) : Z :=
  if (i <? 0)%Z then Z.max (i + len) 0 else Z.min i len.

(** [s[start:stop]] *)
Definition str_slice (s : string) (start stop : Z) : string :=
  let len := Z.of_nat (String.length s) in
  let first := slice_index len start in
  let last := slice_index len stop in
  str_take (Z.to_nat (last - first)) (str_drop (Z.to_nat first) s).

(** The parts of a list put together: ["".join(parts)]. *)
Definition str_concat (parts : list string) : string :=
  fold_right append EmptyString parts.

(** The [while start < len(text)] loop of the fallback splitter, from a
    given [start]; [None] when [fuel] iterations do not bring it to its
    end. *)
Fixpoint chunk_loop (fuel : nat) (text : string) (chunk_size overlap start : Z)
  : option (list string) :=
  match fuel with
  | O => if (start <? Z.of_nat (String.length text))%Z then None else Some []
  | S fuel' =>
      if (start <? Z.of_nat (String.length text))%Z
      then
        let stop := (start + chunk_size)%Z in
        let chunk := str_slice text start stop in
        option_map (cons chunk)
          (chunk_loop fuel' text chunk_size overlap
             (start + (chunk_size - overlap))%Z)
      else Some []
  end.

(** [chunk_text]: the splitter of [langchain] when its import and its call
    go through, the loop above on an [ImportError], and any other exception
    handed on. *)
Definition chunk_text (fuel : nat)
  (langchain_split : string -> Z -> Z -> result (list string))
  (text : string) (chunk_size overlap : Z) : option (result (list string)) :=
  match langchain_split text chunk_size overlap with
  | Ok chunks => Some (Ok chunks)
  | Raise e =>
      if is_ImportError e
      then option_map Ok (chunk_loop fuel text chunk_size overlap 0)
      else Some (Raise e)
  end.

(** What the loop started at position [s] has to return for chunks of
    [size] characters that overlap by [lap]: the chunk at position [i] is the
    [size] characters from [s + i * (size - lap)], clipped at the end of the
    text; the chunks reach the end of the text; and their leading
    [size - lap] characters, put together, are the text from [s] on. *)
Definition chunks_from (text : string) (size lap s : nat)
  (chunks : list string) : Prop :=
  (forall i c, nth_error chunks i = Some c ->
     s + i * (size - lap) < String.length text /\
     c = str_take size (str_drop (s + i * (size - lap)) text)) /\
  String.length text - s <= List.length chunks * (size - lap) /\
  str_concat (map (str_take (size - lap)) chunks) = str_drop s text.

End Chunking.
Import Chunking.

(** ** [ingestion.py]: [get_embeddings], [index_document] and
       [retriever.py]: [save_patient_memory] *)

Module Indexing.

(** [range(0, n, step)] for a positive [step]. *)
Definition range_step (n step : nat) : list nat :=
  map (fun j => j * step) (seq 0 ((n + step - 1) / step)).

(** [[l[i:i + size] for i in range(0, len(l), size)]] *)
Definition batches {A : Type} (size : nat) (l : list A) : list (list A) :=
  map (fun i => firstn size (skipn i l)) (range_step (List.length l) size).

Section Index.

(** An embedding is a list of floats, kept as it comes. *)
Variable embedding : Type.

(** The vector handed to Pinecone: [id], [values] and the five entries of
    its [metadata]. *)
Record vector : Type := mkVector {
  vec_id : string;
  vec_values : embedding;
  vec_text : string;
  vec_patient_id : string;
  vec_filename : value;
  vec_chunk_index : nat;
  vec_total_chunks : nat
}.

(** The services behind the indexing: the [langchain] splitter (its import
    and its call), the set-up of the OpenAI client, one
    [client.embeddings.create] call with the embeddings of its response, the
    set-up of the Pinecone index and one [index.upsert] call; and Python's
    [str()] for the hash in a vector id. *)
Record services : Type := mkServices {
  langchain_split : string -> Z -> Z -> result (list string);
  openai_client : result unit;
  embeddings_create : list string -> result (list embedding);
  get_pinecone_index : result unit;
  index_upsert : list vector -> result unit;
  py_str : value -> string
}.

Variable sv : services.

(** [CHUNK_SIZE] and [CHUNK_OVERLAP] of [config.py], read from the
    environment. *)
Variables CHUNK_SIZE CHUNK_OVERLAP : Z.

(** The loop over the batches in [get_embeddings]. *)
Fixpoint embed_batches (bs : list (list string)) : result (list embedding) :=
  match bs with
  | [] => Ok []
  | batch :: rest =>
      found <~ embeddings_create sv batch ;;
      more <~ embed_batches rest ;;
      Ok (found ++ more)%list
  end.

Definition get_embeddings (texts : list string) : result (list embedding) :=
  openai_client sv ;;*
  embed_batches (batches 100 texts).

(** The loop over [enumerate(zip(chunks, embeddings))], from index [i]. *)
Fixpoint build_vectors (doc_hash : value) (patient_id : string)
  (filename : value) (total : nat) (i : nat)
  (pairs : list (string * embedding)) : list vector :=
  match pairs with
  | [] => []
  | (chunk, emb) :: rest =>
      mkVector (py_str sv doc_hash ++ "_" ++ str_of_nat i) emb
        (str_take 500 chunk) patient_id filename i total
      :: build_vectors doc_hash patient_id filename total (S i) rest
  end.

(** The upsert loop: the batches that went through, and how the loop
    ended. *)
Fixpoint upsert_batches (bs : list (list vector))
  : list (list vector) * result unit :=
  match bs with
  | [] => ([], Ok tt)
  | batch :: rest =>
      match index_upsert sv batch with
      | Ok _ =>
          let (sent, outcome) := upsert_batches rest in
          (batch :: sent, outcome)
      | Raise e => ([], Raise e)
      end
  end.

(** The vectors [index_document] builds from the chunks and their
    embeddings. *)
Definition document_vectors (metadata : dict) (patient_id : string)
  (chunks : list string) (embeddings : list embedding) : list vector :=
  build_vectors
    (dict_get_default (KStr "hash") (VStr "unknown") metadata)
    patient_id
    (dict_get_default (KStr "filename") (VStr "unknown") metadata)
    (List.length chunks) 0 (combine chunks embeddings).

(** [index_document]: the count it returns, with the batches upserted into
    the index on the way; [None] when the splitter does not come to an end
    within [fuel] iterations.  Every exception gives the count 0. *)
Definition index_document (fuel : nat) (raw_text : string) (metadata : dict)
  (patient_id : string) : option (Z * list (list vector)) :=
  match chunk_text fuel (langchain_split sv) raw_text CHUNK_SIZE CHUNK_OVERLAP
  with
  | None => None
  | Some (Raise _) => Some (0%Z, [])
  | Some (Ok []) => Some (0%Z, [])
  | Some (Ok chunks) =>
      match get_embeddings chunks with
      | Raise _ => Some (0%Z, [])
      | Ok embeddings =>
          match get_pinecone_index sv with
          | Raise _ => Some (0%Z, [])
          | Ok _ =>
              let vectors :=
                document_vectors metadata patient_id chunks embeddings in
              match upsert_batches (batches 100 vectors) with
              | (sent, Ok _) => Some (Z.of_nat (List.length vectors), sent)
              | (sent, Raise _) => Some (0%Z, sent)
              end
          end
      end
  end.

(** [save_patient_memory]: [{**metadata, "patient_id": ..., "namespace": ...}]
    is the metadata with the two entries stored after the others. *)
Definition save_patient_memory (fuel : nat) (patient_id : string)
  (report_text : string) (metadata : dict)
  : option (Z * list (list vector)) :=
  let namespace_meta :=
    dict_set (KStr "namespace") (VStr ("patient_" ++ patient_id))
      (dict_set (KStr "patient_id") (VStr patient_id) metadata) in
  index_document fuel report_text namespace_meta patient_id.

End Index.

End Indexing.
Import Indexing.

(** ** [graphrag_index.py]: [MedicalGraphEngine] *)

Module GraphRAG.

Definition type_name (v : value) : string :=
  match v with
  | VNone => "NoneType"
  | VBool _ => "bool"
  | VInt _ => "int"
  | VFloat _ => "float"
  | VStr _ => "str"
  | VList _ => "list"
  | VDict _ => "dict"
  end.

(** [v.get(k, default)]: only a [dict] has the method. *)
Definition py_get (v : value) (k : key) (default : value) : result value :=
  match v with
  | VDict d => Ok (dict_get_default k default d)
  | _ =>
      Raise (mkExn AttributeError
               ("'" ++ type_name v ++ "' object has no attribute 'get'"))
  end.

(** [l[i]] on a list: a negative index counts from the end. *)
Definition list_item {A : Type} (l : list A) (i : Z) : option A :=
  let n := Z.of_nat (List.length l) in
  let j := if (i <? 0)%Z then (i + n)%Z else i in
  if ((0 <=? j) && (j <? n))%Z then nth_error l (Z.to_nat j) else None.

(** [v[i]] for an [int] [i]: an item of a [list], a character of a [str],
    the entry of a [dict] under the key [i]. *)
Definition py_item (v : value) (i : Z) : result value :=
  match v with
  | VList l =>
      match list_item l i with
      | Some x => Ok x
      | None => Raise (mkExn (LibraryError "IndexError") "list index out of range")
      end
  | VStr s =>
      match list_item (list_ascii_of_string s) i with
      | Some c => Ok (VStr (String c EmptyString))
      | None =>
          Raise (mkExn (LibraryError "IndexError") "string index out of range")
      end
  | VDict d =>
      match dict_get (KInt i) d with
      | Some x => Ok x
      | None => Raise (mkExn (LibraryError "KeyError") "key not found")
      end
  | _ =>
      Raise (mkExn TypeError
               ("'" ++ type_name v ++ "' object is not subscriptable"))
  end.

(** [_demo_query] *)
Definition _demo_query (question : string) : value :=
  VDict
    [ (KStr "answer", VStr ("[Demo Mode] Graph query for: " ++ question));
      (KStr "cypher",
       VStr "MATCH (d:Disease)-[:TREATS]-(c:Compound) WHERE d.name CONTAINS $term RETURN d, c LIMIT 10");
      (KStr "data",
       VList
         [ VDict [ (KStr "disease", VStr "Type 2 Diabetes");
                   (KStr "compound", VStr "Metformin");
                   (KStr "relation", VStr "treats") ];
           VDict [ (KStr "disease", VStr "Hypertension");
                   (KStr "compound", VStr "Amlodipine");
                   (KStr "relation", VStr "treats") ];
           VDict [ (KStr "gene", VStr "INS");
                   (KStr "disease", VStr "Type 2 Diabetes");
                   (KStr "relation", VStr "associates") ] ]) ].

(** The [return] inside the [try] block of [query], on the result of
    [graph_qa.invoke]. *)
Definition live_answer (result : value) : Py.result value :=
  answer <~ py_get result (KStr "result") (VStr EmptyString) ;;
  steps <~ py_get result (KStr "intermediate_steps") (VList [VDict []]) ;;
  first <~ py_item steps 0 ;;
  cypher <~ py_get first (KStr "query") (VStr EmptyString) ;;
  steps' <~ py_get result (KStr "intermediate_steps") (VList [VDict []]) ;;
  last <~ py_item steps' (-1) ;;
  data <~ py_get last (KStr "context") (VList []) ;;
  Ok (VDict [ (KStr "answer", answer); (KStr "cypher", cypher);
              (KStr "data", data) ]).

(** [MedicalGraphEngine.query]: [graph_qa] is the chain's
    [invoke({"query": question})], or [None] after a failed [_connect]. *)
Definition engine_query (graph_qa : option (string -> Py.result value))
  (question : string) : value :=
  match graph_qa with
  | Some invoke =>
      match (result <~ invoke question ;; live_answer result) with
      | Ok answer => answer
      | Raise _ => _demo_query question
      end
  | None => _demo_query question
  end.

(** Eight blanks: the indentation inside the question templates. *)
Definition indent : string := "        ".

(** [get_disease_relations] *)
Definition get_disease_relations (graph_qa : option (string -> Py.result value))
  (disease_name : string) : value :=
  engine_query graph_qa
    (nl ++ indent ++ "Find all compounds that treat " ++ disease_name ++ ","
        ++ nl ++ indent ++ "all genes associated with " ++ disease_name ++ ","
        ++ nl ++ indent ++ "and all symptoms of " ++ disease_name ++ "."
        ++ nl ++ indent).

(** [get_risk_propagation] *)
Definition get_risk_propagation (graph_qa : option (string -> Py.result value))
  (condition : string) : Py.result value :=
  let result :=
    engine_query graph_qa
      (nl ++ indent ++ "What diseases or conditions can " ++ condition
          ++ " progress to or cause?"
          ++ nl ++ indent
          ++ "Return the risk pathway with probabilities if available."
          ++ nl ++ indent) in
  py_get result (KStr "data") (VList []).

(** The engine as the tools see it: [query] never raises. *)
Definition medical_graph_engine (graph_qa : option (string -> Py.result value))
  : graph_engine :=
  mkGraphEngine (fun question => Ok (engine_query graph_qa question)).

End GraphRAG.
Import GraphRAG.

(** ** [app.py]: [simulate_analysis] *)

Module App.

Section Simulate.

Variable json_loads : string -> result value.
Variable libs : libraries.
Variable fw : framework.

(** [from agents import run_medical_analysis]: the import of the module
    [agents] and, through it, of [config]. *)
Variable import_agents : result unit.

(** The demo result of lines 656 to 724, a literal mapping; its texts hold
    characters outside the range of [string] and it is taken as it is. *)
Variable DEMO_RESULTS : dict.

(** [simulate_analysis]: the pipeline run without a patient profile, and
    the demo result on an [ImportError]. *)
Definition simulate_analysis (f : uploaded_file)
  (use_graphrag use_pinecone : bool) : result dict :=
  match (import_agents ;;*
         run_medical_analysis json_loads libs fw f use_graphrag use_pinecone
           None) with
  | Ok results => Ok results
  | Raise e => if is_ImportError e then Ok DEMO_RESULTS else Raise e
  end.

End Simulate.

End App.
Import App.

(** ** More sample inputs *)

Module MoreSamples.

(** The text [[["risks", 1], 5]]: a pair, then a number. *)
Definition pairs_text : string := "[[" ++ quoted "risks" ++ ", 1], 5]".

(** [sample_json_loads], and [json.loads] on [pairs_text]. *)
Definition pairs_json_loads (text : string) : result value :=
  if String.eqb text pairs_text
  then Ok (VList [VList [VStr "risks"; VInt 1]; VInt 5])
  else sample_json_loads text.

Definition garbled_lifestyle : stage_outputs :=
  mkOutputs diagnosis_text prognosis_text garbled_text medication_text.

(** A page with a text layer and a scanned page, with no OCR installed. *)
Definition page_text : string :=
  "Hemoglobin A1c 7.8 percent, fasting glucose 148 mg/dL, LDL 165 mg/dL.".
Definition text_page : pdf_page := mkPage (Ok (Some page_text)) (Ok "unused").
Definition scanned_page : pdf_page :=
  mkPage (Ok None) (Raise (missing "pytesseract")).
Definition broken_page : pdf_page :=
  mkPage (Raise (mkExn (LibraryError "PDFSyntaxError") "bad page")) (Ok "unused").

(** Services for the indexing: no [langchain], an embedding service that
    answers every text (the length of the text stands for its embedding),
    and an index that takes every batch. *)
Definition sample_services : services nat :=
  mkServices
    (fun _ _ _ => Raise (missing "langchain"))
    (Ok tt)
    (fun batch => Ok (map String.length batch))
    (Ok tt)
    (fun _ => Ok tt)
    (fun v => match v with VStr s => s | _ => EmptyString end).

Definition sample_metadata : dict :=
  [ (KStr "filename", VStr "report.txt");
    (KStr "hash", VStr "e3b038d4d6812c81") ].

(** A chain that answers with two intermediate steps, and one that is down. *)
Definition answering_chain (question : string) : result value :=
  Ok (VDict
        [ (KStr "result", VStr "Metformin treats type 2 diabetes.");
          (KStr "intermediate_steps",
           VList
             [ VDict [(KStr "query", VStr "MATCH (c:Compound) RETURN c")];
               VDict [(KStr "context",
                       VList [VDict [(KStr "compound", VStr "Metformin")]])] ]) ]).
Definition failing_chain (question : string) : result value :=
  Raise (mkExn (LibraryError "ServiceUnavailable") "connection refused").

(** One entry of the demo result. *)
Definition demo_results : dict := [(KStr "pages", VStr "3 pages")].

End MoreSamples.
Import MoreSamples.

(** * Properties *)

Unset Implicit Arguments.

(** ** Keys and dictionaries *)

Lemma keyclass_eqb_eq (a b : keyclass) : keyclass_eqb a b = true <-> a = b.
Proof.
  destruct a, b; simpl; split; intro H;
    try discriminate; try reflexivity; try congruence.
  - apply andb_true_iff in H. destruct H as [Hm He].
    apply Z.eqb_eq in Hm, He. congruence.
  - inversion H; subst. now rewrite !Z.eqb_refl.
  - apply Bool.eqb_prop in H. congruence.
  - inversion H; subst. apply Bool.eqb_reflx.
  - apply String.eqb_eq in H. congruence.
  - inversion H; subst. apply String.eqb_refl.
Qed.

Lemma key_eqb_refl (k : key) : key_eqb k k = true.
Proof. unfold key_eqb. now apply keyclass_eqb_eq. Qed.

Lemma key_eqb_sym (k k' : key) : key_eqb k k' = key_eqb k' k.
Proof.
  unfold key_eqb.
  destruct (keyclass_eqb (key_class k) (key_class k')) eqn:E;
    destruct (keyclass_eqb (key_class k') (key_class k)) eqn:E'; try reflexivity.
  - apply keyclass_eqb_eq in E. symmetry in E.
    apply keyclass_eqb_eq in E. congruence.
  - apply keyclass_eqb_eq in E'. symmetry in E'.
    apply keyclass_eqb_eq in E'. congruence.
Qed.

(** Keys equal to a third key agree on every comparison. *)
Lemma key_eqb_congr (k k' j : key) :
  key_eqb k k' = true -> key_eqb k j = key_eqb k' j.
Proof.
  unfold key_eqb. intro H. apply keyclass_eqb_eq in H. now rewrite H.
Qed.

Lemma key_eqb_str (a b : string) : key_eqb (KStr a) (KStr b) = String.eqb a b.
Proof. reflexivity. Qed.

Lemma dict_get_set (k k' : key) (v : value) (d : dict) :
  dict_get k (dict_set k' v d) =
  if key_eqb k k' then Some v else dict_get k d.
Proof.
  induction d as [|[j w] d IH]; simpl.
  - reflexivity.
  - destruct (key_eqb k' j) eqn:Ej; simpl.
    + rewrite (key_eqb_sym k k'), (key_eqb_congr k' j k Ej), (key_eqb_sym j k).
      now destruct (key_eqb k j).
    + rewrite IH. destruct (key_eqb k j) eqn:Ekj; [|reflexivity].
      destruct (key_eqb k k') eqn:Ekk; [|reflexivity].
      rewrite key_eqb_sym in Ekk.
      rewrite (key_eqb_congr k' k j Ekk) in Ej. congruence.
Qed.

Lemma dict_get_set_same (k : key) (v : value) (d : dict) :
  dict_get k (dict_set k v d) = Some v.
Proof. now rewrite dict_get_set, key_eqb_refl. Qed.

Lemma dict_mem_set (k k' : key) (v : value) (d : dict) :
  dict_mem k d = true -> dict_mem k (dict_set k' v d) = true.
Proof.
  unfold dict_mem. rewrite dict_get_set.
  now destruct (key_eqb k k').
Qed.

Lemma dict_mem_set_same (k : key) (v : value) (d : dict) :
  dict_mem k (dict_set k v d) = true.
Proof. unfold dict_mem. now rewrite dict_get_set_same. Qed.

Lemma dict_mem_congr (k k' : key) (d : dict) :
  key_eqb k k' = true -> dict_mem k d = dict_mem k' d.
Proof.
  intro H. unfold dict_mem.
  induction d as [|[j w] d IH]; simpl; [reflexivity|].
  rewrite (key_eqb_congr k k' j H). now destruct (key_eqb k' j).
Qed.

Lemma dict_get_app (k : key) (d d' : dict) :
  dict_get k (d ++ d')%list =
  match dict_get k d with Some v => Some v | None => dict_get k d' end.
Proof.
  induction d as [|[j w] d IH]; simpl; [reflexivity|].
  now destruct (key_eqb k j).
Qed.

(** In a well-formed dictionary the first and the last entry for a key are
    the same one. *)
Lemma dict_get_rev (k : key) (d : dict) :
  dict_wf d = true -> dict_get k (rev d) = dict_get k d.
Proof.
  induction d as [|[j w] d IH]; simpl; [reflexivity|].
  intro H. apply andb_true_iff in H. destruct H as [Hj Hd].
  rewrite dict_get_app, (IH Hd). simpl.
  destruct (key_eqb k j) eqn:E.
  - destruct (dict_get k d) eqn:G; [|reflexivity].
    exfalso. apply negb_true_iff in Hj.
    assert (X : existsb (key_eqb j) (dict_keys d) = true); [|congruence].
    clear -G E. induction d as [|[i u] d IH]; simpl in *; [discriminate|].
    rewrite (key_eqb_sym k j) in E. rewrite (key_eqb_congr j k i E).
    destruct (key_eqb k i); [reflexivity|]. simpl. apply IH, G.
  - now destruct (dict_get k d).
Qed.

Lemma dict_get_keys (k : key) (d : dict) :
  dict_mem k d = existsb (key_eqb k) (dict_keys d).
Proof.
  unfold dict_mem.
  induction d as [|[j w] d IH]; simpl; [reflexivity|].
  now destruct (key_eqb k j).
Qed.

(** ** [dict.update] *)

Ltac unfold_mut :=
  unfold merge_diagnosis, merge_stage, try_except, try_except_when, bind,
    lift, setitem, ret, raise, run in *.

Lemma merge_mapping_ok (o d : dict) : fst (merge_mapping o d) = Ok tt.
Proof.
  revert d. induction o as [|[k v] o IH]; intro d; simpl; [reflexivity|].
  unfold bind, setitem. apply IH.
Qed.

(** After merging a mapping, a key holds the last value the mapping gives
    it, and what it held before when the mapping does not name it. *)
Lemma merge_mapping_get (k : key) (o d : dict) :
  dict_get k (snd (merge_mapping o d)) =
  match dict_get k (rev o) with
  | Some v => Some v
  | None => dict_get k d
  end.
Proof.
  revert d. induction o as [|[j w] o IH]; intro d; simpl; [reflexivity|].
  unfold bind, setitem. rewrite IH, dict_get_app, dict_get_set. simpl.
  destruct (dict_get k (rev o)); [reflexivity|].
  now destruct (key_eqb k j).
Qed.

Lemma merge_mapping_mem (k : key) (o d : dict) :
  dict_mem k d = true -> dict_mem k (snd (merge_mapping o d)) = true.
Proof.
  revert d. induction o as [|[j w] o IH]; intros d H; simpl; [exact H|].
  unfold bind, setitem. apply IH, dict_mem_set, H.
Qed.

Lemma merge_from_seq2_frame (k : key) (items : list value) :
  forall (i : nat) (d : dict),
    existsb (key_eqb k) (seq2_keys i items) = false ->
    dict_get k (snd (merge_from_seq2 i items d)) = dict_get k d.
Proof.
  induction items as [|item rest IH]; intros i d H; simpl in *; [reflexivity|].
  unfold bind, lift, setitem.
  destruct (pair_of_item i item) as [[j w]|e]; simpl in *; [|reflexivity].
  apply orb_false_iff in H. destruct H as [Hj Hrest].
  rewrite (IH _ _ Hrest), dict_get_set, Hj. reflexivity.
Qed.

Lemma merge_from_seq2_mem (k : key) (items : list value) :
  forall (i : nat) (d : dict),
    dict_mem k d = true -> dict_mem k (snd (merge_from_seq2 i items d)) = true.
Proof.
  induction items as [|item rest IH]; intros i d H; simpl; [exact H|].
  unfold bind, lift, setitem.
  destruct (pair_of_item i item) as [[j w]|e]; simpl; [|exact H].
  apply IH, dict_mem_set, H.
Qed.

Lemma existsb_rev_eq {A : Type} (f : A -> bool) (l : list A) :
  existsb f (rev l) = existsb f l.
Proof.
  induction l as [|a l IH]; simpl; [reflexivity|].
  rewrite existsb_app, IH. simpl. rewrite orb_false_r. apply orb_comm.
Qed.

(** A key the update does not store keeps its entry, whether the update
    returns or raises. *)
Lemma dict_update_frame (k : key) (arg : value) (d : dict) :
  existsb (key_eqb k) (update_keys arg) = false ->
  dict_get k (snd (dict_update arg d)) = dict_get k d.
Proof.
  destruct arg; simpl; intro H; try reflexivity.
  - now apply merge_from_seq2_frame.
  - now apply merge_from_seq2_frame.
  - rewrite merge_mapping_get.
    destruct (dict_get k (rev d0)) eqn:G; [|reflexivity].
    exfalso.
    assert (M : dict_mem k (rev d0) = true) by (unfold dict_mem; now rewrite G).
    rewrite dict_get_keys in M. unfold dict_keys in *.
    rewrite map_rev, existsb_rev_eq in M. congruence.
Qed.

(** No update removes a key. *)
Lemma dict_update_mem (k : key) (arg : value) (d : dict) :
  dict_mem k d = true -> dict_mem k (snd (dict_update arg d)) = true.
Proof.
  destruct arg; simpl; intro H; try exact H.
  - now apply merge_from_seq2_mem.
  - now apply merge_from_seq2_mem.
  - now apply merge_mapping_mem.
Qed.

Lemma merge_head_rejects (items : list value) (d : dict) :
  is_ok (merge_head items) = false ->
  exists e, merge_from_seq2 0 items d = (Raise e, d).
Proof.
  destruct items as [|item rest]; simpl; [discriminate|].
  unfold bind, lift.
  destruct (pair_of_item 0 item) as [kv|e]; simpl; [discriminate|].
  intros _. now exists e.
Qed.

(** On a value that is rejected at once the update raises and the
    dictionary is as it was. *)
Lemma rejected_at_once_raises (arg : value) (d : dict) :
  rejected_at_once arg = true ->
  exists e, dict_update arg d = (Raise e, d).
Proof.
  destruct arg; simpl; intro H;
    try (eexists; reflexivity); try discriminate.
  - apply merge_head_rejects. now apply negb_true_iff.
  - apply merge_head_rejects. now apply negb_true_iff.
Qed.

(** ** The merge of the stage outputs *)

Section MergeFacts.

Variable json_loads : string -> result value.

Lemma merge_stage_ok (raw : string) (d : dict) :
  fst (merge_stage json_loads raw d) = Ok tt.
Proof.
  unfold_mut. destruct (json_loads raw) as [parsed|e]; [|reflexivity].
  now destruct (dict_update parsed d) as [[[]|e] d'].
Qed.

Lemma merge_diagnosis_ok (raw : string) (d : dict) :
  fst (merge_diagnosis json_loads raw d) = Ok tt.
Proof.
  unfold_mut. destruct (json_loads raw) as [parsed|e]; [|reflexivity].
  now destruct (dict_update parsed d) as [[[]|e] d'].
Qed.

Lemma merge_stage_undecodable (raw : string) (e : exn) (d : dict) :
  json_loads raw = Raise e -> merge_stage json_loads raw d = (Ok tt, d).
Proof. intro H. unfold_mut. now rewrite H. Qed.

Lemma merge_diagnosis_undecodable (raw : string) (e : exn) (d : dict) :
  json_loads raw = Raise e ->
  merge_diagnosis json_loads raw d =
  (Ok tt, dict_set (KStr "summary") (VStr (str_take 2000 raw)) d).
Proof. intro H. unfold_mut. now rewrite H. Qed.

Lemma merge_stage_object (raw : string) (obj d : dict) :
  json_loads raw = Ok (VDict obj) ->
  merge_stage json_loads raw d = (Ok tt, snd (merge_mapping obj d)).
Proof.
  intro H. unfold_mut. rewrite H. simpl.
  pose proof (merge_mapping_ok obj d) as Hok.
  destruct (merge_mapping obj d) as [[[]|e] d']; simpl in *;
    [reflexivity|discriminate].
Qed.

Lemma merge_diagnosis_object (raw : string) (obj d : dict) :
  json_loads raw = Ok (VDict obj) ->
  merge_diagnosis json_loads raw d = (Ok tt, snd (merge_mapping obj d)).
Proof.
  intro H. unfold_mut. rewrite H. simpl.
  pose proof (merge_mapping_ok obj d) as Hok.
  destruct (merge_mapping obj d) as [[[]|e] d']; simpl in *;
    [reflexivity|discriminate].
Qed.

Lemma merge_stage_frame (k : key) (raw : string) (d : dict) :
  stage_writes json_loads raw k = false ->
  dict_get k (snd (merge_stage json_loads raw d)) = dict_get k d.
Proof.
  unfold stage_writes. unfold_mut.
  destruct (json_loads raw) as [parsed|e]; [|reflexivity].
  intro H. pose proof (dict_update_frame k parsed d H) as F.
  now destruct (dict_update parsed d) as [[[]|e] d'].
Qed.

Lemma merge_stage_mem (k : key) (raw : string) (d : dict) :
  dict_mem k d = true -> dict_mem k (snd (merge_stage json_loads raw d)) = true.
Proof.
  unfold_mut. destruct (json_loads raw) as [parsed|e]; [|trivial].
  intro H. pose proof (dict_update_mem k parsed d H) as F.
  now destruct (dict_update parsed d) as [[[]|e] d'].
Qed.

Lemma merge_diagnosis_frame (k : key) (raw : string) (d : dict) :
  stage_writes json_loads raw k = false ->
  key_eqb k (KStr "summary") = false ->
  dict_get k (snd (merge_diagnosis json_loads raw d)) = dict_get k d.
Proof.
  unfold stage_writes. unfold_mut.
  destruct (json_loads raw) as [parsed|e]; intros H S; simpl.
  - pose proof (dict_update_frame k parsed d H) as F.
    destruct (dict_update parsed d) as [[[]|e] d']; simpl in *; [exact F|].
    now rewrite dict_get_set, S.
  - now rewrite dict_get_set, S.
Qed.

(** The merge always returns: the result is the dictionary after the four
    stages with [raw_text] and [pages] stored last. *)
Lemma merge_results_eq (o : stage_outputs) (raw_text : string) (metadata : dict) :
  merge_results json_loads o raw_text metadata =
  Ok (dict_set (KStr "pages")
        (dict_get_default (KStr "pages") (VStr "N/A") metadata)
        (dict_set (KStr "raw_text") (VStr (str_take 3000 raw_text))
           (after_medication json_loads o))).
Proof.
  unfold merge_results, merge_body, after_medication, after_lifestyle,
    after_prognosis, after_diagnosis, run, bind.
  pose proof (merge_diagnosis_ok (diagnosis_raw o) []) as H1.
  destruct (merge_diagnosis json_loads (diagnosis_raw o) []) as [[[]|e1] d1];
    simpl in *; [|discriminate].
  pose proof (merge_stage_ok (prognosis_raw o) d1) as H2.
  destruct (merge_stage json_loads (prognosis_raw o) d1) as [[[]|e2] d2];
    simpl in *; [|discriminate].
  pose proof (merge_stage_ok (lifestyle_raw o) d2) as H3.
  destruct (merge_stage json_loads (lifestyle_raw o) d2) as [[[]|e3] d3];
    simpl in *; [|discriminate].
  pose proof (merge_stage_ok (medication_raw o) d3) as H4.
  destruct (merge_stage json_loads (medication_raw o) d3) as [[[]|e4] d4];
    simpl in *; [|discriminate].
  reflexivity.
Qed.

End MergeFacts.

Section MergeClaims.

Variable json_loads : string -> result value.

(** Past stage [st], a key that no later stage stores keeps its entry. *)
Lemma after_medication_get (st : stage) (o : stage_outputs) (k : key) :
  later_writes json_loads st o k = false ->
  dict_get k (after_medication json_loads o) =
  dict_get k (after_stage json_loads st o).
Proof.
  unfold later_writes.
  destruct st; simpl; intro H;
    repeat (apply orb_false_iff in H; destruct H as [? H]);
    unfold after_medication, after_lifestyle, after_prognosis;
    repeat (rewrite merge_stage_frame by assumption); reflexivity.
Qed.

(** No stage removes a key stored by stage [st] or before. *)
Lemma after_medication_mem (st : stage) (o : stage_outputs) (k : key) :
  dict_mem k (after_stage json_loads st o) = true ->
  dict_mem k (after_medication json_loads o) = true.
Proof.
  destruct st; simpl; intro H; [| | |exact H];
    unfold after_medication; apply merge_stage_mem; [| |exact H];
    unfold after_lifestyle; apply merge_stage_mem; [|exact H];
    unfold after_prognosis; apply merge_stage_mem; exact H.
Qed.

(** The final writes leave every key but [raw_text] and [pages] alone. *)
Lemma final_get (d : dict) (k : key) (text pages : value) :
  key_eqb k (KStr "raw_text") = false ->
  key_eqb k (KStr "pages") = false ->
  dict_get k (dict_set (KStr "pages") pages (dict_set (KStr "raw_text") text d))
  = dict_get k d.
Proof. intros T P. now rewrite !dict_get_set, P, T. Qed.

Lemma final_mem (d : dict) (k : key) (text pages : value) :
  dict_mem k d = true ->
  dict_mem k (dict_set (KStr "pages") pages (dict_set (KStr "raw_text") text d))
  = true.
Proof. intro H. now apply dict_mem_set, dict_mem_set. Qed.

(** Whatever the four stage outputs are, the merge returns a result that
    holds [raw_text] and [pages]. *)
Lemma merge_stores_raw_text_and_pages
  (o : stage_outputs) (raw_text : string) (metadata : dict) :
  exists results,
    merge_results json_loads o raw_text metadata = Ok results /\
    dict_get (KStr "raw_text") results = Some (VStr (str_take 3000 raw_text)) /\
    dict_get (KStr "pages") results =
      Some (match dict_get (KStr "pages") metadata with
            | Some pages => pages
            | None => VStr "N/A"
            end).
Proof.
  rewrite merge_results_eq. eexists. split; [reflexivity|]. split.
  - rewrite dict_get_set.
    change (key_eqb (KStr "raw_text") (KStr "pages")) with false.
    apply dict_get_set_same.
  - apply dict_get_set_same.
Qed.

(** C2, as stated, fails: the diagnosis output is not JSON and no later
    stage stores [conditions], yet the prognosis output stores [summary] and
    the final [summary] is not the truncated diagnosis text. *)
Lemma later_summary_replaces_fallback :
  is_ok (sample_json_loads (diagnosis_raw summary_collision)) = false /\
  later_writes sample_json_loads Diagnosis summary_collision (KStr "conditions")
    = false /\
  merge_results sample_json_loads summary_collision report_text [] =
    Ok [(KStr "summary", VStr "Overwritten.");
        (KStr "raw_text", VStr report_text); (KStr "pages", VStr "N/A")] /\
  VStr "Overwritten." <>
    VStr (str_take 2000 (diagnosis_raw summary_collision)).
Proof. repeat split; try reflexivity. discriminate. Qed.

(** C2 (amended): when the diagnosis output is not JSON and no later stage
    stores a [summary] or a [conditions] key, the result holds [summary] equal
    to the first 2000 characters of that output and has no [conditions]
    key. *)
Theorem diagnosis_fallback_summary
  (o : stage_outputs) (raw_text : string) (metadata : dict) (e : exn) :
  json_loads (diagnosis_raw o) = Raise e ->
  later_writes json_loads Diagnosis o (KStr "summary") = false ->
  later_writes json_loads Diagnosis o (KStr "conditions") = false ->
  exists results,
    merge_results json_loads o raw_text metadata = Ok results /\
    dict_get (KStr "summary") results =
      Some (VStr (str_take 2000 (diagnosis_raw o))) /\
    dict_mem (KStr "conditions") results = false.
Proof.
  intros Hbad Hsum Hcond. rewrite merge_results_eq.
  eexists. split; [reflexivity|]. split.
  - rewrite final_get by reflexivity.
    rewrite (after_medication_get Diagnosis) by assumption. simpl.
    unfold after_diagnosis.
    rewrite (merge_diagnosis_undecodable json_loads (diagnosis_raw o) e) by assumption.
    apply dict_get_set_same.
  - unfold dict_mem. rewrite final_get by reflexivity.
    rewrite (after_medication_get Diagnosis) by assumption. simpl.
    unfold after_diagnosis.
    rewrite (merge_diagnosis_undecodable json_loads (diagnosis_raw o) e) by assumption.
    reflexivity.
Qed.

(** C4, as stated, fails: the prognosis output is not JSON, yet the result
    has a [risks] key, stored by the diagnosis output. *)
Lemma risks_key_from_another_stage :
  is_ok (sample_json_loads (prognosis_raw risks_from_diagnosis)) = false /\
  merge_results sample_json_loads risks_from_diagnosis report_text [] =
    Ok [(KStr "risks", VList []);
        (KStr "raw_text", VStr report_text); (KStr "pages", VStr "N/A")] /\
  dict_mem (KStr "risks")
    [(KStr "risks", VList []);
     (KStr "raw_text", VStr report_text); (KStr "pages", VStr "N/A")] = true.
Proof. repeat split; reflexivity. Qed.

(** C4 (amended): when the prognosis output is not JSON, the result is the
    one of the run in which the prognosis output decodes to the empty object
    and the other three outputs are the same; and it has no [risks] key when
    no other stage stores one. *)
Theorem prognosis_failure_dropped
  (o : stage_outputs) (empty raw_text : string) (metadata : dict) (e : exn) :
  json_loads (prognosis_raw o) = Raise e ->
  json_loads empty = Ok (VDict []) ->
  merge_results json_loads o raw_text metadata =
    merge_results json_loads
      (mkOutputs (diagnosis_raw o) empty (lifestyle_raw o) (medication_raw o))
      raw_text metadata /\
  (other_writes json_loads Prognosis o (KStr "risks") = false ->
   exists results,
     merge_results json_loads o raw_text metadata = Ok results /\
     dict_mem (KStr "risks") results = false).
Proof.
  intros Hbad Hempty. split.
  - rewrite !merge_results_eq.
    unfold after_medication, after_lifestyle, after_prognosis, after_diagnosis.
    simpl.
    rewrite (merge_stage_undecodable json_loads (prognosis_raw o) e) by assumption.
    rewrite (merge_stage_object json_loads empty []) by assumption.
    reflexivity.
  - intro Hothers. rewrite merge_results_eq.
    eexists. split; [reflexivity|].
    unfold other_writes in Hothers. simpl in Hothers.
    apply orb_false_iff in Hothers. destruct Hothers as [Hd Hothers].
    unfold dict_mem. rewrite final_get by reflexivity.
    rewrite (after_medication_get Prognosis) by exact Hothers. simpl.
    unfold after_prognosis.
    rewrite (merge_stage_undecodable json_loads (prognosis_raw o) e) by assumption. simpl.
    unfold after_diagnosis.
    rewrite merge_diagnosis_frame by (exact Hd || reflexivity).
    reflexivity.
Qed.

End MergeClaims.

(** ** Stage order and collisions *)

Lemma num_class_not_str (m e : Z) (s : string) : num_class m e <> CStr s.
Proof.
  destruct m as [|p|p]; simpl; try destruct (odd_part p e); discriminate.
Qed.

(** Only the string itself is equal, as a key, to a string. *)
Lemma key_eqb_str_inv (k : key) (s : string) :
  key_eqb k (KStr s) = true -> k = KStr s.
Proof.
  unfold key_eqb. intro H. apply keyclass_eqb_eq in H. simpl in H.
  destruct k as [|b|z|f|t]; simpl in H;
    try discriminate;
    try (exfalso; eapply num_class_not_str; eassumption).
  - destruct f; try discriminate.
    exfalso; eapply num_class_not_str; eassumption.
  - congruence.
Qed.

Lemma dict_get_in_wf (k : key) (v : value) (d : dict) :
  dict_wf d = true -> In (k, v) d -> dict_get k d = Some v.
Proof.
  induction d as [|[j w] d IH]; simpl; [contradiction|].
  intros W [E|I].
  - inversion E; subst. now rewrite key_eqb_refl.
  - apply andb_true_iff in W. destruct W as [Wj Wd].
    destruct (key_eqb k j) eqn:Ekj; [|now apply IH].
    exfalso. apply negb_true_iff in Wj.
    assert (X : existsb (key_eqb j) (dict_keys d) = true); [|congruence].
    apply existsb_exists. exists k. split.
    + unfold dict_keys. now apply (in_map fst d (k, v)).
    + now rewrite key_eqb_sym.
Qed.

Lemma dict_mem_in_str (s : string) (d : dict) :
  dict_mem (KStr s) d = true -> In (KStr s) (dict_keys d).
Proof.
  unfold dict_mem.
  induction d as [|[j w] d IH]; simpl; [discriminate|].
  destruct (key_eqb (KStr s) j) eqn:E.
  - intros _. left. rewrite key_eqb_sym in E. now apply key_eqb_str_inv.
  - intro H. right. now apply IH.
Qed.

(** No schema asks for a key named [raw_text] or [pages]. *)
Lemma schema_key_is_fresh (st : stage) (k : key) :
  key_in_schema st k = true ->
  (exists name, k = KStr name) /\
  key_eqb k (KStr "raw_text") = false /\
  key_eqb k (KStr "pages") = false.
Proof.
  unfold key_in_schema. intro H. apply existsb_exists in H.
  destruct H as [name [Hin Heq]]. apply key_eqb_str_inv in Heq. subst k.
  split; [now exists name|].
  destruct st; simpl in Hin;
    repeat (destruct Hin as [Hin|Hin]; [subst name; split; reflexivity|]);
    contradiction.
Qed.

(** The schemas of two different stages share no key. *)
Lemma schemas_disjoint (st st' : stage) (k : key) :
  key_in_schema st k = true ->
  key_in_schema st' k = true ->
  st = st'.
Proof.
  unfold key_in_schema. intros H H'.
  apply existsb_exists in H. destruct H as [name [Hin Heq]].
  apply key_eqb_str_inv in Heq. subst k.
  apply existsb_exists in H'. destruct H' as [name' [Hin' Heq']].
  apply key_eqb_str_inv in Heq'. inversion Heq'; subst name'. clear Heq'.
  destruct st; simpl in Hin;
    repeat (destruct Hin as [Hin|Hin]; [subst name|]); try contradiction;
    destruct st'; simpl in Hin'; try reflexivity;
    repeat (destruct Hin' as [Hin'|Hin']; [discriminate Hin'|]);
    contradiction.
Qed.

Lemma later_stages_differ (st st' : stage) :
  In st' (later_stages st) -> st <> st'.
Proof.
  destruct st, st'; simpl; intros H E; try discriminate;
    repeat (destruct H as [H|H]; [discriminate H|]); contradiction.
Qed.

Section OrderAndShape.

Variable json_loads : string -> result value.

(** A key of the schema of [st] is stored by no later stage whose output
    keeps to its own schema. *)
Lemma later_conform_no_collision (st : stage) (o : stage_outputs) (k : key) :
  key_in_schema st k = true ->
  later_conform json_loads st o = true ->
  later_writes json_loads st o k = false.
Proof.
  unfold later_conform, later_writes. intros Hk Hconf.
  rewrite forallb_forall in Hconf.
  destruct (existsb _ (later_stages st)) eqn:E; [|reflexivity].
  exfalso. apply existsb_exists in E. destruct E as [st' [Hin Hw]].
  specialize (Hconf st' Hin). unfold stage_writes in Hw.
  destruct (json_loads (raw_of st' o)) as [parsed|e]; [|discriminate].
  destruct parsed; simpl in Hconf; try discriminate.
  apply andb_true_iff in Hconf. destruct Hconf as [_ Hkeys].
  rewrite forallb_forall in Hkeys. simpl in Hw.
  apply existsb_exists in Hw. destruct Hw as [j [Hj Hkj]].
  specialize (Hkeys j Hj).
  destruct (schema_key_is_fresh st' j Hkeys) as [[name Hname] _]. subst j.
  apply key_eqb_str_inv in Hkj. subst k.
  apply (later_stages_differ st st' Hin).
  now apply (schemas_disjoint st st' (KStr name)).
Qed.

(** Right after its merge, a stage whose output decodes to an object has
    stored every member of the object. *)
Lemma after_stage_holds
  (st : stage) (o : stage_outputs) (obj : dict) (k : key) (v : value) :
  json_loads (raw_of st o) = Ok (VDict obj) ->
  dict_wf obj = true ->
  In (k, v) obj ->
  dict_get k (after_stage json_loads st o) = Some v.
Proof.
  intros Hdec Hwf Hin.
  pose proof (dict_get_in_wf k v obj Hwf Hin) as G.
  destruct st; simpl in *.
  - unfold after_diagnosis.
    rewrite (merge_diagnosis_object json_loads _ obj) by assumption. simpl.
    now rewrite merge_mapping_get, dict_get_rev, G.
  - unfold after_prognosis.
    rewrite (merge_stage_object json_loads _ obj) by assumption. simpl.
    now rewrite merge_mapping_get, dict_get_rev, G.
  - unfold after_lifestyle.
    rewrite (merge_stage_object json_loads _ obj) by assumption. simpl.
    now rewrite merge_mapping_get, dict_get_rev, G.
  - unfold after_medication.
    rewrite (merge_stage_object json_loads _ obj) by assumption. simpl.
    now rewrite merge_mapping_get, dict_get_rev, G.
Qed.

(** C5: the stages are merged in the order diagnosis, prognosis, lifestyle,
    medication, each by a flat update.  For a stage whose output decodes to a
    JSON object and every member [k: v] of it: the key [k] is in the result;
    the result holds the value [v] itself when no stage merged later stores
    [k] (so on a collision the last stage in that order gives the value) and
    [k] is not one of the two keys written at the end; and when the object
    matches the schema of the stage, whose keys are never those two, the key
    appears as it is among the keys of the result, with the value [v] when
    no later stage stores [k], as is the case when every later output keeps
    to its own schema or does not decode. *)
Theorem stage_members_merged_in_order
  (o : stage_outputs) (raw_text : string) (metadata : dict)
  (st : stage) (obj : dict) (k : key) (v : value) :
  json_loads (raw_of st o) = Ok (VDict obj) ->
  dict_wf obj = true ->
  In (k, v) obj ->
  exists results,
    merge_results json_loads o raw_text metadata = Ok results /\
    dict_mem k results = true /\
    (later_writes json_loads st o k = false ->
     key_eqb k (KStr "raw_text") = false ->
     key_eqb k (KStr "pages") = false ->
     dict_get k results = Some v) /\
    (matches_schema st (VDict obj) = true ->
     In k (dict_keys results) /\
     (later_writes json_loads st o k = false -> dict_get k results = Some v) /\
     (later_conform json_loads st o = true -> dict_get k results = Some v)).
Proof.
  intros Hdec Hwf Hin. rewrite merge_results_eq.
  pose proof (after_stage_holds st o obj k v Hdec Hwf Hin) as Hheld.
  assert (Hmem : dict_mem k
            (dict_set (KStr "pages")
               (dict_get_default (KStr "pages") (VStr "N/A") metadata)
               (dict_set (KStr "raw_text") (VStr (str_take 3000 raw_text))
                  (after_medication json_loads o))) = true).
  { apply final_mem, (after_medication_mem json_loads st).
    unfold dict_mem. now rewrite Hheld. }
  assert (Hval : later_writes json_loads st o k = false ->
                 key_eqb k (KStr "raw_text") = false ->
                 key_eqb k (KStr "pages") = false ->
                 dict_get k
                   (dict_set (KStr "pages")
                      (dict_get_default (KStr "pages") (VStr "N/A") metadata)
                      (dict_set (KStr "raw_text")
                         (VStr (str_take 3000 raw_text))
                         (after_medication json_loads o))) = Some v).
  { intros Hlater Htext Hpages.
    rewrite final_get by assumption.
    now rewrite (after_medication_get json_loads st) by assumption. }
  eexists. split; [reflexivity|]. split; [exact Hmem|]. split; [exact Hval|].
  intro Hschema. simpl in Hschema.
  apply andb_true_iff in Hschema. destruct Hschema as [_ Hkeys].
  rewrite forallb_forall in Hkeys.
  assert (Hk : key_in_schema st k = true).
  { apply Hkeys. unfold dict_keys. now apply (in_map fst obj (k, v)). }
  destruct (schema_key_is_fresh st k Hk) as [[name Hname] [Htext Hpages]].
  split; [|split].
  - subst k. now apply dict_mem_in_str.
  - intro Hlater. now apply Hval.
  - intro Hconf. apply Hval; try assumption.
    now apply later_conform_no_collision.
Qed.

(** A collision at the sample outputs: the diagnosis and the medication
    output both hold [summary], and the result has the medication value. *)
Lemma later_stage_wins_at_sample :
  merge_results sample_json_loads late_summary report_text [] =
    Ok [(KStr "summary", VStr "Overwritten."); (KStr "conditions", VList []);
        (KStr "risk_score", VStr "2.0/10"); (KStr "confidence", VStr "90.0%");
        (KStr "risks", VList []); (KStr "diet", VDict []);
        (KStr "exercises", VList []);
        (KStr "sleep_recommendation", VStr "7-8 hours");
        (KStr "stress_management", VStr "Breathing");
        (KStr "raw_text", VStr report_text); (KStr "pages", VStr "N/A")].
Proof. reflexivity. Qed.

(** C9, as stated, fails: ["[]"] and ["[[1, 2]]"] are JSON texts that are not
    objects; on the first the diagnosis merge stores no [summary], and on the
    second the merge of a later stage stores the key [1]. *)
Lemma array_outputs_are_merged :
  sample_json_loads "[]" = Ok (VList []) /\
  sample_json_loads "[[1, 2]]" = Ok (VList [VList [VInt 1; VInt 2]]) /\
  merge_diagnosis sample_json_loads "[]" [] = (Ok tt, []) /\
  merge_stage sample_json_loads "[[1, 2]]" [] = (Ok tt, [(KInt 1, VInt 2)]) /\
  merge_diagnosis sample_json_loads garbled_text [] =
    (Ok tt, [(KStr "summary", VStr garbled_text)]).
Proof. repeat split; reflexivity. Qed.

(** C9 (amended): a stage output that decodes to a number, a boolean,
    [null], a non-empty string, or an array whose first element is not a pair
    with a hashable first item, is treated like a text that does not decode:
    the update raises before it stores anything, so the diagnosis merge
    stores [summary], the first 2000 characters of the text, and the merge of
    another stage leaves the result as it was. *)
Theorem rejected_output_like_parse_failure
  (raw : string) (parsed : value) (d : dict) :
  json_loads raw = Ok parsed ->
  rejected_at_once parsed = true ->
  merge_diagnosis json_loads raw d =
    (Ok tt, dict_set (KStr "summary") (VStr (str_take 2000 raw)) d) /\
  merge_stage json_loads raw d = (Ok tt, d) /\
  forall (undecodable : string -> result value) (e : exn),
    undecodable raw = Raise e ->
    merge_diagnosis json_loads raw d = merge_diagnosis undecodable raw d /\
    merge_stage json_loads raw d = merge_stage undecodable raw d.
Proof.
  intros Hdec Hrej.
  destruct (rejected_at_once_raises parsed d Hrej) as [e' Hraise].
  assert (Hd : merge_diagnosis json_loads raw d =
               (Ok tt, dict_set (KStr "summary") (VStr (str_take 2000 raw)) d)).
  { unfold_mut. now rewrite Hdec, Hraise. }
  assert (Hs : merge_stage json_loads raw d = (Ok tt, d)).
  { unfold_mut. now rewrite Hdec, Hraise. }
  split; [exact Hd|]. split; [exact Hs|].
  intros undecodable e Hbad. split.
  - now rewrite Hd, (merge_diagnosis_undecodable undecodable raw e d Hbad).
  - now rewrite Hs, (merge_stage_undecodable undecodable raw e d Hbad).
Qed.

End OrderAndShape.

(** ** The tools *)

Lemma str_endswith_refl (s : string) : str_endswith s s = true.
Proof. destruct s; cbn [str_endswith]; now rewrite String.eqb_refl. Qed.

Lemma str_endswith_app (a b : string) : str_endswith (a ++ b) b = true.
Proof.
  induction a as [|c a IH]; cbn [str_endswith append].
  - apply str_endswith_refl.
  - rewrite IH. now destruct (String.eqb (String c (a ++ b)) b).
Qed.




(** ** The mock retriever *)

Lemma prefix_app (p r : string) : prefix p (p ++ r) = true.
Proof.
  induction p as [|c p IH]; simpl; [now destruct r|].
  destruct (ascii_dec c c) as [_|N]; [exact IH|now elim N].
Qed.

Lemma str_contains_prefix (sub s : string) :
  prefix sub s = true -> str_contains sub s = true.
Proof. intro H. destruct s; cbn [str_contains]; now rewrite H. Qed.

Lemma str_join_head (sep p : string) (rest : list string) :
  exists tail, str_join sep (p :: rest) = p ++ tail.
Proof.
  destruct rest as [|p' rest]; simpl.
  - exists EmptyString. induction p as [|c p IH]; simpl; congruence.
  - eexists. reflexivity.
Qed.

(** The mock always answers with at least one document, and its first
    document is a canned passage. *)
Lemma get_relevant_documents_head (q : string) :
  exists doc rest,
    get_relevant_documents q = mkDocument doc :: rest /\ In doc MOCK_DOCS.
Proof.
  unfold get_relevant_documents.
  destruct (filter (doc_matches (firstn 5 (str_split (str_lower q)))) MOCK_DOCS)
    as [|doc docs] eqn:E.
  - exists (nth 0 MOCK_DOCS EmptyString), []. split; [reflexivity|].
    simpl. tauto.
  - exists doc. eexists. split; [simpl; reflexivity|].
    assert (I : In doc (filter (doc_matches (firstn 5 (str_split (str_lower q))))
                          MOCK_DOCS)) by (rewrite E; now left).
    now apply filter_In in I.
Qed.

(** For every query the vector search over the mock gives a text that is not
    empty and starts with a canned passage. *)
Lemma mock_vector_search_has_passage (q : string) :
  vector_search (Some MockRetriever) q <> EmptyString /\
  exists doc,
    In doc MOCK_DOCS /\
    str_contains doc (vector_search (Some MockRetriever) q) = true.
Proof.
  destruct (get_relevant_documents_head q) as [doc [rest [Hdocs Hin]]].
  unfold vector_search, call_similarity_search, MockRetriever.
  cbn [similarity_search]. unfold mock_similarity_search. rewrite Hdocs.
  change (map page_content (firstn 5 (mkDocument doc :: rest)))
    with (doc :: map page_content (firstn 4 rest)).
  destruct (str_join_head (nl ++ "---" ++ nl) doc
              (map page_content (firstn 4 rest))) as [tail Htail].
  rewrite Htail. split.
  - assert (N : doc <> EmptyString).
    { simpl in Hin.
      repeat (destruct Hin as [Hin|Hin]; [subst doc; discriminate|]).
      contradiction. }
    destruct doc; [congruence|discriminate].
  - exists doc. split; [exact Hin|].
    apply str_contains_prefix, prefix_app.
Qed.

(** C7: the mock holds five passages; with the live store unavailable,
    whatever the exception of its set-up, [medical_vector_search] on
    "diabetes" gives the first, fourth and fifth passage joined by the
    separator line: a text that is not empty, contains a canned passage, and
    is the same at every call. *)
Theorem mock_vector_search_diabetes (e : exn) :
  5 <= List.length MOCK_DOCS /\
  vector_search (Some (get_retriever (Raise e))) "diabetes" =
    str_join (nl ++ "---" ++ nl)
      [nth 0 MOCK_DOCS EmptyString; nth 3 MOCK_DOCS EmptyString;
       nth 4 MOCK_DOCS EmptyString] /\
  vector_search (Some (get_retriever (Raise e))) "diabetes" <> EmptyString /\
  (exists doc,
     In doc MOCK_DOCS /\
     str_contains doc (vector_search (Some (get_retriever (Raise e))) "diabetes")
       = true) /\
  (forall e' : exn,
     vector_search (Some (get_retriever (Raise e'))) "diabetes" =
     vector_search (Some (get_retriever (Raise e))) "diabetes").
Proof.
  split; [simpl; lia|].
  split; [vm_compute; reflexivity|].
  split; [vm_compute; discriminate|].
  split.
  - exists (nth 0 MOCK_DOCS EmptyString). split; [simpl; tauto|].
    vm_compute. reflexivity.
  - intro e'. reflexivity.
Qed.

(** ** [parse_document] *)

Section ParseFacts.

Variable libs : libraries.

(** The image branch catches every exception. *)
Lemma parse_image_returns (content : list byte) (d : dict) :
  exists text d', parse_image libs content d = (Ok text, d').
Proof.
  unfold parse_image, try_except, bind, lift, setitem, ret.
  destruct (import_pytesseract libs) as [[]|e].
  - destruct (image_to_string libs content) as [text|e].
    + now eexists; eexists.
    + destruct (is_ImportError e); now eexists; eexists.
  - destruct (is_ImportError e); now eexists; eexists.
Qed.

(** The branch for other files catches every exception. *)
Lemma parse_other_returns (content : list byte) (d : dict) :
  exists text, parse_other libs content d = (Ok text, d).
Proof.
  unfold parse_other, try_except, lift, ret.
  destruct (decode_utf8_ignore libs content) as [text|e]; now eexists.
Qed.

(** The PDF branch hands on what is not an [ImportError]. *)
Lemma parse_pdf_propagates (content : list byte) (d : dict) (e : exn) :
  import_pdfplumber libs = Ok tt ->
  pdfplumber_open libs content = Raise e ->
  is_ImportError e = false ->
  parse_pdf libs content d = (Raise e, d).
Proof.
  intros Himport Hopen Hcls.
  unfold parse_pdf, pdfplumber_body, try_except_when, bind, lift.
  now rewrite Himport, Hopen, Hcls.
Qed.

(** With neither PDF library installed the PDF branch gives its marker. *)
Lemma parse_pdf_without_libraries (content : list byte) (d : dict) (e e' : exn) :
  import_pdfplumber libs = Raise e -> is_ImportError e = true ->
  import_pypdf libs = Raise e' -> is_ImportError e' = true ->
  parse_pdf libs content d = (Ok "[PDF parsing failed - install pdfplumber]", d).
Proof.
  intros H1 C1 H2 C2.
  unfold parse_pdf, pdfplumber_body, pypdf_body, try_except_when, bind, lift, ret.
  now rewrite H1, C1, H2, C2.
Qed.

Lemma metadata_ok_initial (f : uploaded_file) :
  metadata_ok (initial_metadata libs f).
Proof.
  split; [repeat constructor|]. now exists 1%Z.
Qed.

Lemma metadata_ok_set_pages (d : dict) (n : Z) :
  metadata_ok d -> metadata_ok (dict_set (KStr "pages") (VInt n) d).
Proof.
  intros [Hkeys _]. split.
  - eapply Forall_impl; [|exact Hkeys]. intros k Hk. now apply dict_mem_set.
  - exists n. apply dict_get_set_same.
Qed.

Lemma metadata_ok_set_ocr_engine (d : dict) (v : value) :
  metadata_ok d -> metadata_ok (dict_set (KStr "ocr_engine") v d).
Proof.
  intros [Hkeys [n Hn]]. split.
  - eapply Forall_impl; [|exact Hkeys]. intros k Hk. now apply dict_mem_set.
  - exists n. now rewrite dict_get_set.
Qed.

Lemma pdfplumber_body_keeps (content : list byte) (d : dict) :
  metadata_ok d -> metadata_ok (snd (pdfplumber_body libs content d)).
Proof.
  intro H. unfold pdfplumber_body, bind, lift, setitem, ret.
  destruct (import_pdfplumber libs) as [[]|e]; [|exact H].
  destruct (pdfplumber_open libs content) as [pages|e]; [|exact H].
  destruct (read_pages 1 pages) as [parts|e]; simpl;
    now apply metadata_ok_set_pages.
Qed.

Lemma pypdf_body_keeps (content : list byte) (d : dict) :
  metadata_ok d -> metadata_ok (snd (pypdf_body libs content d)).
Proof.
  intro H. unfold pypdf_body, bind, lift, setitem, ret.
  destruct (import_pypdf libs) as [[]|e]; [|exact H].
  destruct (pypdf_reader libs content) as [pages|e]; [|exact H].
  destruct (read_pypdf_pages pages) as [parts|e]; simpl;
    now apply metadata_ok_set_pages.
Qed.

Lemma parse_pdf_keeps (content : list byte) (d : dict) :
  metadata_ok d -> metadata_ok (snd (parse_pdf libs content d)).
Proof.
  intro H. unfold parse_pdf, try_except_when, ret.
  pose proof (pdfplumber_body_keeps content d H) as H1.
  destruct (pdfplumber_body libs content d) as [[text|e] d1]; simpl in *;
    [exact H1|].
  destruct (is_ImportError e); [|exact H1].
  pose proof (pypdf_body_keeps content d1 H1) as H2.
  destruct (pypdf_body libs content d1) as [[text|e2] d2]; simpl in *;
    [exact H2|].
  now destruct (is_ImportError e2).
Qed.

Lemma parse_image_keeps (content : list byte) (d : dict) :
  metadata_ok d -> metadata_ok (snd (parse_image libs content d)).
Proof.
  intro H. unfold parse_image, try_except, bind, lift, setitem, ret.
  destruct (import_pytesseract libs) as [[]|e].
  - destruct (image_to_string libs content) as [text|e]; simpl.
    + now apply metadata_ok_set_ocr_engine.
    + now destruct (is_ImportError e).
  - now destruct (is_ImportError e).
Qed.

(** Outside the PDF branch nothing stores [pages]. *)
Lemma parse_image_pages (content : list byte) (d : dict) :
  dict_get (KStr "pages") (snd (parse_image libs content d)) =
  dict_get (KStr "pages") d.
Proof.
  unfold parse_image, try_except, bind, lift, setitem, ret.
  destruct (import_pytesseract libs) as [[]|e].
  - destruct (image_to_string libs content) as [text|e]; simpl.
    + now rewrite dict_get_set.
    + now destruct (is_ImportError e).
  - now destruct (is_ImportError e).
Qed.

Lemma parse_document_inv (f : uploaded_file) (raw_text : string) (metadata : dict) :
  parse_document libs f = Ok (raw_text, metadata) ->
  metadata_ok metadata /\
  (str_endswith (str_lower (file_name f)) ".pdf" = false ->
   dict_get (KStr "pages") metadata = Some (VInt 1)).
Proof.
  unfold parse_document, run.
  destruct (str_endswith (str_lower (file_name f)) ".pdf") eqn:Epdf.
  - pose proof (parse_pdf_keeps (file_bytes f) _ (metadata_ok_initial f)) as K.
    destruct (parse_pdf libs (file_bytes f) (initial_metadata libs f))
      as [[text|e] d]; [|discriminate].
    intro H. inversion H; subst. split; [exact K|discriminate].
  - destruct (existsb (str_endswith (str_lower (file_name f))) IMAGE_EXTENSIONS).
    + pose proof (parse_image_keeps (file_bytes f) _ (metadata_ok_initial f)) as K.
      pose proof (parse_image_pages (file_bytes f) (initial_metadata libs f)) as P.
      destruct (parse_image libs (file_bytes f) (initial_metadata libs f))
        as [[text|e] d]; [|discriminate].
      intro H. inversion H; subst. split; [exact K|]. intros _. exact P.
    + destruct (parse_other_returns (file_bytes f) (initial_metadata libs f))
        as [text Hother].
      rewrite Hother. intro H. inversion H; subst.
      split; [apply metadata_ok_initial|]. reflexivity.
Qed.

End ParseFacts.

(** C8: an empty file named [scan.pdf], with [pdfplumber] installed:
    [pdfplumber.open] raises an exception that is not an [ImportError], no
    handler of the PDF branch names it, and [parse_document] raises it
    instead of returning a marker text with the metadata. *)
Lemma pdf_parser_error_is_raised :
  parse_document pdfplumber_rejects broken_pdf_upload =
    Raise (mkExn (LibraryError "PDFSyntaxError")
             "No /Root object! - Is this really a PDF?").
Proof. reflexivity. Qed.

(** ** The pipeline *)

Section PipelineFacts.

Variable json_loads : string -> result value.
Variable libs : libraries.
Variable fw : framework.

(** A run that returns has gone through the parser and the merge. *)
Lemma run_medical_analysis_inv
  (f : uploaded_file) (use_graphrag use_pinecone : bool)
  (patient_profile : option dict) (results : dict) :
  run_medical_analysis json_loads libs fw f use_graphrag use_pinecone
    patient_profile = Ok results ->
  exists raw_text metadata o,
    parse_document libs f = Ok (raw_text, metadata) /\
    merge_results json_loads o raw_text metadata = Ok results.
Proof.
  unfold run_medical_analysis, and_then.
  destruct (import_crewai fw) as [[]|e]; [|discriminate].
  destruct (parse_document libs f) as [[raw_text metadata]|e]; [|discriminate].
  simpl. destruct (import_langchain_tools fw) as [[]|e]; [|discriminate].
  destruct (crew_kickoff fw _ raw_text _) as [o|e]; [|discriminate].
  intro H. now exists raw_text, metadata, o.
Qed.

(** C10: the metadata [parse_document] returns holds the keys [filename],
    [file_type], [file_size_kb], [pages] and [hash]; [pages] is an integer,
    and it is 1 when the file is not a PDF or when neither PDF library is
    installed; so the [pages] entry of a pipeline result is an integer and
    never the string "N/A". *)
Theorem metadata_always_has_pages
  (f : uploaded_file) (raw_text : string) (metadata : dict) :
  parse_document libs f = Ok (raw_text, metadata) ->
  Forall (fun k => dict_mem (KStr k) metadata = true)
    ["filename"; "file_type"; "file_size_kb"; "pages"; "hash"] /\
  (exists n, dict_get (KStr "pages") metadata = Some (VInt n)) /\
  (str_endswith (str_lower (file_name f)) ".pdf" = false ->
   dict_get (KStr "pages") metadata = Some (VInt 1)) /\
  (forall e e',
     import_pdfplumber libs = Raise e -> is_ImportError e = true ->
     import_pypdf libs = Raise e' -> is_ImportError e' = true ->
     dict_get (KStr "pages") metadata = Some (VInt 1)) /\
  (forall use_graphrag use_pinecone patient_profile results,
     run_medical_analysis json_loads libs fw f use_graphrag use_pinecone
       patient_profile = Ok results ->
     (exists n, dict_get (KStr "pages") results = Some (VInt n)) /\
     dict_get (KStr "pages") results <> Some (VStr "N/A")).
Proof.
  intro Hparse.
  destruct (parse_document_inv libs f raw_text metadata Hparse)
    as [[Hkeys [n Hn]] Hother].
  split; [exact Hkeys|]. split; [now exists n|]. split; [exact Hother|]. split.
  - intros e e' H1 C1 H2 C2.
    destruct (str_endswith (str_lower (file_name f)) ".pdf") eqn:Epdf;
      [|now apply Hother].
    unfold parse_document, run in Hparse. rewrite Epdf in Hparse.
    rewrite (parse_pdf_without_libraries libs _ _ e e' H1 C1 H2 C2) in Hparse.
    inversion Hparse; subst. reflexivity.
  - intros use_graphrag use_pinecone patient_profile results Hrun.
    destruct (run_medical_analysis_inv _ _ _ _ _ Hrun)
      as [raw_text' [metadata' [o [Hparse' Hmerge]]]].
    rewrite Hparse in Hparse'. inversion Hparse'; subst raw_text' metadata'.
    rewrite merge_results_eq in Hmerge. inversion Hmerge; subst results.
    rewrite dict_get_set_same. unfold dict_get_default. rewrite Hn.
    split; [now exists n|discriminate].
Qed.

(** C3: whatever the four stage outputs are, the merge returns a result in
    which [raw_text] is the first 3000 characters of the extracted text and
    [pages] is the page count of the metadata, or the string "N/A" when the
    metadata has no [pages] entry; and so does every pipeline run that
    returns, for the text and the metadata of [parse_document]. *)
Theorem raw_text_and_pages_always_present :
  (forall (o : stage_outputs) (raw_text : string) (metadata : dict),
     exists results,
       merge_results json_loads o raw_text metadata = Ok results /\
       dict_get (KStr "raw_text") results =
         Some (VStr (str_take 3000 raw_text)) /\
       dict_get (KStr "pages") results =
         Some (match dict_get (KStr "pages") metadata with
               | Some pages => pages
               | None => VStr "N/A"
               end)) /\
  (forall (f : uploaded_file) (use_graphrag use_pinecone : bool)
          (patient_profile : option dict) (results : dict),
     run_medical_analysis json_loads libs fw f use_graphrag use_pinecone
       patient_profile = Ok results ->
     exists raw_text metadata,
       parse_document libs f = Ok (raw_text, metadata) /\
       dict_get (KStr "raw_text") results =
         Some (VStr (str_take 3000 raw_text)) /\
       dict_get (KStr "pages") results =
         Some (match dict_get (KStr "pages") metadata with
               | Some pages => pages
               | None => VStr "N/A"
               end)).
Proof.
  split.
  - apply merge_stores_raw_text_and_pages.
  - intros f use_graphrag use_pinecone patient_profile results Hrun.
    destruct (run_medical_analysis_inv _ _ _ _ _ Hrun)
      as [raw_text [metadata [o [Hparse Hmerge]]]].
    exists raw_text, metadata. split; [exact Hparse|].
    destruct (merge_stores_raw_text_and_pages json_loads o raw_text metadata)
      as [results' [Hmerge' Hkeys]].
    rewrite Hmerge in Hmerge'. inversion Hmerge'; subst results'.
    exact Hkeys.
Qed.

(** C1, as stated, fails: a plain-text report parses, and the model call
    inside [crew.kickoff()] raises; nothing in [run_medical_analysis] catches
    it and the caller gets the exception. *)
Lemma crew_exception_reaches_caller :
  is_ok (parse_document bare_libraries text_upload) = true /\
  run_medical_analysis sample_json_loads bare_libraries crew_fails
    text_upload true true None =
    Raise (mkExn (LibraryError "AuthenticationError")
             "Incorrect API key provided").
Proof. split; reflexivity. Qed.

(** C1 (amended): when the imports succeed, [parse_document] returns and
    the crew run returns its four raw outputs, then for every combination of
    those outputs, JSON or not, [run_medical_analysis] returns a result
    mapping, which holds at least [raw_text] and [pages]. *)
Theorem pipeline_returns_after_crew_run
  (f : uploaded_file) (use_graphrag use_pinecone : bool)
  (patient_profile : option dict) (raw_text : string) (metadata : dict) :
  import_crewai fw = Ok tt ->
  import_langchain_tools fw = Ok tt ->
  parse_document libs f = Ok (raw_text, metadata) ->
  (forall tools profile, is_ok (crew_kickoff fw tools raw_text profile) = true) ->
  exists results,
    run_medical_analysis json_loads libs fw f use_graphrag use_pinecone
      patient_profile = Ok results /\
    dict_mem (KStr "raw_text") results = true /\
    dict_mem (KStr "pages") results = true.
Proof.
  intros Hcrewai Htools Hparse Hkick.
  unfold run_medical_analysis, and_then.
  rewrite Hcrewai, Hparse. simpl. rewrite Htools.
  match goal with
  | |- context [crew_kickoff fw ?tools raw_text ?profile] =>
      specialize (Hkick tools profile);
      destruct (crew_kickoff fw tools raw_text profile) as [o|e];
      [|discriminate]
  end.
  rewrite merge_results_eq. eexists. split; [reflexivity|]. split.
  - apply dict_mem_set, dict_mem_set_same.
  - apply dict_mem_set_same.
Qed.

End PipelineFacts.

(** ** The theorems at sample inputs *)

(** A text report, no optional library installed, four outputs that match
    their schemas. *)
Lemma pipeline_returns_after_crew_run_witness :
  import_crewai (crew_returns all_valid) = Ok tt /\
  import_langchain_tools (crew_returns all_valid) = Ok tt /\
  parse_document bare_libraries text_upload =
    Ok (report_text, initial_metadata bare_libraries text_upload) /\
  (forall tools profile,
     is_ok (crew_kickoff (crew_returns all_valid) tools report_text profile)
     = true) /\
  exists results,
    run_medical_analysis sample_json_loads bare_libraries
      (crew_returns all_valid) text_upload true true None = Ok results /\
    dict_mem (KStr "raw_text") results = true /\
    dict_mem (KStr "pages") results = true.
Proof.
  split; [reflexivity|]. split; [reflexivity|]. split; [reflexivity|].
  split; [reflexivity|].
  apply (pipeline_returns_after_crew_run sample_json_loads bare_libraries
           (crew_returns all_valid) text_upload true true None report_text
           (initial_metadata bare_libraries text_upload));
    reflexivity.
Defined.

(** A garbled diagnosis followed by three outputs that match their
    schemas. *)
Lemma diagnosis_fallback_summary_witness :
  sample_json_loads (diagnosis_raw garbled_diagnosis) = Raise decode_error /\
  later_writes sample_json_loads Diagnosis garbled_diagnosis (KStr "summary")
    = false /\
  later_writes sample_json_loads Diagnosis garbled_diagnosis (KStr "conditions")
    = false /\
  exists results,
    merge_results sample_json_loads garbled_diagnosis report_text [] = Ok results /\
    dict_get (KStr "summary") results =
      Some (VStr (str_take 2000 (diagnosis_raw garbled_diagnosis))) /\
    dict_mem (KStr "conditions") results = false.
Proof.
  split; [reflexivity|]. split; [reflexivity|]. split; [reflexivity|].
  apply (diagnosis_fallback_summary sample_json_loads garbled_diagnosis
           report_text [] decode_error);
    reflexivity.
Defined.

(** A garbled prognosis among three outputs that match their schemas. *)
Lemma prognosis_failure_dropped_witness :
  sample_json_loads (prognosis_raw garbled_prognosis) = Raise decode_error /\
  sample_json_loads "{}" = Ok (VDict []) /\
  other_writes sample_json_loads Prognosis garbled_prognosis (KStr "risks")
    = false /\
  merge_results sample_json_loads garbled_prognosis report_text [] =
    merge_results sample_json_loads
      (mkOutputs diagnosis_text "{}" lifestyle_text medication_text)
      report_text [] /\
  exists results,
    merge_results sample_json_loads garbled_prognosis report_text [] = Ok results /\
    dict_mem (KStr "risks") results = false.
Proof.
  split; [reflexivity|]. split; [reflexivity|]. split; [reflexivity|].
  destruct (prognosis_failure_dropped sample_json_loads garbled_prognosis
              "{}" report_text [] decode_error eq_refl eq_refl)
    as [Hsame Hrisks].
  split; [exact Hsame|]. apply Hrisks. reflexivity.
Defined.

(** The [summary] member of the diagnosis output, all four outputs matching
    their schemas. *)
Lemma stage_members_merged_in_order_witness :
  sample_json_loads (raw_of Diagnosis all_valid) =
    Ok (VDict [(KStr "summary", VStr "Stable."); (KStr "conditions", VList []);
               (KStr "risk_score", VStr "2.0/10");
               (KStr "confidence", VStr "90.0%")]) /\
  exists results,
    merge_results sample_json_loads all_valid report_text [] = Ok results /\
    dict_mem (KStr "summary") results = true /\
    In (KStr "summary") (dict_keys results) /\
    dict_get (KStr "summary") results = Some (VStr "Stable.").
Proof.
  split; [reflexivity|].
  destruct (stage_members_merged_in_order sample_json_loads all_valid
              report_text [] Diagnosis
              [(KStr "summary", VStr "Stable."); (KStr "conditions", VList []);
               (KStr "risk_score", VStr "2.0/10");
               (KStr "confidence", VStr "90.0%")]
              (KStr "summary") (VStr "Stable.")
              eq_refl eq_refl (or_introl eq_refl))
    as [results [Hrun [Hmem [_ Hschema]]]].
  destruct (Hschema eq_refl) as [Hin [_ Hval]].
  exists results. split; [exact Hrun|]. split; [exact Hmem|].
  split; [exact Hin|]. apply Hval. reflexivity.
Defined.


(** The array [[1, 2, 3]] as a stage output. *)
Lemma rejected_output_like_parse_failure_witness :
  sample_json_loads "[1, 2, 3]" = Ok (VList [VInt 1; VInt 2; VInt 3]) /\
  rejected_at_once (VList [VInt 1; VInt 2; VInt 3]) = true /\
  merge_diagnosis sample_json_loads "[1, 2, 3]" [] =
    (Ok tt, [(KStr "summary", VStr "[1, 2, 3]")]) /\
  merge_stage sample_json_loads "[1, 2, 3]" [] = (Ok tt, []).
Proof.
  split; [reflexivity|]. split; [reflexivity|].
  destruct (rejected_output_like_parse_failure sample_json_loads "[1, 2, 3]"
              (VList [VInt 1; VInt 2; VInt 3]) [] eq_refl eq_refl)
    as [Hdiagnosis [Hstage _]].
  split; [exact Hdiagnosis|exact Hstage].
Defined.

(** A text report: one page. *)
Lemma metadata_always_has_pages_witness :
  parse_document bare_libraries text_upload =
    Ok (report_text, initial_metadata bare_libraries text_upload) /\
  dict_get (KStr "pages") (initial_metadata bare_libraries text_upload) =
    Some (VInt 1) /\
  forall results,
    run_medical_analysis sample_json_loads bare_libraries
      (crew_returns all_valid) text_upload true true None = Ok results ->
    dict_get (KStr "pages") results <> Some (VStr "N/A").
Proof.
  split; [reflexivity|].
  destruct (metadata_always_has_pages sample_json_loads bare_libraries
              (crew_returns all_valid) text_upload report_text
              (initial_metadata bare_libraries text_upload) eq_refl)
    as [_ [_ [Hother [_ Hrun]]]].
  split; [apply Hother; reflexivity|].
  intros results Hresults.
  apply (Hrun true true None results Hresults).
Defined.

(** A pipeline run on a text report with a garbled diagnosis. *)
Lemma raw_text_and_pages_always_present_witness :
  run_medical_analysis sample_json_loads bare_libraries
    (crew_returns garbled_diagnosis) text_upload true true None =
    Ok [(KStr "summary", VStr garbled_text); (KStr "risks", VList []);
        (KStr "diet", VDict []); (KStr "exercises", VList []);
        (KStr "sleep_recommendation", VStr "7-8 hours");
        (KStr "stress_management", VStr "Breathing");
        (KStr "medications", VList []);
        (KStr "interactions_warning", VList []);
        (KStr "stop_medications", VList []);
        (KStr "raw_text", VStr report_text); (KStr "pages", VInt 1)] /\
  exists raw_text metadata,
    parse_document bare_libraries text_upload = Ok (raw_text, metadata) /\
    dict_get (KStr "raw_text")
      [(KStr "summary", VStr garbled_text); (KStr "risks", VList []);
       (KStr "diet", VDict []); (KStr "exercises", VList []);
       (KStr "sleep_recommendation", VStr "7-8 hours");
       (KStr "stress_management", VStr "Breathing");
       (KStr "medications", VList []);
       (KStr "interactions_warning", VList []);
       (KStr "stop_medications", VList []);
       (KStr "raw_text", VStr report_text); (KStr "pages", VInt 1)] =
      Some (VStr (str_take 3000 raw_text)) /\
    dict_get (KStr "pages")
      [(KStr "summary", VStr garbled_text); (KStr "risks", VList []);
       (KStr "diet", VDict []); (KStr "exercises", VList []);
       (KStr "sleep_recommendation", VStr "7-8 hours");
       (KStr "stress_management", VStr "Breathing");
       (KStr "medications", VList []);
       (KStr "interactions_warning", VList []);
       (KStr "stop_medications", VList []);
       (KStr "raw_text", VStr report_text); (KStr "pages", VInt 1)] =
      Some (match dict_get (KStr "pages") metadata with
            | Some pages => pages
            | None => VStr "N/A"
            end).
Proof.
  split; [reflexivity|].
  destruct (raw_text_and_pages_always_present sample_json_loads bare_libraries
              (crew_returns garbled_diagnosis))
    as [_ Hrun].
  apply (Hrun text_upload true true None). reflexivity.
Defined.

(** * Further properties *)

(** ** The merge: updates that raise midway, and failed stages *)

Lemma hashable_value_of_key (k : key) : hashable (value_of_key k) = Some k.
Proof. now destruct k. Qed.

Lemma pair_of_pair_item (i : nat) (kv : key * value) :
  pair_of_item i (pair_item kv) = Ok kv.
Proof.
  destruct kv as [k v]. unfold pair_of_item, pair_item. simpl.
  now rewrite hashable_value_of_key.
Qed.

(** Pairs in front of a bad element are stored, and then the update
    raises. *)
Lemma merge_from_seq2_prefix (pairs : list (key * value)) (bad : value)
  (rest : list value) :
  forall (i : nat) (d : dict),
    is_ok (pair_of_item (i + List.length pairs) bad) = false ->
    exists e,
      merge_from_seq2 i (map pair_item pairs ++ bad :: rest)%list d =
      (Raise e, snd (merge_mapping pairs d)).
Proof.
  induction pairs as [|[k v] pairs IH]; intros i d Hbad; simpl in *.
  - rewrite Nat.add_0_r in Hbad. unfold bind, lift.
    destruct (pair_of_item i bad) as [kv|e]; [discriminate|]. now exists e.
  - unfold bind, lift, setitem. rewrite (pair_of_pair_item i (k, v)).
    cbn [fst snd]. apply IH. now rewrite <- plus_n_Sm in Hbad.
Qed.

Section MergeMore.

Variable json_loads : string -> result value.

(** X1: a stage output that decodes to an array of well-formed pairs
    followed by an element that is not a pair is not dropped as a whole: the
    pairs in front of the bad element stay in the result, for the diagnosis
    stage together with the [summary] fallback. *)
Theorem failed_update_keeps_leading_pairs
  (raw : string) (pairs : list (key * value)) (bad : value)
  (rest : list value) (d : dict) :
  json_loads raw = Ok (VList (map pair_item pairs ++ bad :: rest)) ->
  is_ok (pair_of_item (List.length pairs) bad) = false ->
  merge_stage json_loads raw d = (Ok tt, snd (merge_mapping pairs d)) /\
  merge_diagnosis json_loads raw d =
    (Ok tt, dict_set (KStr "summary") (VStr (str_take 2000 raw))
              (snd (merge_mapping pairs d))) /\
  forall k v, In (k, v) pairs -> dict_wf pairs = true ->
    dict_get k (snd (merge_stage json_loads raw d)) = Some v.
Proof.
  intros Hdec Hbad.
  destruct (merge_from_seq2_prefix pairs bad rest 0 d Hbad) as [e He].
  assert (Hs : merge_stage json_loads raw d =
               (Ok tt, snd (merge_mapping pairs d))).
  { unfold_mut. rewrite Hdec. simpl. now rewrite He. }
  split; [exact Hs|]. split.
  - unfold_mut. rewrite Hdec. simpl. now rewrite He.
  - intros k v Hin Hwf. rewrite Hs. simpl.
    now rewrite merge_mapping_get, dict_get_rev, (dict_get_in_wf k v pairs).
Qed.

(** X2: in every run the result has a [summary] key, unless the diagnosis
    output decoded and its update went through without an exception. *)
Theorem summary_present_or_diagnosis_merged
  (o : stage_outputs) (raw_text : string) (metadata : dict) :
  exists results,
    merge_results json_loads o raw_text metadata = Ok results /\
    (dict_mem (KStr "summary") results = true \/
     exists parsed,
       json_loads (diagnosis_raw o) = Ok parsed /\
       fst (dict_update parsed []) = Ok tt).
Proof.
  rewrite merge_results_eq. eexists. split; [reflexivity|].
  destruct (json_loads (diagnosis_raw o)) as [parsed|e] eqn:Hdec.
  - destruct (dict_update parsed []) as [[[]|e] d'] eqn:Hup.
    + right. exists parsed. split; [reflexivity|]. now rewrite Hup.
    + left. apply final_mem, (after_medication_mem json_loads Diagnosis).
      simpl. unfold after_diagnosis. unfold_mut. rewrite Hdec. simpl.
      rewrite Hup. simpl. apply dict_mem_set_same.
  - left. apply final_mem, (after_medication_mem json_loads Diagnosis).
    simpl. unfold after_diagnosis.
    rewrite (merge_diagnosis_undecodable json_loads _ e) by assumption.
    apply dict_mem_set_same.
Qed.

(** X3: for each of the three stages after the diagnosis, an output that
    does not decode leaves the result exactly as the empty object does, and
    two outputs that do not decode give the same result. *)
Theorem failed_stage_is_an_empty_contribution
  (st : stage) (o : stage_outputs) (empty other raw_text : string)
  (metadata : dict) (e e' : exn) :
  st <> Diagnosis ->
  json_loads (raw_of st o) = Raise e ->
  json_loads empty = Ok (VDict []) ->
  json_loads other = Raise e' ->
  merge_results json_loads o raw_text metadata =
    merge_results json_loads (with_raw st empty o) raw_text metadata /\
  merge_results json_loads o raw_text metadata =
    merge_results json_loads (with_raw st other o) raw_text metadata.
Proof.
  intros Hst Hbad Hempty Hother. rewrite !merge_results_eq.
  unfold after_medication, after_lifestyle, after_prognosis, after_diagnosis.
  destruct st; [congruence| | |]; simpl in *;
    match goal with
    | H : json_loads ?r = Raise e |- _ =>
        rewrite !(merge_stage_undecodable json_loads r e) by exact H
    end;
    rewrite (merge_stage_object json_loads empty []) by assumption;
    rewrite (merge_stage_undecodable json_loads other e') by assumption;
    split; reflexivity.
Qed.

End MergeMore.

(** ** Strings *)

Lemma str_app_nil_r (s : string) : s ++ EmptyString = s.
Proof. induction s as [|c s IH]; simpl; congruence. Qed.

Lemma str_app_assoc (a b c : string) : (a ++ b) ++ c = a ++ (b ++ c).
Proof. induction a as [|x a IH]; simpl; congruence. Qed.

Lemma str_length_app (a b : string) :
  String.length (a ++ b) = String.length a + String.length b.
Proof. induction a as [|x a IH]; simpl; congruence. Qed.

Lemma str_contains_middle (p a b : string) :
  str_contains p (a ++ p ++ b) = true.
Proof.
  induction a as [|c a IH].
  - change (EmptyString ++ p ++ b) with (p ++ b).
    apply str_contains_prefix, prefix_app.
  - cbn [append str_contains]. rewrite IH.
    now destruct (prefix p (String c (a ++ p ++ b))).
Qed.

(** A part of a joined text appears in it. *)
Lemma str_join_contains (sep p : string) (parts : list string) :
  In p parts -> str_contains p (str_join sep parts) = true.
Proof.
  induction parts as [|q parts IH]; [contradiction|].
  intros [E|I].
  - subst q. destruct (str_join_head sep p parts) as [tail Htail].
    rewrite Htail. apply str_contains_prefix, prefix_app.
  - destruct parts as [|q' parts]; [contradiction|].
    change (str_join sep (q :: q' :: parts))
      with (q ++ sep ++ str_join sep (q' :: parts)).
    specialize (IH I). clear I.
    assert (G : forall a s, str_contains p s = true ->
                            str_contains p (a ++ s) = true).
    { intros a s Hs. induction a as [|c a IHa]; [exact Hs|].
      cbn [append str_contains]. rewrite IHa.
      now destruct (prefix p (String c (a ++ s))). }
    apply G, G, IH.
Qed.

(** ** The mock retriever on every query *)





Lemma lower_char_space (c : ascii) : is_space c = true -> lower_char c = c.
Proof.
  destruct c as [[] [] [] [] [] [] [] []];
    intro H; try reflexivity; vm_compute in H; discriminate.
Qed.

Lemma split_from_spaces (s : string) :
  forallb is_space (list_ascii_of_string s) = true ->
  split_from (str_lower s) EmptyString = [].
Proof.
  induction s as [|c s IH]; simpl; [reflexivity|].
  intro H. apply andb_true_iff in H. destruct H as [Hc Hs].
  rewrite (lower_char_space c Hc), Hc. simpl. now apply IH.
Qed.

(** X5: a query with no word in it (empty, or blanks only) matches no
    passage, and the mock answers with its first passage alone. *)
Theorem blank_query_gets_first_passage (q : string) :
  forallb is_space (list_ascii_of_string q) = true ->
  get_relevant_documents q = [mkDocument (nth 0 MOCK_DOCS EmptyString)] /\
  vector_search (Some MockRetriever) q = nth 0 MOCK_DOCS EmptyString.
Proof.
  intro H.
  assert (G : get_relevant_documents q =
              [mkDocument (nth 0 MOCK_DOCS EmptyString)]).
  { unfold get_relevant_documents, str_split.
    rewrite (split_from_spaces q H). reflexivity. }
  split; [exact G|].
  unfold vector_search, call_similarity_search, MockRetriever.
  cbn [similarity_search]. unfold mock_similarity_search. rewrite G.
  reflexivity.
Qed.

(** ** The tools when the retriever answers *)

(** X6: when the retriever returns documents, the vector search tool answers
    with their contents joined by the separator line and the drug lookup with
    the contents joined by a line feed: every returned passage appears in the
    answer, and an empty list of documents gives the empty text, not an error
    text. *)
Theorem tools_answer_with_every_passage
  (r : option retriever) (q : string) (docs : list document) :
  (call_similarity_search r q 5 = Ok docs ->
   vector_search r q = str_join (nl ++ "---" ++ nl) (map page_content docs) /\
   (forall d, In d docs ->
      str_contains (page_content d) (vector_search r q) = true) /\
   (docs = [] -> vector_search r q = EmptyString)) /\
  (call_similarity_search r
     ("drug:" ++ q ++ " mechanism dosage side effects") 3 = Ok docs ->
   drugbank_lookup r q = str_join nl (map page_content docs) /\
   (forall d, In d docs ->
      str_contains (page_content d) (drugbank_lookup r q) = true) /\
   (docs = [] -> drugbank_lookup r q = EmptyString)).
Proof.
  split; intro H.
  - assert (E : vector_search r q =
                str_join (nl ++ "---" ++ nl) (map page_content docs))
      by (unfold vector_search; now rewrite H).
    split; [exact E|]. split.
    + intros d Hd. rewrite E. apply str_join_contains.
      now apply in_map.
    + intro Hnil. rewrite E, Hnil. reflexivity.
  - assert (E : drugbank_lookup r q = str_join nl (map page_content docs))
      by (unfold drugbank_lookup; now rewrite H).
    split; [exact E|]. split.
    + intros d Hd. rewrite E. apply str_join_contains.
      now apply in_map.
    + intro Hnil. rewrite E, Hnil. reflexivity.
Qed.

(** ** [parse_document]: where it can raise, and the pages of a PDF *)

Lemma str_lower_app (a b : string) :
  str_lower (a ++ b) = str_lower a ++ str_lower b.
Proof. induction a as [|c a IH]; simpl; congruence. Qed.

Section ParseMore.

Variable libs : libraries.

Lemma parse_pdf_raises_no_import_error
  (content : list byte) (d d' : dict) (e : exn) :
  parse_pdf libs content d = (Raise e, d') -> is_ImportError e = false.
Proof.
  unfold parse_pdf, try_except_when, ret.
  destruct (pdfplumber_body libs content d) as [[text|e0] d0]; [discriminate|].
  destruct (is_ImportError e0) eqn:E0.
  - destruct (pypdf_body libs content d0) as [[text|e1] d1]; [discriminate|].
    destruct (is_ImportError e1) eqn:E1; [discriminate|].
    intro H. inversion H; subst. exact E1.
  - intro H. inversion H; subst. exact E0.
Qed.

(** X7: [parse_document] raises for PDF files only, and never an
    [ImportError]: a file whose lower-cased name does not end in [.pdf]
    always gets a text and its metadata back, and a name that ends in [.pdf]
    in any letter case is taken as a PDF. *)
Theorem parse_document_raises_for_pdf_only (f : uploaded_file) :
  (str_endswith (str_lower (file_name f)) ".pdf" = false ->
   exists raw_text metadata, parse_document libs f = Ok (raw_text, metadata)) /\
  (forall e, parse_document libs f = Raise e ->
     str_endswith (str_lower (file_name f)) ".pdf" = true /\
     is_ImportError e = false) /\
  (forall stem suffix,
     file_name f = stem ++ suffix -> str_lower suffix = ".pdf" ->
     str_endswith (str_lower (file_name f)) ".pdf" = true).
Proof.
  split; [|split].
  - intro Hpdf. unfold parse_document, run. rewrite Hpdf.
    destruct (existsb (str_endswith (str_lower (file_name f))) IMAGE_EXTENSIONS).
    + destruct (parse_image_returns libs (file_bytes f) (initial_metadata libs f))
        as [text [d' H]].
      rewrite H. now exists text, d'.
    + destruct (parse_other_returns libs (file_bytes f) (initial_metadata libs f))
        as [text H].
      rewrite H. now exists text, (initial_metadata libs f).
  - intros e. unfold parse_document, run.
    destruct (str_endswith (str_lower (file_name f)) ".pdf") eqn:Hpdf.
    + destruct (parse_pdf libs (file_bytes f) (initial_metadata libs f))
        as [[text|e0] d'] eqn:Hp; [discriminate|].
      intro H. inversion H; subst. split; [reflexivity|].
      exact (parse_pdf_raises_no_import_error _ _ _ _ Hp).
    + destruct (existsb (str_endswith (str_lower (file_name f))) IMAGE_EXTENSIONS).
      * destruct (parse_image_returns libs (file_bytes f) (initial_metadata libs f))
          as [text [d' H]].
        rewrite H. discriminate.
      * destruct (parse_other_returns libs (file_bytes f) (initial_metadata libs f))
          as [text H].
        rewrite H. discriminate.
  - intros stem suffix Hname Hsuffix.
    rewrite Hname, str_lower_app, Hsuffix. apply str_endswith_app.
Qed.

End ParseMore.

(** The text of page [page_num] as the loop builds it. *)
Lemma read_pages_cons (page_num : nat) (page : pdf_page) (rest : list pdf_page) :
  read_pages page_num (page :: rest) =
  match extract_text page with
  | Ok extracted =>
      match read_pages (S page_num) rest with
      | Ok parts =>
          Ok (("[PAGE " ++ str_of_nat page_num ++ "]" ++ nl
                 ++ (if Nat.ltb (String.length (str_strip (or_empty extracted))) 50
                     then _ocr_pdf_page page page_num
                     else or_empty extracted)) :: parts)
      | Raise e => Raise e
      end
  | Raise e => Raise e
  end.
Proof. reflexivity. Qed.

(** X8: when the page loop of the PDF branch returns, it has made one part
    per page, and the part of the page at position [i] is headed
    [[PAGE n]] with [n] counted from 1, followed by the extracted text when
    that has at least 50 characters after stripping, and by the OCR text or
    the OCR failure marker otherwise. *)
Theorem read_pages_numbers_every_page
  (pages : list pdf_page) (parts : list string) :
  read_pages 1 pages = Ok parts ->
  List.length parts = List.length pages /\
  forall i page,
    nth_error pages i = Some page ->
    exists extracted,
      extract_text page = Ok extracted /\
      nth_error parts i =
        Some ("[PAGE " ++ str_of_nat (S i) ++ "]" ++ nl
                ++ (if Nat.ltb (String.length (str_strip (or_empty extracted))) 50
                    then _ocr_pdf_page page (S i)
                    else or_empty extracted)).
Proof.
  assert (G : forall pages n parts,
             read_pages n pages = Ok parts ->
             List.length parts = List.length pages /\
             forall i page,
               nth_error pages i = Some page ->
               exists extracted,
                 extract_text page = Ok extracted /\
                 nth_error parts i =
                   Some ("[PAGE " ++ str_of_nat (n + i) ++ "]" ++ nl
                           ++ (if Nat.ltb (String.length
                                             (str_strip (or_empty extracted))) 50
                               then _ocr_pdf_page page (n + i)
                               else or_empty extracted))).
  { clear. induction pages as [|page rest IH]; intros n parts H.
    - inversion H; subst. split; [reflexivity|].
      intros i page Hi. destruct i; discriminate.
    - rewrite read_pages_cons in H.
      destruct (extract_text page) as [extracted|e] eqn:Hx; [|discriminate].
      destruct (read_pages (S n) rest) as [parts'|e] eqn:Hr; [|discriminate].
      inversion H; subst parts. clear H.
      destruct (IH (S n) parts' Hr) as [Hlen Hnth].
      split; [simpl; congruence|].
      intros i page' Hi. destruct i as [|i]; simpl in Hi.
      + inversion Hi; subst page'. exists extracted.
        split; [exact Hx|]. rewrite Nat.add_0_r. reflexivity.
      + destruct (Hnth i page' Hi) as [x [Hx' Hp]].
        exists x. split; [exact Hx'|].
        simpl. rewrite Hp. now rewrite <- plus_n_Sm. }
  intro H. exact (G pages 1 parts H).
Qed.

(** X9: an OCR failure never makes the PDF branch fail: the page loop
    raises exactly when [extract_text] raises on some page, and then with the
    exception of the first such page. *)
Theorem read_pages_fails_on_extract_text_only
  (page_num : nat) (pages : list pdf_page) :
  is_ok (read_pages page_num pages) =
    forallb (fun page => is_ok (extract_text page)) pages /\
  forall e, read_pages page_num pages = Raise e ->
    exists before page after,
      pages = (before ++ page :: after)%list /\
      extract_text page = Raise e /\
      forallb (fun p => is_ok (extract_text p)) before = true.
Proof.
  revert page_num. induction pages as [|page rest IH]; intro n.
  - split; [reflexivity|]. intros e H. discriminate.
  - destruct (IH (S n)) as [Hok Hfirst]. rewrite read_pages_cons.
    destruct (extract_text page) as [extracted|e0] eqn:Hx.
    + split.
      * simpl. rewrite Hx, <- Hok. simpl.
        now destruct (read_pages (S n) rest).
      * intros e H.
        destruct (read_pages (S n) rest) as [parts|e1] eqn:Hr; [discriminate|].
        inversion H; subst e1.
        destruct (Hfirst e eq_refl) as [before [p [after [Hp [He Hb]]]]].
        exists (page :: before), p, after. split; [simpl; congruence|].
        split; [exact He|]. simpl. now rewrite Hx.
    + split; [simpl; now rewrite Hx|].
      intros e H. inversion H; subst e0.
      exists [], page, rest. now repeat split.
Qed.

(** ** [chunk_text]: the fallback splitter *)

Lemma str_take_0 (s : string) : str_take 0 s = EmptyString.
Proof. reflexivity. Qed.

Lemma str_take_nil (n : nat) : str_take n EmptyString = EmptyString.
Proof. now destruct n. Qed.

Lemma str_take_S (n : nat) (c : ascii) (s : string) :
  str_take (S n) (String c s) = String c (str_take n s).
Proof. reflexivity. Qed.

Lemma str_take_length (n : nat) (s : string) :
  String.length (str_take n s) = Nat.min n (String.length s).
Proof.
  revert s. induction n as [|n IH]; intro s; [reflexivity|].
  destruct s as [|c s]; [reflexivity|].
  rewrite str_take_S. simpl. now rewrite IH.
Qed.

Lemma str_take_all (n : nat) (s : string) :
  String.length s <= n -> str_take n s = s.
Proof.
  revert s. induction n as [|n IH]; intros s H.
  - destruct s; [reflexivity|simpl in H; lia].
  - destruct s as [|c s]; [reflexivity|].
    rewrite str_take_S, IH; [reflexivity|simpl in H; lia].
Qed.

Lemma str_take_min (n : nat) (s : string) :
  str_take (Nat.min n (String.length s)) s = str_take n s.
Proof.
  revert s. induction n as [|n IH]; intro s; [reflexivity|].
  destruct s as [|c s]; [reflexivity|].
  simpl Nat.min. now rewrite !str_take_S, IH.
Qed.

Lemma str_take_take (n m : nat) (s : string) :
  n <= m -> str_take n (str_take m s) = str_take n s.
Proof.
  revert m s. induction n as [|n IH]; intros m s H; [reflexivity|].
  destruct m as [|m]; [lia|].
  destruct s as [|c s]; [reflexivity|].
  rewrite !str_take_S, IH; [reflexivity|lia].
Qed.

Lemma str_drop_length (n : nat) (s : string) :
  String.length (str_drop n s) = String.length s - n.
Proof.
  revert s. induction n as [|n IH]; intro s; simpl.
  - lia.
  - destruct s as [|c s]; [reflexivity|]. simpl. apply IH.
Qed.

Lemma str_drop_all (n : nat) (s : string) :
  String.length s <= n -> str_drop n s = EmptyString.
Proof.
  revert s. induction n as [|n IH]; intros s H.
  - destruct s; [reflexivity|simpl in H; lia].
  - destruct s as [|c s]; [reflexivity|]. simpl. apply IH. simpl in H. lia.
Qed.

Lemma str_drop_drop (n m : nat) (s : string) :
  str_drop n (str_drop m s) = str_drop (m + n) s.
Proof.
  revert s. induction m as [|m IH]; intro s; [reflexivity|].
  destruct s as [|c s]; simpl.
  - now destruct n.
  - apply IH.
Qed.

Lemma str_take_drop (n : nat) (s : string) :
  str_take n s ++ str_drop n s = s.
Proof.
  revert s. induction n as [|n IH]; intro s; [reflexivity|].
  destruct s as [|c s]; [reflexivity|].
  rewrite str_take_S. simpl. now rewrite IH.
Qed.

Lemma str_drop_take (n m : nat) (s : string) :
  str_drop n (str_take (n + m) s) = str_take m (str_drop n s).
Proof.
  revert s. induction n as [|n IH]; intro s; [reflexivity|].
  destruct s as [|c s].
  - simpl. now rewrite !str_take_nil.
  - change (S n + m) with (S (n + m)). rewrite str_take_S. simpl. apply IH.
Qed.

(** A slice that starts inside the text and has a positive width. *)
Lemma str_slice_inside (text : string) (start width : nat) :
  start < String.length text ->
  str_slice text (Z.of_nat start) (Z.of_nat start + Z.of_nat width) =
  str_take width (str_drop start text).
Proof.
  intro H. unfold str_slice, slice_index.
  destruct (Z.ltb_spec (Z.of_nat start) 0) as [N|_]; [lia|].
  destruct (Z.ltb_spec (Z.of_nat start + Z.of_nat width) 0) as [N|_]; [lia|].
  rewrite (Z.min_l (Z.of_nat start)) by lia.
  rewrite Nat2Z.id.
  replace (Z.to_nat (Z.min (Z.of_nat start + Z.of_nat width)
                       (Z.of_nat (String.length text)) - Z.of_nat start))
    with (Nat.min width (String.length (str_drop start text))).
  - apply str_take_min.
  - rewrite str_drop_length. lia.
Qed.

Section FallbackSplitter.

Variable text : string.
Variables size lap : nat.
Hypothesis lap_lt_size : lap < size.

Lemma chunk_loop_from (fuel : nat) :
  forall s, String.length text - s <= fuel ->
    exists chunks,
      chunk_loop fuel text (Z.of_nat size) (Z.of_nat lap) (Z.of_nat s)
        = Some chunks /\
      chunks_from text size lap s chunks.
Proof.
  assert (Hdone : forall s, String.length text <= s ->
                            chunks_from text size lap s []).
  { intros s Hs. split; [|split].
    - intros i c Hi. destruct i; discriminate.
    - simpl. lia.
    - simpl. symmetry. now apply str_drop_all. }
  induction fuel as [|fuel IH]; intros s Hfuel; simpl.
  - destruct (Z.ltb_spec (Z.of_nat s) (Z.of_nat (String.length text)))
      as [Hlt|Hge]; [lia|].
    exists []. split; [reflexivity|]. apply Hdone. lia.
  - destruct (Z.ltb_spec (Z.of_nat s) (Z.of_nat (String.length text)))
      as [Hlt|Hge].
    + assert (Hs : s < String.length text) by lia.
      replace (Z.of_nat s + (Z.of_nat size - Z.of_nat lap))%Z
        with (Z.of_nat (s + (size - lap))) by lia.
      destruct (IH (s + (size - lap))) as [chunks [Hrun [Hnth [Hcount Hcat]]]];
        [lia|].
      rewrite Hrun, str_slice_inside by exact Hs. simpl.
      eexists. split; [reflexivity|]. split; [|split].
      * intros i c Hi. destruct i as [|i]; simpl in Hi.
        -- inversion Hi; subst c. rewrite Nat.add_0_r. now split.
        -- destruct (Hnth i c Hi) as [Hpos Hc].
           replace (s + S i * (size - lap))
             with (s + (size - lap) + i * (size - lap)) by (simpl; lia).
           now split.
      * simpl. lia.
      * simpl. rewrite Hcat.
        rewrite str_take_take by lia.
        rewrite <- (str_drop_drop (size - lap) s text).
        apply str_take_drop.
    + exists []. split; [reflexivity|]. apply Hdone. lia.
Qed.

Lemma chunks_from_bounds (s : nat) (chunks : list string) :
  chunks_from text size lap s chunks ->
  Forall (fun c => 1 <= String.length c <= size) chunks.
Proof.
  intros [Hnth _]. apply Forall_forall. intros c Hc.
  apply In_nth_error in Hc. destruct Hc as [i Hi].
  destruct (Hnth i c Hi) as [Hpos Hc]. subst c.
  rewrite str_take_length, str_drop_length. lia.
Qed.

Lemma chunks_from_overlap (s : nat) (chunks : list string) :
  chunks_from text size lap s chunks ->
  forall i c c',
    nth_error chunks i = Some c ->
    nth_error chunks (S i) = Some c' ->
    str_drop (size - lap) c = str_take lap c'.
Proof.
  intros [Hnth _] i c c' Hi Hi'.
  destruct (Hnth i c Hi) as [_ Hc].
  destruct (Hnth (S i) c' Hi') as [_ Hc']. subst c c'.
  replace size with ((size - lap) + lap) at 2 by lia.
  rewrite str_drop_take, str_drop_drop, str_take_take by lia.
  f_equal. f_equal. simpl. lia.
Qed.

Lemma chunks_from_count (chunks : list string) :
  chunks_from text size lap 0 chunks ->
  String.length text <= List.length chunks * (size - lap) /\
  (List.length chunks - 1) * (size - lap)
    < String.length text + (1 - List.length chunks).
Proof.
  intros [Hnth [Hcount _]]. split; [lia|].
  destruct chunks as [|c chunks]; [simpl; lia|].
  assert (Hlast : exists c', nth_error (c :: chunks) (List.length chunks) = Some c').
  { destruct (nth_error (c :: chunks) (List.length chunks)) eqn:E;
      [now eexists|].
    apply nth_error_None in E. simpl in E. lia. }
  destruct Hlast as [c' Hc'].
  destruct (Hnth _ _ Hc') as [Hpos _]. simpl List.length. simpl in Hpos |- *.
  rewrite Nat.sub_0_r. lia.
Qed.

End FallbackSplitter.

Lemma chunk_loop_S (text : string) (chunk_size overlap start : Z) (fuel : nat) :
  chunk_loop (S fuel) text chunk_size overlap start =
  if (start <? Z.of_nat (String.length text))%Z
  then option_map (cons (str_slice text start (start + chunk_size)))
         (chunk_loop fuel text chunk_size overlap
            (start + (chunk_size - overlap))%Z)
  else Some [].
Proof. reflexivity. Qed.

(** More iterations do not change what the loop returns. *)
Lemma chunk_loop_more_fuel (text : string) (chunk_size overlap : Z) (fuel : nat) :
  forall start chunks,
    chunk_loop fuel text chunk_size overlap start = Some chunks ->
    chunk_loop (S fuel) text chunk_size overlap start = Some chunks.
Proof.
  induction fuel as [|fuel IH]; intros start chunks H; rewrite chunk_loop_S.
  - simpl in H.
    destruct (start <? Z.of_nat (String.length text))%Z; [discriminate|exact H].
  - rewrite chunk_loop_S in H.
    destruct (start <? Z.of_nat (String.length text))%Z; [|exact H].
    destruct (chunk_loop fuel text chunk_size overlap
                (start + (chunk_size - overlap))%Z) as [rest|] eqn:E;
      [|discriminate].
    now rewrite (IH _ _ E).
Qed.

Lemma chunk_loop_fuel_le (text : string) (chunk_size overlap start : Z)
  (chunks : list string) (fuel fuel' : nat) :
  fuel <= fuel' ->
  chunk_loop fuel text chunk_size overlap start = Some chunks ->
  chunk_loop fuel' text chunk_size overlap start = Some chunks.
Proof.
  induction 1 as [|fuel' _ IH]; intro H; [exact H|].
  now apply chunk_loop_more_fuel, IH.
Qed.

(** Whatever the number of iterations allowed, a result of the loop is the
    list of chunks described by [chunks_from]. *)
Lemma fallback_result (text : string) (chunk_size overlap : Z)
  (fuel : nat) (chunks : list string) :
  (0 <= overlap < chunk_size)%Z ->
  chunk_loop fuel text chunk_size overlap 0 = Some chunks ->
  chunks_from text (Z.to_nat chunk_size) (Z.to_nat overlap) 0 chunks.
Proof.
  intros Hcfg Hrun.
  destruct (chunk_loop_from text (Z.to_nat chunk_size) (Z.to_nat overlap)
              ltac:(lia) (Nat.max fuel (String.length text)) 0 ltac:(lia))
    as [chunks' [Hrun' Hfrom]].
  rewrite !Z2Nat.id in Hrun' by lia. change (Z.of_nat 0) with 0%Z in Hrun'.
  rewrite (chunk_loop_fuel_le text chunk_size overlap 0 chunks fuel
             (Nat.max fuel (String.length text)) ltac:(lia) Hrun) in Hrun'.
  inversion Hrun'; subst chunks'. exact Hfrom.
Qed.

Lemma map_take_all (n : nat) (chunks : list string) :
  Forall (fun c => 1 <= String.length c <= n) chunks ->
  map (str_take n) chunks = chunks.
Proof.
  induction 1 as [|c chunks Hc _ IH]; [reflexivity|].
  simpl. rewrite IH, str_take_all; [reflexivity|lia].
Qed.

(** X10: with [0 <= overlap < chunk_size] the fallback splitter comes to
    an end within as many iterations as the text has characters, and loses
    nothing: the first [chunk_size - overlap] characters of every chunk, put
    together, are the text, and without overlap the chunks themselves are;
    the empty text gives no chunk. *)
Theorem fallback_chunks_cover_text (text : string) (chunk_size overlap : Z) :
  (0 <= overlap < chunk_size)%Z ->
  exists chunks,
    (forall fuel, String.length text <= fuel ->
       chunk_loop fuel text chunk_size overlap 0 = Some chunks) /\
    str_concat (map (str_take (Z.to_nat (chunk_size - overlap))) chunks) = text /\
    (overlap = 0%Z -> str_concat chunks = text) /\
    (text = EmptyString -> chunks = []).
Proof.
  intro Hcfg.
  destruct (chunk_loop_from text (Z.to_nat chunk_size) (Z.to_nat overlap)
              ltac:(lia) (String.length text) 0 ltac:(lia))
    as [chunks [Hrun Hfrom]].
  rewrite !Z2Nat.id in Hrun by lia. change (Z.of_nat 0) with 0%Z in Hrun.
  exists chunks. split; [|split; [|split]].
  - intros fuel Hfuel. now apply (chunk_loop_fuel_le _ _ _ _ _ _ _ Hfuel).
  - destruct Hfrom as [_ [_ Hcat]].
    replace (Z.to_nat (chunk_size - overlap))
      with (Z.to_nat chunk_size - Z.to_nat overlap) by lia.
    exact Hcat.
  - intro Hzero. subst overlap.
    pose proof (chunks_from_bounds text (Z.to_nat chunk_size) (Z.to_nat 0)
                  ltac:(lia) 0 chunks Hfrom) as Hb.
    destruct Hfrom as [_ [_ Hcat]].
    change (Z.to_nat 0) with 0 in Hcat. rewrite Nat.sub_0_r in Hcat.
    now rewrite (map_take_all _ _ Hb) in Hcat.
  - intro Hempty. subst text. simpl in Hrun. now inversion Hrun.
Qed.

(** X11: with [0 <= overlap < chunk_size], every chunk of the fallback
    splitter has at least one and at most [chunk_size] characters, and their
    number [n] is the least one with
    [len(text) <= n * (chunk_size - overlap)]. *)
Theorem fallback_chunks_sizes (text : string) (chunk_size overlap : Z)
  (fuel : nat) (chunks : list string) :
  (0 <= overlap < chunk_size)%Z ->
  chunk_loop fuel text chunk_size overlap 0 = Some chunks ->
  Forall (fun c => 1 <= String.length c <= Z.to_nat chunk_size) chunks /\
  String.length text
    <= List.length chunks * Z.to_nat (chunk_size - overlap) /\
  (chunks <> [] ->
   (List.length chunks - 1) * Z.to_nat (chunk_size - overlap)
     < String.length text).
Proof.
  intros Hcfg Hrun.
  pose proof (fallback_result text chunk_size overlap fuel chunks Hcfg Hrun)
    as Hfrom.
  replace (Z.to_nat (chunk_size - overlap))
    with (Z.to_nat chunk_size - Z.to_nat overlap) by lia.
  split.
  - apply (chunks_from_bounds text (Z.to_nat chunk_size) (Z.to_nat overlap)
             ltac:(lia) 0 chunks Hfrom).
  - destruct (chunks_from_count text (Z.to_nat chunk_size) (Z.to_nat overlap)
                ltac:(lia) chunks Hfrom) as [Hup Hlow].
    split; [exact Hup|]. intro Hne.
    destruct chunks as [|c chunks]; [congruence|]. simpl in *. lia.
Qed.

(** X12: with [0 <= overlap < chunk_size], two chunks in a row overlap as
    configured: what is left of a chunk after its first
    [chunk_size - overlap] characters is the first [overlap] characters of
    the next chunk. *)
Theorem fallback_chunks_overlap (text : string) (chunk_size overlap : Z)
  (fuel : nat) (chunks : list string) (i : nat) (c c' : string) :
  (0 <= overlap < chunk_size)%Z ->
  chunk_loop fuel text chunk_size overlap 0 = Some chunks ->
  nth_error chunks i = Some c ->
  nth_error chunks (S i) = Some c' ->
  str_drop (Z.to_nat (chunk_size - overlap)) c = str_take (Z.to_nat overlap) c'.
Proof.
  intros Hcfg Hrun Hi Hi'.
  pose proof (fallback_result text chunk_size overlap fuel chunks Hcfg Hrun)
    as Hfrom.
  replace (Z.to_nat (chunk_size - overlap))
    with (Z.to_nat chunk_size - Z.to_nat overlap) by lia.
  apply (chunks_from_overlap text (Z.to_nat chunk_size) (Z.to_nat overlap)
           ltac:(lia) 0 chunks Hfrom i c c' Hi Hi').
Qed.

Lemma chunk_loop_stuck (text : string) (chunk_size overlap : Z) (fuel : nat) :
  (chunk_size <= overlap)%Z ->
  text <> EmptyString ->
  forall start, (start <= 0)%Z ->
    chunk_loop fuel text chunk_size overlap start = None.
Proof.
  intros Hcfg Htext.
  assert (Hlen : 0 < String.length text)
    by (destruct text; [congruence|simpl; lia]).
  induction fuel as [|fuel IH]; intros start Hstart; simpl.
  - destruct (Z.ltb_spec start (Z.of_nat (String.length text))); [reflexivity|lia].
  - destruct (Z.ltb_spec start (Z.of_nat (String.length text))); [|lia].
    rewrite IH by lia. reflexivity.
Qed.

(** X13: with [overlap >= chunk_size] the fallback splitter never comes to
    an end on a text that is not empty: no number of iterations brings the
    loop to its exit, and so [chunk_text] does not return when the import of
    the [langchain] splitter fails. *)
Theorem fallback_never_ends_without_progress
  (text : string) (chunk_size overlap : Z) :
  (chunk_size <= overlap)%Z ->
  text <> EmptyString ->
  forall fuel,
    chunk_loop fuel text chunk_size overlap 0 = None /\
    forall langchain_split e,
      langchain_split text chunk_size overlap = Raise e ->
      is_ImportError e = true ->
      chunk_text fuel langchain_split text chunk_size overlap = None.
Proof.
  intros Hcfg Htext fuel.
  pose proof (chunk_loop_stuck text chunk_size overlap fuel Hcfg Htext 0%Z
                ltac:(lia)) as Hstuck.
  split; [exact Hstuck|].
  intros langchain_split e Hsplit Hcls. unfold chunk_text.
  now rewrite Hsplit, Hcls, Hstuck.
Qed.

(** ** Batches of 100 *)

Lemma firstn_plus {A : Type} (n m : nat) (l : list A) :
  firstn (n + m) l = (firstn n l ++ firstn m (skipn n l))%list.
Proof.
  revert l. induction n as [|n IH]; intro l; [reflexivity|].
  destruct l as [|a l]; simpl.
  - now rewrite firstn_nil.
  - now rewrite IH.
Qed.

Lemma batches_prefix {A : Type} (size : nat) (l : list A) (k : nat) :
  List.concat (map (fun i => firstn size (skipn i l))
            (map (fun j => j * size) (seq 0 k))) = firstn (k * size) l.
Proof.
  induction k as [|k IH]; [reflexivity|].
  rewrite seq_S, !map_app, concat_app, IH. simpl.
  rewrite app_nil_r, <- firstn_plus. f_equal. lia.
Qed.

Lemma ceil_div_bounds (n size : nat) :
  0 < size ->
  n <= ((n + size - 1) / size) * size /\
  (forall j, j < (n + size - 1) / size -> j * size < n).
Proof.
  intro H.
  pose proof (Nat.div_mod_eq (n + size - 1) size) as E.
  pose proof (Nat.mod_upper_bound (n + size - 1) size ltac:(lia)) as U.
  split; [nia|]. intros j Hj. nia.
Qed.

(** The batches of a list, in order, are the list, and none is empty or
    longer than the batch size. *)
Lemma batches_spec {A : Type} (size : nat) (l : list A) :
  0 < size ->
  List.concat (batches size l) = l /\
  Forall (fun b => 1 <= List.length b <= size) (batches size l).
Proof.
  intro H. unfold batches, range_step.
  destruct (ceil_div_bounds (List.length l) size H) as [Hup Hlow].
  split.
  - rewrite batches_prefix. now apply firstn_all2.
  - apply Forall_forall. intros b Hb.
    apply in_map_iff in Hb. destruct Hb as [i [Hb Hi]]. subst b.
    apply in_map_iff in Hi. destruct Hi as [j [Hi Hj]]. subst i.
    apply in_seq in Hj. rewrite length_firstn, length_skipn.
    assert (j * size < List.length l) by (apply Hlow; lia). lia.
Qed.

Section IndexFacts.

Variable embedding : Type.
Variable sv : services embedding.
Variables CHUNK_SIZE CHUNK_OVERLAP : Z.

Lemma embed_batches_length (bs : list (list string)) (found : list embedding) :
  (forall batch es,
     embeddings_create sv batch = Ok es -> List.length es = List.length batch) ->
  embed_batches sv bs = Ok found ->
  List.length found = List.length (List.concat bs).
Proof.
  intro Hcreate. revert found.
  induction bs as [|batch rest IH]; intros found H; simpl in H.
  - now inversion H.
  - unfold and_then in H.
    destruct (embeddings_create sv batch) as [es|e] eqn:E; [|discriminate].
    destruct (embed_batches sv rest) as [more|e]; [|discriminate].
    inversion H; subst found. simpl.
    rewrite !length_app, (Hcreate _ _ E), (IH more eq_refl). reflexivity.
Qed.

(** X14: [get_embeddings] sends the texts to the embedding service in
    batches that are the texts in order, none empty and none longer than
    100; when the service answers every batch with one embedding for each of
    its texts, there are as many embeddings as texts; and an exception of
    the client set-up or of any batch is the outcome of the call. *)
Theorem get_embeddings_batches (texts : list string) :
  List.concat (batches 100 texts) = texts /\
  Forall (fun b => 1 <= List.length b <= 100) (batches 100 texts) /\
  (forall found,
     get_embeddings sv texts = Ok found ->
     (forall batch es,
        embeddings_create sv batch = Ok es ->
        List.length es = List.length batch) ->
     List.length found = List.length texts) /\
  (forall batch e,
     openai_client sv = Ok tt ->
     In batch (batches 100 texts) ->
     embeddings_create sv batch = Raise e ->
     is_ok (get_embeddings sv texts) = false).
Proof.
  destruct (batches_spec 100 texts ltac:(lia)) as [Hcat Hall].
  split; [exact Hcat|]. split; [exact Hall|]. split.
  - intros found H Hcreate. unfold get_embeddings, and_then in H.
    destruct (openai_client sv) as [[]|e]; [|discriminate].
    rewrite (embed_batches_length _ _ Hcreate H). now rewrite Hcat.
  - intros batch e Hclient Hin Hraise. unfold get_embeddings, and_then.
    rewrite Hclient. clear Hcat Hall.
    induction (batches 100 texts) as [|b rest IH]; [contradiction|].
    simpl. unfold and_then. destruct Hin as [Hb|Hin].
    + subst b. now rewrite Hraise.
    + destruct (embeddings_create sv b) as [es|e0]; [|reflexivity].
      specialize (IH Hin).
      now destruct (embed_batches sv rest).
Qed.

End IndexFacts.

(** ** The vectors of [index_document] *)

Lemma str_of_nat_inj (i j : nat) : str_of_nat i = str_of_nat j -> i = j.
Proof.
  unfold str_of_nat. intro H. apply Unsigned.to_uint_inj.
  pose proof (NilEmpty.usu (Nat.to_uint i)) as Hi.
  pose proof (NilEmpty.usu (Nat.to_uint j)) as Hj.
  rewrite H in Hi. congruence.
Qed.

Lemma str_app_inv_head (a x y : string) : a ++ x = a ++ y -> x = y.
Proof.
  induction a as [|c a IH]; simpl; intro H; [exact H|].
  inversion H. now apply IH.
Qed.

Section VectorFacts.

Variable embedding : Type.
Variable sv : services embedding.
Variables CHUNK_SIZE CHUNK_OVERLAP : Z.

Lemma build_vectors_nth (doc_hash : value) (patient_id : string)
  (filename : value) (total : nat) (pairs : list (string * embedding)) :
  forall i k v,
    nth_error (build_vectors sv doc_hash patient_id filename total i pairs) k
      = Some v ->
    exists chunk emb,
      nth_error pairs k = Some (chunk, emb) /\
      v = mkVector (py_str sv doc_hash ++ "_" ++ str_of_nat (i + k)) emb
            (str_take 500 chunk) patient_id filename (i + k) total.
Proof.
  induction pairs as [|[chunk emb] rest IH]; intros i k v H; simpl in H.
  - destruct k; discriminate.
  - destruct k as [|k]; simpl in H.
    + inversion H; subst v. exists chunk, emb.
      rewrite Nat.add_0_r. now split.
    + destruct (IH (S i) k v H) as [c [e [Hp Hv]]].
      exists c, e. split; [exact Hp|].
      now replace (i + S k) with (S i + k) by lia.
Qed.

Lemma build_vectors_length (doc_hash : value) (patient_id : string)
  (filename : value) (total : nat) (pairs : list (string * embedding)) :
  forall i,
    List.length (build_vectors sv doc_hash patient_id filename total i pairs)
    = List.length pairs.
Proof.
  induction pairs as [|[chunk emb] rest IH]; intro i; simpl; [reflexivity|].
  now rewrite IH.
Qed.

(** X15: the vectors [index_document] builds: one for each chunk that has
    an embedding (chunks beyond the embeddings are left out without a
    notice, while [total_chunks] still counts all chunks); the vector at
    position [k] carries the index [k], the id ["<hash>_<k>"] and the first
    500 characters of chunk [k]; and no two vectors share an id. *)
Theorem document_vectors_shape
  (metadata : dict) (patient_id : string)
  (chunks : list string) (embeddings : list embedding) :
  let vectors := document_vectors sv metadata patient_id chunks embeddings in
  List.length vectors
    = Nat.min (List.length chunks) (List.length embeddings) /\
  (forall k v,
     nth_error vectors k = Some v ->
     exists chunk,
       nth_error chunks k = Some chunk /\
       nth_error embeddings k = Some (vec_values v) /\
       vec_id v =
         py_str sv (dict_get_default (KStr "hash") (VStr "unknown") metadata)
           ++ "_" ++ str_of_nat k /\
       vec_text v = str_take 500 chunk /\
       String.length (vec_text v) <= 500 /\
       vec_chunk_index v = k /\
       vec_total_chunks v = List.length chunks /\
       vec_patient_id v = patient_id) /\
  NoDup (map (@vec_id embedding) vectors).
Proof.
  intro vectors. unfold vectors, document_vectors.
  split; [|split].
  - now rewrite build_vectors_length, length_combine.
  - intros k v Hk.
    destruct (build_vectors_nth _ _ _ _ _ 0 k v Hk) as [chunk [emb [Hp Hv]]].
    simpl in Hv. subst v. simpl.
    assert (Hc : nth_error chunks k = Some chunk /\
                 nth_error embeddings k = Some emb).
    { clear -Hp. revert chunks embeddings Hp.
      induction k as [|k IH]; intros [|c cs] [|e es] H; simpl in *;
        try discriminate.
      - inversion H. now split.
      - now apply IH. }
    destruct Hc as [Hc He].
    exists chunk. repeat split; try assumption.
    rewrite str_take_length. lia.
  - apply NoDup_nth_error. intros i j Hi Heq.
    rewrite length_map in Hi.
    rewrite !nth_error_map in Heq.
    destruct (nth_error (build_vectors sv _ patient_id _ (List.length chunks) 0
                           (combine chunks embeddings)) i) as [v|] eqn:Ei.
    2:{ apply nth_error_None in Ei. lia. }
    destruct (nth_error (build_vectors sv _ patient_id _ (List.length chunks) 0
                           (combine chunks embeddings)) j) as [w|] eqn:Ej;
      [|discriminate].
    destruct (build_vectors_nth _ _ _ _ _ 0 i v Ei) as [c [e [_ Hv]]].
    destruct (build_vectors_nth _ _ _ _ _ 0 j w Ej) as [c' [e' [_ Hw]]].
    subst v w. simpl in Heq. inversion Heq as [Hid].
    apply str_app_inv_head in Hid.
    change ("_" ++ str_of_nat i) with (String "_" (str_of_nat i)) in Hid.
    change ("_" ++ str_of_nat j) with (String "_" (str_of_nat j)) in Hid.
    inversion Hid as [Hn]. now apply str_of_nat_inj.
Qed.

Lemma upsert_batches_ok (bs sent : list (list (vector embedding))) :
  upsert_batches sv bs = (sent, Ok tt) -> sent = bs.
Proof.
  revert sent. induction bs as [|b rest IH]; intros sent H; simpl in H.
  - now inversion H.
  - destruct (index_upsert sv b) as [[]|e]; [|discriminate].
    destruct (upsert_batches sv rest) as [sent' outcome] eqn:E.
    inversion H; subst. f_equal. now apply IH.
Qed.

Lemma upsert_batches_prefix (bs : list (list (vector embedding))) :
  exists rest, bs = (fst (upsert_batches sv bs) ++ rest)%list.
Proof.
  induction bs as [|b bs IH]; simpl.
  - now exists [].
  - destruct (index_upsert sv b) as [[]|e].
    + destruct IH as [rest Hrest].
      destruct (upsert_batches sv bs) as [sent outcome]. simpl in *.
      exists rest. now rewrite <- Hrest.
    + now exists (b :: bs).
Qed.

(** X16: a count above zero from [index_document] means that every step
    went through: the text gave chunks, the chunks got embeddings, and the
    batches upserted are exactly the vectors built, the count being their
    number.  In every case the batches upserted are leading batches of the
    vectors, so a count of zero does not mean that nothing was stored. *)
Theorem index_document_count
  (fuel : nat) (raw_text : string) (metadata : dict) (patient_id : string)
  (count : Z) (sent : list (list (vector embedding))) :
  index_document sv CHUNK_SIZE CHUNK_OVERLAP fuel raw_text metadata patient_id
    = Some (count, sent) ->
  (0 <= count)%Z /\
  ((0 < count)%Z ->
   exists chunks embeddings,
     chunk_text fuel (langchain_split sv) raw_text CHUNK_SIZE CHUNK_OVERLAP
       = Some (Ok chunks) /\
     get_embeddings sv chunks = Ok embeddings /\
     List.concat sent = document_vectors sv metadata patient_id chunks embeddings /\
     count = Z.of_nat (Nat.min (List.length chunks) (List.length embeddings))) /\
  (sent <> [] ->
   exists chunks embeddings rest,
     chunk_text fuel (langchain_split sv) raw_text CHUNK_SIZE CHUNK_OVERLAP
       = Some (Ok chunks) /\
     get_embeddings sv chunks = Ok embeddings /\
     batches 100 (document_vectors sv metadata patient_id chunks embeddings)
       = (sent ++ rest)%list).
Proof.
  unfold index_document.
  destruct (chunk_text fuel (langchain_split sv) raw_text CHUNK_SIZE CHUNK_OVERLAP)
    as [[chunks|e]|]; [| |discriminate].
  2:{ intro H. inversion H; subst. repeat split; try lia; congruence. }
  destruct chunks as [|c chunks].
  { intro H. inversion H; subst. repeat split; try lia; congruence. }
  destruct (get_embeddings sv (c :: chunks)) as [embeddings|e] eqn:Hemb.
  2:{ intro H. inversion H; subst. repeat split; try lia; congruence. }
  destruct (get_pinecone_index sv) as [[]|e].
  2:{ intro H. inversion H; subst. repeat split; try lia; congruence. }
  pose proof (upsert_batches_prefix
                (batches 100 (document_vectors sv metadata patient_id
                                (c :: chunks) embeddings))) as [rest Hrest].
  destruct (upsert_batches sv
              (batches 100 (document_vectors sv metadata patient_id
                              (c :: chunks) embeddings)))
    as [sent' [[]|e]] eqn:Hup; intro H; inversion H; subst; simpl in Hrest.
  - split; [lia|]. split.
    + intros _. exists (c :: chunks), embeddings.
      split; [reflexivity|]. split; [exact Hemb|].
      rewrite (upsert_batches_ok _ _ Hup).
      destruct (batches_spec 100
                  (document_vectors sv metadata patient_id (c :: chunks)
                     embeddings) ltac:(lia)) as [Hcat _].
      split; [exact Hcat|].
      destruct (document_vectors_shape metadata patient_id (c :: chunks)
                  embeddings) as [Hlen _].
      now rewrite Hlen.
    + intros _. exists (c :: chunks), embeddings, rest.
      split; [reflexivity|]. split; [exact Hemb|exact Hrest].
  - split; [lia|]. split; [lia|].
    intros _. exists (c :: chunks), embeddings, rest.
    split; [reflexivity|]. split; [exact Hemb|exact Hrest].
Qed.

(** X17: with [0 <= CHUNK_OVERLAP < CHUNK_SIZE], [index_document] returns
    for every text, whichever of its services fail: once the splitter is
    allowed as many iterations as the text has characters, more iterations
    do not change the outcome; and the empty text gives the count 0 with
    nothing upserted when the [langchain] splitter is not installed. *)
Theorem index_document_returns
  (raw_text : string) (metadata : dict) (patient_id : string) :
  (0 <= CHUNK_OVERLAP < CHUNK_SIZE)%Z ->
  exists outcome,
    (forall fuel, String.length raw_text <= fuel ->
       index_document sv CHUNK_SIZE CHUNK_OVERLAP fuel raw_text metadata
         patient_id = Some outcome) /\
    (raw_text = EmptyString ->
     (forall e, langchain_split sv raw_text CHUNK_SIZE CHUNK_OVERLAP = Raise e ->
                is_ImportError e = true -> outcome = (0%Z, []))).
Proof.
  intro Hcfg.
  destruct (fallback_chunks_cover_text raw_text CHUNK_SIZE CHUNK_OVERLAP Hcfg)
    as [chunks [Hrun [_ [_ Hempty]]]].
  assert (Hchunk : exists r, forall fuel, String.length raw_text <= fuel ->
            chunk_text fuel (langchain_split sv) raw_text CHUNK_SIZE
              CHUNK_OVERLAP = Some r).
  { unfold chunk_text.
    destruct (langchain_split sv raw_text CHUNK_SIZE CHUNK_OVERLAP) as [cs|e].
    - now exists (Ok cs).
    - destruct (is_ImportError e).
      + exists (Ok chunks). intros fuel Hfuel. now rewrite (Hrun fuel Hfuel).
      + now exists (Raise e). }
  destruct Hchunk as [r Hr].
  exists (match index_document sv CHUNK_SIZE CHUNK_OVERLAP
                  (String.length raw_text) raw_text metadata patient_id with
          | Some outcome => outcome
          | None => (0%Z, [])
          end).
  split.
  - intros fuel Hfuel. unfold index_document.
    rewrite (Hr fuel Hfuel), (Hr (String.length raw_text) (le_n _)).
    destruct r as [[|c cs]|e]; try reflexivity.
    destruct (get_embeddings sv (c :: cs)); [|reflexivity].
    destruct (get_pinecone_index sv); [|reflexivity].
    now destruct (upsert_batches sv _) as [sent [[]|e]].
  - intros Htext e Hsplit Hcls. unfold index_document, chunk_text.
    rewrite Hsplit, Hcls, (Hrun _ (le_n _)), (Hempty Htext). reflexivity.
Qed.

(** X18: [save_patient_memory] is [index_document] on the same text and
    metadata: the [patient_id] and [namespace] entries it adds to the
    metadata are never read, so the vectors get the same ids and go to the
    same index as those of any other document, not to a namespace of the
    patient. *)
Theorem save_patient_memory_is_index_document
  (fuel : nat) (patient_id report_text : string) (metadata : dict) :
  save_patient_memory sv CHUNK_SIZE CHUNK_OVERLAP fuel patient_id report_text
    metadata =
  index_document sv CHUNK_SIZE CHUNK_OVERLAP fuel report_text metadata
    patient_id.
Proof.
  unfold save_patient_memory, index_document.
  assert (Hdv : forall chunks embeddings,
            document_vectors sv
              (dict_set (KStr "namespace") (VStr ("patient_" ++ patient_id))
                 (dict_set (KStr "patient_id") (VStr patient_id) metadata))
              patient_id chunks embeddings =
            document_vectors sv metadata patient_id chunks embeddings).
  { intros chunks embeddings. unfold document_vectors, dict_get_default.
    now rewrite !dict_get_set. }
  destruct (chunk_text fuel (langchain_split sv) report_text CHUNK_SIZE
              CHUNK_OVERLAP) as [[[|c cs]|e]|]; try reflexivity.
  destruct (get_embeddings sv (c :: cs)); [|reflexivity].
  destruct (get_pinecone_index sv); [|reflexivity].
  now rewrite Hdv.
Qed.

End VectorFacts.

(** ** The graph engine *)

Lemma list_item_first {A : Type} (x : A) (rest : list A) :
  list_item (x :: rest) 0 = Some x.
Proof.
  unfold list_item. change (0 <? 0)%Z with false. cbv iota.
  replace ((0 <=? 0) && (0 <? Z.of_nat (List.length (x :: rest))))%Z with true.
  - reflexivity.
  - symmetry. apply andb_true_iff. split; [reflexivity|].
    apply Z.ltb_lt. simpl List.length. lia.
Qed.

Lemma list_item_last {A : Type} (before : list A) (x : A) :
  list_item (before ++ [x])%list (-1) = Some x.
Proof.
  unfold list_item. change (-1 <? 0)%Z with true. cbv iota.
  rewrite length_app. simpl List.length.
  replace ((0 <=? -1 + Z.of_nat (List.length before + 1))
           && (-1 + Z.of_nat (List.length before + 1)
               <? Z.of_nat (List.length before + 1)))%Z with true.
  - replace (Z.to_nat (-1 + Z.of_nat (List.length before + 1)))
      with (List.length before) by lia.
    rewrite nth_error_app2 by (apply le_n). rewrite Nat.sub_diag. reflexivity.
  - symmetry. apply andb_true_iff.
    split; [apply Z.leb_le|apply Z.ltb_lt]; lia.
Qed.

Lemma live_answer_shape (result answer : value) :
  live_answer result = Ok answer ->
  exists a c d,
    answer = VDict [(KStr "answer", a); (KStr "cypher", c); (KStr "data", d)].
Proof.
  unfold live_answer, and_then.
  destruct (py_get result (KStr "result") _) as [a|]; [|discriminate].
  destruct (py_get result (KStr "intermediate_steps") _) as [steps|];
    [|discriminate].
  destruct (py_item steps 0) as [first|]; [|discriminate].
  destruct (py_get first (KStr "query") _) as [c|]; [|discriminate].
  destruct (py_item steps (-1)) as [last|]; [|discriminate].
  destruct (py_get last (KStr "context") _) as [d|]; [|discriminate].
  intro H. inversion H. now exists a, c, d.
Qed.

(** X19: whatever the chain does, [query] returns a mapping with exactly
    the entries [answer], [cypher] and [data], so [get_risk_propagation]
    never raises and always returns the [data] entry, never its own default;
    the engine handed to the tools never raises. *)
Theorem engine_query_shape
  (graph_qa : option (string -> result value)) (question : string) :
  (exists a c d,
     engine_query graph_qa question =
       VDict [(KStr "answer", a); (KStr "cypher", c); (KStr "data", d)]) /\
  (forall condition, exists d,
     get_risk_propagation graph_qa condition = Ok d /\
     exists a c q,
       engine_query graph_qa q =
         VDict [(KStr "answer", a); (KStr "cypher", c); (KStr "data", d)]) /\
  call_query (Some (medical_graph_engine graph_qa)) question =
    Ok (engine_query graph_qa question).
Proof.
  assert (Hshape : forall q, exists a c d,
            engine_query graph_qa q =
              VDict [(KStr "answer", a); (KStr "cypher", c); (KStr "data", d)]).
  { intro q. unfold engine_query. destruct graph_qa as [invoke|].
    - unfold and_then at 1.
      destruct (invoke q) as [result|e].
      + destruct (live_answer result) as [answer|e] eqn:E.
        * exact (live_answer_shape result answer E).
        * now eexists; eexists; eexists.
      + now eexists; eexists; eexists.
    - now eexists; eexists; eexists. }
  split; [apply Hshape|]. split; [|reflexivity].
  intro condition. unfold get_risk_propagation.
  match goal with
  | |- context [engine_query graph_qa ?q] =>
      destruct (Hshape q) as [a [c [d Hq]]]; rewrite Hq;
      exists d; split; [reflexivity|]; exists a, c, q; exact Hq
  end.
Qed.

(** X20: [query] answers with the demo data whenever there is no chain,
    the chain raises, its result is not a mapping, or the result lists no
    intermediate step; in demo mode the risk propagation of every condition
    is the same three demo relations. *)
Theorem engine_query_falls_back
  (invoke : string -> result value) (question : string) :
  engine_query None question = _demo_query question /\
  (forall e, invoke question = Raise e ->
     engine_query (Some invoke) question = _demo_query question) /\
  (forall result, invoke question = Ok result ->
     (forall d, result <> VDict d) ->
     engine_query (Some invoke) question = _demo_query question) /\
  (forall d, invoke question = Ok (VDict d) ->
     dict_get (KStr "intermediate_steps") d = Some (VList []) ->
     engine_query (Some invoke) question = _demo_query question) /\
  (forall condition,
     get_risk_propagation None condition =
       Ok (VList
             [ VDict [ (KStr "disease", VStr "Type 2 Diabetes");
                       (KStr "compound", VStr "Metformin");
                       (KStr "relation", VStr "treats") ];
               VDict [ (KStr "disease", VStr "Hypertension");
                       (KStr "compound", VStr "Amlodipine");
                       (KStr "relation", VStr "treats") ];
               VDict [ (KStr "gene", VStr "INS");
                       (KStr "disease", VStr "Type 2 Diabetes");
                       (KStr "relation", VStr "associates") ] ])).
Proof.
  split; [reflexivity|]. split; [|split; [|split]].
  - intros e H. unfold engine_query, and_then. now rewrite H.
  - intros result H Hnot. unfold engine_query, and_then. rewrite H.
    destruct result; try reflexivity. now elim (Hnot d).
  - intros d H Hsteps. unfold engine_query, and_then. rewrite H.
    unfold live_answer, and_then, py_get, dict_get_default. now rewrite Hsteps.
  - intro condition. reflexivity.
Qed.

(** X21: when the chain returns a mapping, the answer is its [result]
    entry, or the empty text; with intermediate steps that are mappings, the
    query text is the [query] entry of the first step and the data the
    [context] entry of the last one, each with its default when missing; and
    a result without an [intermediate_steps] entry is answered with an empty
    query text and no data, not with the demo data. *)
Theorem engine_query_live
  (invoke : string -> result value) (question : string) (d : dict) :
  invoke question = Ok (VDict d) ->
  (forall first rest before last,
     dict_get (KStr "intermediate_steps") d = Some (VList (VDict first :: rest)) ->
     (VDict first :: rest = before ++ [VDict last])%list ->
     engine_query (Some invoke) question =
       VDict [ (KStr "answer",
                dict_get_default (KStr "result") (VStr EmptyString) d);
               (KStr "cypher",
                dict_get_default (KStr "query") (VStr EmptyString) first);
               (KStr "data",
                dict_get_default (KStr "context") (VList []) last) ]) /\
  (dict_get (KStr "intermediate_steps") d = None ->
   engine_query (Some invoke) question =
     VDict [ (KStr "answer",
              dict_get_default (KStr "result") (VStr EmptyString) d);
             (KStr "cypher", VStr EmptyString);
             (KStr "data", VList []) ]).
Proof.
  intro H. split.
  - intros first rest before last Hsteps Hlast.
    assert (Hs : dict_get_default (KStr "intermediate_steps")
                   (VList [VDict []]) d = VList (VDict first :: rest))
      by (unfold dict_get_default; now rewrite Hsteps).
    unfold engine_query, and_then. rewrite H.
    unfold live_answer, and_then, py_get. rewrite Hs.
    cbn [py_item]. rewrite list_item_first.
    rewrite Hlast, list_item_last. reflexivity.
  - intro Hnone.
    assert (Hs : dict_get_default (KStr "intermediate_steps")
                   (VList [VDict []]) d = VList [VDict []])
      by (unfold dict_get_default; now rewrite Hnone).
    unfold engine_query, and_then. rewrite H.
    unfold live_answer, and_then, py_get. rewrite Hs. reflexivity.
Qed.

(** ** The caller of the pipeline *)

Lemma parse_document_raise_class (libs : libraries) (f : uploaded_file) (e : exn) :
  parse_document libs f = Raise e -> is_ImportError e = false.
Proof.
  unfold parse_document, run.
  destruct (str_endswith (str_lower (file_name f)) ".pdf").
  - destruct (parse_pdf libs (file_bytes f) (initial_metadata libs f))
      as [[text|e0] d'] eqn:Hp; [discriminate|].
    intro H. inversion H; subst.
    exact (parse_pdf_raises_no_import_error libs _ _ _ _ Hp).
  - destruct (existsb (str_endswith (str_lower (file_name f))) IMAGE_EXTENSIONS).
    + destruct (parse_image_returns libs (file_bytes f) (initial_metadata libs f))
        as [text [d' H]].
      rewrite H. discriminate.
    + destruct (parse_other_returns libs (file_bytes f) (initial_metadata libs f))
        as [text H].
      rewrite H. discriminate.
Qed.

Section SimulateFacts.

Variable json_loads : string -> result value.
Variable libs : libraries.
Variable fw : framework.
Variable import_agents : result unit.
Variable DEMO_RESULTS : dict.

(** X22: [simulate_analysis] shows the demo result only for a missing
    module: it returns the result of the pipeline when that returns, the
    demo result when an import of the pipeline raises [ImportError], and it
    raises what the pipeline raises otherwise; in particular a parser error
    of [parse_document] is never turned into the demo result and reaches the
    page. *)
Theorem simulate_analysis_outcomes
  (f : uploaded_file) (use_graphrag use_pinecone : bool) :
  (forall results,
     import_agents = Ok tt ->
     run_medical_analysis json_loads libs fw f use_graphrag use_pinecone None
       = Ok results ->
     simulate_analysis json_loads libs fw import_agents DEMO_RESULTS f
       use_graphrag use_pinecone = Ok results) /\
  (forall e,
     is_ImportError e = true ->
     import_agents = Raise e \/
     (import_agents = Ok tt /\ import_crewai fw = Raise e) ->
     simulate_analysis json_loads libs fw import_agents DEMO_RESULTS f
       use_graphrag use_pinecone = Ok DEMO_RESULTS) /\
  (forall e,
     simulate_analysis json_loads libs fw import_agents DEMO_RESULTS f
       use_graphrag use_pinecone = Raise e ->
     is_ImportError e = false /\
     (import_agents = Raise e \/
      (import_agents = Ok tt /\
       run_medical_analysis json_loads libs fw f use_graphrag use_pinecone
         None = Raise e))) /\
  (forall e,
     import_agents = Ok tt ->
     import_crewai fw = Ok tt ->
     parse_document libs f = Raise e ->
     simulate_analysis json_loads libs fw import_agents DEMO_RESULTS f
       use_graphrag use_pinecone = Raise e).
Proof.
  unfold simulate_analysis. split; [|split; [|split]].
  - intros results Hi Hrun. unfold and_then. now rewrite Hi, Hrun.
  - intros e Hcls [Hi|[Hi Hc]]; unfold and_then.
    + now rewrite Hi, Hcls.
    + rewrite Hi. unfold run_medical_analysis, and_then.
      now rewrite Hc, Hcls.
  - intros e. unfold and_then at 1.
    destruct import_agents as [[]|e0].
    + destruct (run_medical_analysis json_loads libs fw f use_graphrag
                  use_pinecone None) as [results|e1]; [discriminate|].
      destruct (is_ImportError e1) eqn:E; [discriminate|].
      intro H. inversion H; subst. split; [exact E|]. right. now split.
    + destruct (is_ImportError e0) eqn:E; [discriminate|].
      intro H. inversion H; subst. split; [exact E|]. now left.
  - intros e Hi Hc Hp. unfold and_then at 1. rewrite Hi.
    unfold run_medical_analysis, and_then. rewrite Hc, Hp.
    now rewrite (parse_document_raise_class libs f e Hp).
Qed.

End SimulateFacts.

(** ** The drug lookup over the mock retriever *)

Lemma is_space_lower (c : ascii) : is_space (lower_char c) = is_space c.
Proof. destruct c as [[] [] [] [] [] [] [] []]; reflexivity. Qed.

Lemma no_space_lower (s : string) :
  forallb (fun c => negb (is_space c)) (list_ascii_of_string s) = true ->
  forallb (fun c => negb (is_space c)) (list_ascii_of_string (str_lower s))
  = true.
Proof.
  induction s as [|c s IH]; simpl; [reflexivity|].
  intro H. apply andb_true_iff in H. destruct H as [Hc Hs].
  now rewrite is_space_lower, Hc, IH.
Qed.

(** A run of characters that are not blank goes to the word in progress. *)
Lemma split_from_word (w : string) :
  forallb (fun c => negb (is_space c)) (list_ascii_of_string w) = true ->
  forall rest acc, split_from (w ++ rest) acc = split_from rest (acc ++ w).
Proof.
  induction w as [|c w IH]; intros H rest acc.
  - now rewrite str_app_nil_r.
  - simpl in H. apply andb_true_iff in H. destruct H as [Hc Hw].
    apply negb_true_iff in Hc. simpl. rewrite Hc, (IH Hw), str_app_assoc.
    reflexivity.
Qed.

(** The words of the query [drugbank_lookup] makes for a one-word name. *)
Lemma drug_query_words (drug_name : string) :
  forallb (fun c => negb (is_space c)) (list_ascii_of_string drug_name) = true ->
  firstn 5 (str_split (str_lower
              ("drug:" ++ drug_name ++ " mechanism dosage side effects"))) =
  ["drug:" ++ str_lower drug_name; "mechanism"; "dosage"; "side"; "effects"].
Proof.
  intro H. rewrite !str_lower_app.
  change (str_lower "drug:") with "drug:".
  change (str_lower " mechanism dosage side effects")
    with " mechanism dosage side effects".
  unfold str_split. rewrite <- str_app_assoc.
  rewrite split_from_word.
  - reflexivity.
  - change ("drug:" ++ str_lower drug_name)
      with (String "d" (String "r" (String "u" (String "g" (String ":"
              (str_lower drug_name)))))).
    simpl. now apply no_space_lower.
Qed.

(** X23: over the mock retriever the drug lookup answers every one-word
    drug name with at most three passages, and the passage on Metformin is
    always among them: it is matched by the words [mechanism] and [dosage]
    that the tool adds to the query, whatever the drug asked for. *)
Theorem mock_drug_lookup_answers_metformin (drug_name : string) :
  forallb (fun c => negb (is_space c)) (list_ascii_of_string drug_name) = true ->
  List.length
    (mock_similarity_search
       ("drug:" ++ drug_name ++ " mechanism dosage side effects") 3) <= 3 /\
  drugbank_lookup (Some MockRetriever) drug_name =
    str_join nl
      (map page_content
         (mock_similarity_search
            ("drug:" ++ drug_name ++ " mechanism dosage side effects") 3)) /\
  str_contains (nth 2 MOCK_DOCS EmptyString)
    (drugbank_lookup (Some MockRetriever) drug_name) = true.
Proof.
  intro H.
  split; [unfold mock_similarity_search; apply firstn_le_length|].
  split; [reflexivity|].
  unfold drugbank_lookup, call_similarity_search, MockRetriever.
  cbn [similarity_search]. apply str_join_contains.
  unfold mock_similarity_search, get_relevant_documents.
  rewrite (drug_query_words drug_name H).
  set (words := ["drug:" ++ str_lower drug_name; "mechanism"; "dosage";
                 "side"; "effects"]).
  assert (H2 : doc_matches words (nth 2 MOCK_DOCS EmptyString) = true).
  { unfold doc_matches, words. cbn [existsb].
    replace (str_contains "mechanism" (str_lower (nth 2 MOCK_DOCS EmptyString)))
      with true by (vm_compute; reflexivity).
    now rewrite orb_true_r. }
  pose (d0 := nth 0 MOCK_DOCS EmptyString).
  pose (d1 := nth 1 MOCK_DOCS EmptyString).
  pose (d2 := nth 2 MOCK_DOCS EmptyString).
  pose (d3 := nth 3 MOCK_DOCS EmptyString).
  pose (d4 := nth 4 MOCK_DOCS EmptyString).
  change MOCK_DOCS with [d0; d1; d2; d3; d4] in H2 |- *.
  change (nth 2 [d0; d1; d2; d3; d4] EmptyString) with d2 in H2 |- *.
  change (nth 0 [d0; d1; d2; d3; d4] EmptyString) with d0.
  clearbody d0 d1 d2 d3 d4. cbn [filter]. rewrite H2.
  destruct (doc_matches words d0), (doc_matches words d1),
    (doc_matches words d3), (doc_matches words d4);
    cbn; tauto.
Qed.

(** ** The further properties at sample inputs *)

(** The array [[["risks", 1], 5]] as a prognosis output. *)
Lemma failed_update_keeps_leading_pairs_witness :
  pairs_json_loads pairs_text =
    Ok (VList (map pair_item [(KStr "risks", VInt 1)] ++ VInt 5 :: [])%list) /\
  is_ok (pair_of_item 1 (VInt 5)) = false /\
  merge_stage pairs_json_loads pairs_text [] =
    (Ok tt, [(KStr "risks", VInt 1)]) /\
  merge_diagnosis pairs_json_loads pairs_text [] =
    (Ok tt, [(KStr "risks", VInt 1); (KStr "summary", VStr pairs_text)]).
Proof.
  split; [reflexivity|]. split; [reflexivity|].
  destruct (failed_update_keeps_leading_pairs pairs_json_loads pairs_text
              [(KStr "risks", VInt 1)] (VInt 5) [] [] eq_refl eq_refl)
    as [Hstage [Hdiagnosis _]].
  split; [exact Hstage|exact Hdiagnosis].
Defined.

(** A garbled lifestyle output among three outputs that match their
    schemas. *)
Lemma failed_stage_is_an_empty_contribution_witness :
  Lifestyle <> Diagnosis /\
  sample_json_loads (raw_of Lifestyle garbled_lifestyle) = Raise decode_error /\
  sample_json_loads "{}" = Ok (VDict []) /\
  sample_json_loads "n/a" = Raise decode_error /\
  merge_results sample_json_loads garbled_lifestyle report_text [] =
    merge_results sample_json_loads
      (with_raw Lifestyle "{}" garbled_lifestyle) report_text [] /\
  merge_results sample_json_loads garbled_lifestyle report_text [] =
    merge_results sample_json_loads
      (with_raw Lifestyle "n/a" garbled_lifestyle) report_text [].
Proof.
  assert (Hst : Lifestyle <> Diagnosis) by discriminate.
  split; [exact Hst|]. split; [reflexivity|]. split; [reflexivity|].
  split; [reflexivity|].
  apply (failed_stage_is_an_empty_contribution sample_json_loads Lifestyle
           garbled_lifestyle "{}" "n/a" report_text [] decode_error
           decode_error Hst eq_refl eq_refl eq_refl).
Defined.

(** A query of three blanks. *)
Lemma blank_query_gets_first_passage_witness :
  forallb is_space (list_ascii_of_string "   ") = true /\
  get_relevant_documents "   " = [mkDocument (nth 0 MOCK_DOCS EmptyString)] /\
  vector_search (Some MockRetriever) "   " = nth 0 MOCK_DOCS EmptyString.
Proof.
  split; [reflexivity|].
  apply (blank_query_gets_first_passage "   " eq_refl).
Defined.

(** The vector search over the mock retriever on "diabetes". *)
Lemma tools_answer_with_every_passage_witness :
  call_similarity_search (Some MockRetriever) "diabetes" 5 =
    Ok (mock_similarity_search "diabetes" 5) /\
  str_contains (nth 3 MOCK_DOCS EmptyString)
    (vector_search (Some MockRetriever) "diabetes") = true.
Proof.
  split; [reflexivity|].
  destruct (tools_answer_with_every_passage (Some MockRetriever) "diabetes"
              (mock_similarity_search "diabetes" 5)) as [Hvector _].
  destruct (Hvector eq_refl) as [_ [Hall _]].
  apply (Hall (mkDocument (nth 3 MOCK_DOCS EmptyString))).
  vm_compute. tauto.
Defined.

(** A text report, and an empty file named as a PDF. *)
Lemma parse_document_raises_for_pdf_only_witness :
  (exists raw_text metadata,
     parse_document bare_libraries text_upload = Ok (raw_text, metadata)) /\
  str_endswith (str_lower (file_name broken_pdf_upload)) ".pdf" = true /\
  is_ImportError (mkExn (LibraryError "PDFSyntaxError")
                    "No /Root object! - Is this really a PDF?") = false.
Proof.
  destruct (parse_document_raises_for_pdf_only bare_libraries text_upload)
    as [Hother _].
  split; [apply Hother; reflexivity|].
  destruct (parse_document_raises_for_pdf_only pdfplumber_rejects
              broken_pdf_upload) as [_ [Hraise _]].
  apply (Hraise _ eq_refl).
Defined.

(** A page with a text layer followed by a scanned page. *)
Lemma read_pages_numbers_every_page_witness :
  read_pages 1 [text_page; scanned_page] =
    Ok [ "[PAGE 1]" ++ nl ++ page_text;
         "[PAGE 2]" ++ nl
           ++ "[OCR failed for page 2: No module named 'pytesseract']" ] /\
  List.length
    [ "[PAGE 1]" ++ nl ++ page_text;
      "[PAGE 2]" ++ nl
        ++ "[OCR failed for page 2: No module named 'pytesseract']" ]
  = List.length [text_page; scanned_page].
Proof.
  split; [reflexivity|].
  apply (read_pages_numbers_every_page [text_page; scanned_page] _ eq_refl).
Defined.

(** A page whose [extract_text] raises, after a page that is read. *)
Lemma read_pages_fails_on_extract_text_only_witness :
  read_pages 1 [text_page; broken_page; scanned_page] =
    Raise (mkExn (LibraryError "PDFSyntaxError") "bad page") /\
  exists before page after,
    [text_page; broken_page; scanned_page] = (before ++ page :: after)%list /\
    extract_text page = Raise (mkExn (LibraryError "PDFSyntaxError") "bad page") /\
    forallb (fun p => is_ok (extract_text p)) before = true.
Proof.
  split; [reflexivity|].
  destruct (read_pages_fails_on_extract_text_only 1
              [text_page; broken_page; scanned_page]) as [_ Hfirst].
  apply (Hfirst _ eq_refl).
Defined.

(** Ten characters in chunks of four that overlap by one. *)
Lemma fallback_chunks_cover_text_witness :
  (0 <= 1 < 4)%Z /\
  chunk_loop 10 "abcdefghij" 4 1 0 = Some ["abcd"; "defg"; "ghij"; "j"] /\
  exists chunks,
    (forall fuel, String.length "abcdefghij" <= fuel ->
       chunk_loop fuel "abcdefghij" 4 1 0 = Some chunks) /\
    str_concat (map (str_take (Z.to_nat (4 - 1))) chunks) = "abcdefghij" /\
    (1%Z = 0%Z -> str_concat chunks = "abcdefghij") /\
    ("abcdefghij" = EmptyString -> chunks = []).
Proof.
  assert (Hcfg : (0 <= 1 < 4)%Z) by (split; [discriminate|reflexivity]).
  split; [exact Hcfg|]. split; [reflexivity|].
  apply (fallback_chunks_cover_text "abcdefghij" 4 1 Hcfg).
Defined.

Lemma fallback_chunks_sizes_witness :
  (0 <= 1 < 4)%Z /\
  chunk_loop 10 "abcdefghij" 4 1 0 = Some ["abcd"; "defg"; "ghij"; "j"] /\
  Forall (fun c => 1 <= String.length c <= Z.to_nat 4)
    ["abcd"; "defg"; "ghij"; "j"] /\
  String.length "abcdefghij" <= 4 * Z.to_nat (4 - 1).
Proof.
  assert (Hcfg : (0 <= 1 < 4)%Z) by (split; [discriminate|reflexivity]).
  split; [exact Hcfg|]. split; [reflexivity|].
  destruct (fallback_chunks_sizes "abcdefghij" 4 1 10
              ["abcd"; "defg"; "ghij"; "j"] Hcfg eq_refl) as [Hall [Hup _]].
  split; [exact Hall|exact Hup].
Defined.

Lemma fallback_chunks_overlap_witness :
  (0 <= 1 < 4)%Z /\
  chunk_loop 10 "abcdefghij" 4 1 0 = Some ["abcd"; "defg"; "ghij"; "j"] /\
  str_drop (Z.to_nat (4 - 1)) "abcd" = str_take (Z.to_nat 1) "defg".
Proof.
  assert (Hcfg : (0 <= 1 < 4)%Z) by (split; [discriminate|reflexivity]).
  split; [exact Hcfg|]. split; [reflexivity|].
  apply (fallback_chunks_overlap "abcdefghij" 4 1 10
           ["abcd"; "defg"; "ghij"; "j"] 0 "abcd" "defg" Hcfg
           eq_refl eq_refl eq_refl).
Defined.

(** Chunks of three characters that overlap by three. *)
Lemma fallback_never_ends_without_progress_witness :
  (3 <= 3)%Z /\
  "abc" <> EmptyString /\
  chunk_loop 1000 "abc" 3 3 0 = None.
Proof.
  assert (Hcfg : (3 <= 3)%Z) by discriminate.
  assert (Htext : "abc" <> EmptyString) by discriminate.
  split; [exact Hcfg|]. split; [exact Htext|].
  apply (fallback_never_ends_without_progress "abc" 3 3 Hcfg Htext 1000).
Defined.

(** Two texts sent to the sample embedding service. *)
Lemma get_embeddings_batches_witness :
  get_embeddings sample_services ["HbA1c"; "7.8%"] = Ok [5; 4] /\
  List.length [5; 4] = List.length ["HbA1c"; "7.8%"].
Proof.
  split; [reflexivity|].
  destruct (get_embeddings_batches nat sample_services ["HbA1c"; "7.8%"])
    as [_ [_ [Hcount _]]].
  apply (Hcount [5; 4] eq_refl).
  intros batch es H. inversion H. apply length_map.
Defined.

(** The sample report indexed with chunks of 800 characters that overlap by
    100. *)
Lemma index_document_count_witness :
  index_document sample_services 800 100 11 report_text sample_metadata
    "anonymous" =
    Some (1%Z,
          [[mkVector "e3b038d4d6812c81_0" 11 report_text "anonymous"
              (VStr "report.txt") 0 1]]) /\
  (0 <= 1)%Z.
Proof.
  split; [reflexivity|].
  apply (index_document_count nat sample_services 800 100 11 report_text
           sample_metadata "anonymous" 1
           [[mkVector "e3b038d4d6812c81_0" 11 report_text "anonymous"
               (VStr "report.txt") 0 1]]
           eq_refl).
Defined.

Lemma index_document_returns_witness :
  (0 <= 100 < 800)%Z /\
  exists outcome,
    (forall fuel, String.length report_text <= fuel ->
       index_document sample_services 800 100 fuel report_text sample_metadata
         "anonymous" = Some outcome) /\
    (report_text = EmptyString ->
     forall e, langchain_split sample_services report_text 800 100 = Raise e ->
               is_ImportError e = true -> outcome = (0%Z, [])).
Proof.
  assert (Hcfg : (0 <= 100 < 800)%Z) by (split; [discriminate|reflexivity]).
  split; [exact Hcfg|].
  apply (index_document_returns nat sample_services 800 100 report_text
           sample_metadata "anonymous" Hcfg).
Defined.

(** A chain that is down, and a chain that answers. *)
Lemma engine_query_falls_back_witness :
  failing_chain "What treats diabetes?" =
    Raise (mkExn (LibraryError "ServiceUnavailable") "connection refused") /\
  engine_query (Some failing_chain) "What treats diabetes?" =
    _demo_query "What treats diabetes?".
Proof.
  split; [reflexivity|].
  destruct (engine_query_falls_back failing_chain "What treats diabetes?")
    as [_ [Hraise _]].
  apply (Hraise _ eq_refl).
Defined.

Lemma engine_query_live_witness :
  engine_query (Some answering_chain) "What treats diabetes?" =
    VDict [ (KStr "answer", VStr "Metformin treats type 2 diabetes.");
            (KStr "cypher", VStr "MATCH (c:Compound) RETURN c");
            (KStr "data", VList [VDict [(KStr "compound", VStr "Metformin")]]) ].
Proof.
  destruct (engine_query_live answering_chain "What treats diabetes?" _ eq_refl)
    as [Hsteps _].
  apply (Hsteps [(KStr "query", VStr "MATCH (c:Compound) RETURN c")]
           [VDict [(KStr "context",
                    VList [VDict [(KStr "compound", VStr "Metformin")]])]]
           [VDict [(KStr "query", VStr "MATCH (c:Compound) RETURN c")]]
           [(KStr "context",
             VList [VDict [(KStr "compound", VStr "Metformin")]])]
           eq_refl eq_refl).
Defined.

(** The page's call when [crewai] is missing, and when the crew run fails. *)
Lemma simulate_analysis_outcomes_witness :
  simulate_analysis sample_json_loads bare_libraries crew_fails (Ok tt)
    demo_results text_upload true true =
    Raise (mkExn (LibraryError "AuthenticationError")
             "Incorrect API key provided") /\
  is_ImportError (mkExn (LibraryError "AuthenticationError")
                    "Incorrect API key provided") = false /\
  simulate_analysis sample_json_loads bare_libraries crew_fails
    (Raise (missing "dotenv")) demo_results text_upload true true =
    Ok demo_results.
Proof.
  split; [reflexivity|].
  destruct (simulate_analysis_outcomes sample_json_loads bare_libraries
              crew_fails (Ok tt) demo_results text_upload true true)
    as [_ [_ [Hraise _]]].
  split; [apply (Hraise _ eq_refl)|].
  destruct (simulate_analysis_outcomes sample_json_loads bare_libraries
              crew_fails (Raise (missing "dotenv")) demo_results text_upload
              true true)
    as [_ [Hdemo _]].
  apply (Hdemo (missing "dotenv") eq_refl). now left.
Defined.

(** The drug lookup for "aspirin". *)
Lemma mock_drug_lookup_answers_metformin_witness :
  forallb (fun c => negb (is_space c)) (list_ascii_of_string "aspirin") = true /\
  str_contains (nth 2 MOCK_DOCS EmptyString)
    (drugbank_lookup (Some MockRetriever) "aspirin") = true.
Proof.
  split; [reflexivity|].
  apply (mock_drug_lookup_answers_metformin "aspirin" eq_refl).
Defined.
